(** * ioBroker.unfolded: the WebSocket adapter (main.js) and its one-shot
      REST sibling, embedded as state-passing Rocq functions.

    The adapter is a set of event handlers over one mutable instance
    ([ws], [reconnectTimeout], [connected]) and the host platform's object
    and state stores.  Every handler of the source is a definition of the
    same name below; the values it receives from the hub are untyped JSON,
    so they are modelled as a small universe of JavaScript values with the
    coercions the source relies on ([!x], [===], [!=], template literals,
    property access on [undefined]). *)

From Stdlib Require Import ZArith Lia Ascii String.
From stdpp Require Import base option list strings pretty gmap.

Set Warnings "-register-all".

Open Scope string_scope.
Open Scope list_scope.
Open Scope Z_scope.

(** ** JavaScript values *)

Inductive jsval : Type :=
| JUndefined
| JNull
| JBool (b : bool)
| JNum (n : Z)
| JStr (s : string)
| JArr (items : list jsval)
| JObj (fields : list (string * jsval)).

Record JsError : Type := mkError { err_name : string; err_message : string }.

Inductive Outcome (A : Type) : Type :=
| Ok (a : A)
| Throw (e : JsError).
Arguments Ok {A} a.
Arguments Throw {A} e.

Definition TypeError (m : string) : JsError := mkError "TypeError" m.

(** Builtins of the JavaScript runtime that the adapters call but do not
    define.  [JSON_parse] throws (a [SyntaxError]) on malformed text. *)
Class Runtime : Type := {
  JSON_parse : string -> Outcome jsval;
  JSON_stringify : jsval -> string;
  Number_toString : Z -> string;
  String_trim : string -> string;
  encodeURIComponent : string -> string
}.

Module Js.

(** [!!v]: the falsy values are [undefined], [null], [false], [0] and the
    empty string. *)
Definition truthy (v : jsval) : bool :=
  match v with
  | JUndefined | JNull => false
  | JBool b => b
  | JNum n => negb (n =? 0)
  | JStr s => negb (String.eqb s EmptyString)
  | JArr _ | JObj _ => true
  end.

Definition nullish (v : jsval) : bool :=
  match v with JUndefined | JNull => true | _ => false end.

Fixpoint assoc (k : string) (fs : list (string * jsval)) : option jsval :=
  match fs with
  | [] => None
  | (k', v) :: r => if String.eqb k k' then Some v else assoc k r
  end.

(** [v.k] for a [v] that is neither [undefined] nor [null].  The property
    names read by the adapters are plain data names, which no primitive,
    array or prototype defines, so only an object's own fields answer. *)
Definition prop (v : jsval) (k : string) : jsval :=
  match v with
  | JObj fs => default JUndefined (assoc k fs)
  | _ => JUndefined
  end.

(** [v === "s"], [v === n], [v === true]. *)
Definition is_str (v : jsval) (s : string) : bool :=
  match v with JStr t => String.eqb t s | _ => false end.
Definition is_num (v : jsval) (n : Z) : bool :=
  match v with JNum m => m =? n | _ => false end.
Definition is_true (v : jsval) : bool :=
  match v with JBool true => true | _ => false end.

Definition isArray (v : jsval) : bool :=
  match v with JArr _ => true | _ => false end.

Definition items (v : jsval) : list jsval :=
  match v with JArr l => l | _ => [] end.

(** [s.split(sep)] for a one-character separator: never empty, and an
    empty string yields one empty segment. *)
Fixpoint split (sep : Ascii.ascii) (s : string) : list string :=
  match s with
  | EmptyString => [EmptyString]
  | String c r =>
      if Ascii.eqb c sep then EmptyString :: split sep r
      else match split sep r with
           | h :: t => String c h :: t
           | [] => [String c EmptyString]
           end
  end.

(** [a[i]] on an array of strings: [undefined] out of range. *)
Definition index (a : list string) (i : Z) : jsval :=
  if i <? 0 then JUndefined
  else match a !! Z.to_nat i with Some s => JStr s | None => JUndefined end.

Fixpoint join (sep : string) (l : list string) : string :=
  match l with
  | [] => EmptyString
  | [x] => x
  | x :: r => x +:+ sep +:+ join sep r
  end.

Fixpoint sequence {A} (l : list (Outcome A)) : Outcome (list A) :=
  match l with
  | [] => Ok []
  | Ok a :: r => match sequence r with Ok r' => Ok (a :: r') | Throw e => Throw e end
  | Throw e :: _ => Throw e
  end.

Section WithRuntime.
Context {rt : Runtime}.

(** ToString, as a template literal applies it.  An object of parsed
    JSON converts through [Object.prototype.toString] unless it has an
    own (hence non-callable) [toString] field, in which case the
    conversion throws; an array joins its elements with commas, with
    [null] and [undefined] elements printed as nothing. *)
Fixpoint toString (v : jsval) : Outcome string :=
  match v with
  | JUndefined => Ok "undefined"
  | JNull => Ok "null"
  | JBool b => Ok (if b then "true" else "false")
  | JNum n => Ok (Number_toString n)
  | JStr s => Ok s
  | JArr l =>
      match sequence (map (fun x => if nullish x then Ok EmptyString else toString x) l) with
      | Ok ss => Ok (join "," ss)
      | Throw e => Throw e
      end
  | JObj fs =>
      match assoc "toString" fs with
      | Some _ => Throw (TypeError "Cannot convert object to primitive value")
      | None => Ok "[object Object]"
      end
  end.

(** [v != "s"] (loose): a string compares by content, an array or
    object through its primitive, and every other value differs from a
    string that is not numeric ([Number("OFF")] is [NaN]). *)
Definition loose_neq_word (v : jsval) (s : string) : Outcome bool :=
  match v with
  | JStr t => Ok (negb (String.eqb t s))
  | JArr _ | JObj _ =>
      match toString v with
      | Ok t => Ok (negb (String.eqb t s))
      | Throw e => Throw e
      end
  | _ => Ok true
  end.

End WithRuntime.

End Js.

(** ** Handlers as state-passing computations

    A handler runs against a store [S] and either returns or throws; what
    it did to the store before throwing stays done. *)

Definition M (S A : Type) : Type := S -> Outcome A * S.

Definition ret {S A} (a : A) : M S A := fun w => (Ok a, w).

Definition bind {S A B} (m : M S A) (k : A -> M S B) : M S B :=
  fun w =>
    match m w with
    | (Ok a, w') => k a w'
    | (Throw e, w') => (Throw e, w')
    end.

Definition throw {S A} (e : JsError) : M S A := fun w => (Throw e, w).

Definition lift {S A} (o : Outcome A) : M S A := fun w => (o, w).

Definition gets {S A} (f : S -> A) : M S A := fun w => (Ok (f w), w).

Definition modify {S} (f : S -> S) : M S unit := fun w => (Ok tt, f w).

(** [try { m } catch (err) { h err }] *)
Definition try_catch {S A} (m : M S A) (h : JsError -> M S A) : M S A :=
  fun w =>
    match m w with
    | (Throw e, w') => h e w'
    | r => r
    end.

Definition when {S} (c : bool) (m : M S unit) : M S unit :=
  if c then m else ret tt.

Fixpoint for_of {S A} (l : list A) (body : A -> M S unit) : M S unit :=
  match l with
  | [] => ret tt
  | x :: r => bind (body x) (fun _ => for_of r body)
  end.

#[global] Instance M_ret {S} : MRet (M S) := fun A a => ret a.
#[global] Instance M_bind {S} : MBind (M S) := fun A B k m => bind m k.

(** [v.k], throwing the [TypeError] of a property read on [undefined] or
    [null]. *)
Definition get {S} (v : jsval) (k : string) : M S jsval :=
  if Js.nullish v
  then throw (TypeError ("Cannot read properties of "
                         +:+ (match v with JNull => "null" | _ => "undefined" end)
                         +:+ " (reading '" +:+ k +:+ "')"))
  else ret (Js.prop v k).

(** [v.split(".")]: only a string has the method. *)
Definition split_dots {S} (v : jsval) : M S (list string) :=
  match v with
  | JStr s => ret (Js.split "."%char s)
  | JUndefined =>
      throw (TypeError "Cannot read properties of undefined (reading 'split')")
  | JNull =>
      throw (TypeError "Cannot read properties of null (reading 'split')")
  | _ => throw (TypeError "split is not a function")
  end.

(** ** The WebSocket adapter (main.js, class Unfolded) *)

Module Unfolded.

Record Config : Type := mkConfig { host : string; port : Z; apikey : string }.

Inductive LogLevel : Type := Silly | Debug | Info | Warn | Error.

(** Host object tree.  An object given to [extendObject] names only some
    of the [common] fields; [None] and an [undefined] name stand for a
    field the literal does not set. *)
Record Common : Type := mkCommon {
  c_name : jsval;
  c_type : option string;
  c_role : option string;
  c_read : option bool;
  c_write : option bool
}.

Record IoObject : Type := mkObject {
  o_type : string;
  o_common : Common;
  o_native : list (string * jsval)
}.

Record StateVal : Type := mkState { val : jsval; ack : bool }.

(** A socket made by [new WebSocket(url, { headers })].  [token] is the
    value its handlers close over; [outbox] lists every frame handed to
    [send], oldest first. *)
Record Socket : Type := mkSocket {
  s_url : string;
  s_token : string;
  s_headers : list (string * string);
  s_closes : nat;
  outbox : list string
}.

(** The two closures the adapter gives to [setTimeout]. *)
Inductive Callback : Type :=
| Reconnect (url token : string)
| ResetButton (id : string).

Record Timer : Type := mkTimer { handle : nat; delay : Z; callback : Callback }.

(** Instance fields ([ws], [reconnectTimeout], [connected]), the host
    stores, and the environment: sockets made so far, timers still
    pending, and whether the transport currently makes [send] or [close]
    throw. *)
Record World : Type := mkWorld {
  config : Config;
  ws : option nat;
  reconnectTimeout : option nat;
  connected : bool;
  objects : gmap string IoObject;
  states : gmap string StateVal;
  subscriptions : gset string;
  log : list (LogLevel * string);
  sockets : list Socket;
  timers : list Timer;
  next_handle : nat;
  send_fault : option string;
  close_fault : option string;
  unloaded : nat;
  uncaught : list JsError
}.

Definition upd_ws (f : option nat -> option nat) (w : World) : World :=
  mkWorld (config w) (f (ws w)) (reconnectTimeout w) (connected w) (objects w)
    (states w) (subscriptions w) (log w) (sockets w) (timers w) (next_handle w)
    (send_fault w) (close_fault w) (unloaded w) (uncaught w).
Definition upd_reconnectTimeout (f : option nat -> option nat) (w : World) : World :=
  mkWorld (config w) (ws w) (f (reconnectTimeout w)) (connected w) (objects w)
    (states w) (subscriptions w) (log w) (sockets w) (timers w) (next_handle w)
    (send_fault w) (close_fault w) (unloaded w) (uncaught w).
Definition upd_connected (f : bool -> bool) (w : World) : World :=
  mkWorld (config w) (ws w) (reconnectTimeout w) (f (connected w)) (objects w)
    (states w) (subscriptions w) (log w) (sockets w) (timers w) (next_handle w)
    (send_fault w) (close_fault w) (unloaded w) (uncaught w).
Definition upd_objects (f : gmap string IoObject -> gmap string IoObject)
    (w : World) : World :=
  mkWorld (config w) (ws w) (reconnectTimeout w) (connected w) (f (objects w))
    (states w) (subscriptions w) (log w) (sockets w) (timers w) (next_handle w)
    (send_fault w) (close_fault w) (unloaded w) (uncaught w).
Definition upd_states (f : gmap string StateVal -> gmap string StateVal)
    (w : World) : World :=
  mkWorld (config w) (ws w) (reconnectTimeout w) (connected w) (objects w)
    (f (states w)) (subscriptions w) (log w) (sockets w) (timers w) (next_handle w)
    (send_fault w) (close_fault w) (unloaded w) (uncaught w).
Definition upd_subscriptions (f : gset string -> gset string) (w : World) : World :=
  mkWorld (config w) (ws w) (reconnectTimeout w) (connected w) (objects w) (states w)
    (f (subscriptions w)) (log w) (sockets w) (timers w) (next_handle w) (send_fault w)
    (close_fault w) (unloaded w) (uncaught w).
Definition upd_log (f : list (LogLevel * string) -> list (LogLevel * string))
    (w : World) : World :=
  mkWorld (config w) (ws w) (reconnectTimeout w) (connected w) (objects w) (states w)
    (subscriptions w) (f (log w)) (sockets w) (timers w) (next_handle w) (send_fault w)
    (close_fault w) (unloaded w) (uncaught w).
Definition upd_sockets (f : list Socket -> list Socket) (w : World) : World :=
  mkWorld (config w) (ws w) (reconnectTimeout w) (connected w) (objects w) (states w)
    (subscriptions w) (log w) (f (sockets w)) (timers w) (next_handle w) (send_fault w)
    (close_fault w) (unloaded w) (uncaught w).
Definition upd_timers (f : list Timer -> list Timer) (w : World) : World :=
  mkWorld (config w) (ws w) (reconnectTimeout w) (connected w) (objects w) (states w)
    (subscriptions w) (log w) (sockets w) (f (timers w)) (next_handle w) (send_fault w)
    (close_fault w) (unloaded w) (uncaught w).
Definition upd_next_handle (f : nat -> nat) (w : World) : World :=
  mkWorld (config w) (ws w) (reconnectTimeout w) (connected w) (objects w) (states w)
    (subscriptions w) (log w) (sockets w) (timers w) (f (next_handle w)) (send_fault w)
    (close_fault w) (unloaded w) (uncaught w).
Definition upd_send_fault (f : option string -> option string) (w : World) : World :=
  mkWorld (config w) (ws w) (reconnectTimeout w) (connected w) (objects w) (states w)
    (subscriptions w) (log w) (sockets w) (timers w) (next_handle w) (f (send_fault w))
    (close_fault w) (unloaded w) (uncaught w).
Definition upd_close_fault (f : option string -> option string) (w : World) : World :=
  mkWorld (config w) (ws w) (reconnectTimeout w) (connected w) (objects w) (states w)
    (subscriptions w) (log w) (sockets w) (timers w) (next_handle w) (send_fault w)
    (f (close_fault w)) (unloaded w) (uncaught w).
Definition upd_unloaded (f : nat -> nat) (w : World) : World :=
  mkWorld (config w) (ws w) (reconnectTimeout w) (connected w) (objects w) (states w)
    (subscriptions w) (log w) (sockets w) (timers w) (next_handle w) (send_fault w)
    (close_fault w) (f (unloaded w)) (uncaught w).
Definition upd_uncaught (f : list JsError -> list JsError) (w : World) : World :=
  mkWorld (config w) (ws w) (reconnectTimeout w) (connected w) (objects w) (states w)
    (subscriptions w) (log w) (sockets w) (timers w) (next_handle w) (send_fault w)
    (close_fault w) (unloaded w) (f (uncaught w)).

Definition init (cfg : Config) : World :=
  mkWorld cfg None None false ∅ ∅ ∅ [] [] [] 0%nat None None 0%nat [].

Abbreviation Act := (M World).

(** *** Host and transport primitives

    The host keeps objects and states under the id the adapter passes; it
    resolves a relative id against the instance namespace, which no
    handler depends on.  A socket's [outbox] takes a frame when the frame
    is handed to [send], before the transport decides whether the call
    throws.  Constructing a socket is taken to succeed. *)

Definition logger (l : LogLevel) (m : string) : Act unit :=
  modify (upd_log (fun x => x ++ [(l, m)])).

Definition setState (id : string) (v : jsval) (a : bool) : Act unit :=
  modify (upd_states (fun m => <[id := mkState v a]> m)).

Definition or_else {A} (new old : option A) : option A :=
  match new with Some x => Some x | None => old end.

Definition merge_common (old new : Common) : Common :=
  mkCommon (match c_name new with JUndefined => c_name old | n => n end)
           (or_else (c_type new) (c_type old))
           (or_else (c_role new) (c_role old))
           (or_else (c_read new) (c_read old))
           (or_else (c_write new) (c_write old)).

(** [extendObject]: create the object when it is absent, else lay the
    given fields over the stored ones. *)
Definition extend (old : option IoObject) (new : IoObject) : IoObject :=
  match old with
  | None => new
  | Some o => mkObject (o_type new) (merge_common (o_common o) (o_common new))
                       (o_native new ++ o_native o)
  end.

Definition extendObject (id : string) (obj : IoObject) : Act unit :=
  modify (upd_objects (fun m => <[id := extend (m !! id) obj]> m)).

Definition subscribeStates (pattern : string) : Act unit :=
  modify (upd_subscriptions (fun s => {[pattern]} ∪ s)).

Definition setTimeout (cb : Callback) (ms : Z) : Act nat :=
  fun w => (Ok (next_handle w),
            upd_next_handle S (upd_timers (fun t => t ++ [mkTimer (next_handle w) ms cb]) w)).

(** [clearTimeout(h)]; a [null] or stale handle clears nothing. *)
Definition clearTimeout (h : option nat) : Act unit :=
  modify (upd_timers (filter (fun t => Some (handle t) ≠ h))).

Definition new_WebSocket (url token : string) (headers : list (string * string)) : Act nat :=
  fun w => (Ok (length (sockets w)),
            upd_sockets (fun l => l ++ [mkSocket url token headers 0 []]) w).

Definition fault (f : World -> option string) : Act unit :=
  o ← gets f;
  match o with
  | Some m => throw (mkError "Error" m)
  | None => mret tt
  end.

(** [this.ws.send(data)]: reading [send] off a [null] socket throws;
    otherwise the frame is handed over and the call throws when the
    transport is at fault. *)
Definition ws_send (data : string) : Act unit :=
  s ← gets ws;
  match s with
  | None => throw (TypeError "Cannot read properties of null (reading 'send')")
  | Some i =>
      modify (upd_sockets (alter (fun k =>
        mkSocket (s_url k) (s_token k) (s_headers k) (s_closes k) (outbox k ++ [data])) i));;
      fault send_fault
  end.

(** [sock.close()] *)
Definition ws_close (i : nat) : Act unit :=
  modify (upd_sockets (alter (fun k =>
    mkSocket (s_url k) (s_token k) (s_headers k) (S (s_closes k)) (outbox k)) i));;
  fault close_fault.

Section Handlers.
Context {rt : Runtime}.

(** [`${v}`] *)
Definition tpl (v : jsval) : Act string := lift (Js.toString v).

Definition subscribeActivities : Act unit :=
  let msg := JObj [("kind", JStr "req"); ("id", JNum 0); ("msg", JStr "subscribe_events");
                   ("msg_data", JObj [("channels", JArr [JStr "entity_activity"])])] in
  logger Info "Subscribe alle Activities auf der Remote 3  ...";;
  ws_send (JSON_stringify msg).

Definition requestAllActivities : Act unit :=
  let msg := JObj [("kind", JStr "req"); ("id", JNum 0); ("msg", JStr "get_entities");
                   ("msg_data", JObj [("filter",
                      JObj [("entity_types", JArr [JStr "activity"])])])] in
  logger Info "Fordere alle Activities von der Remote 3 an ...";;
  ws_send (JSON_stringify msg).

(** [act.entity_id.split(".")[2]], the expression both
    [createOrUpdateActivity] and the event branch of [handleMessage] start
    with. *)
Definition entity_key (act : jsval) : Act jsval :=
  eid ← get act "entity_id";
  parts ← split_dots eid;
  mret (Js.index parts 2).

Definition createOrUpdateActivity (act : jsval) : Act unit :=
  id ← entity_key act;
  nm ← get act "name";
  de ← get nm "de_DE";
  name ← (if Js.truthy de then mret de
          else en ← get nm "en_US"; mret (if Js.truthy en then en else id));
  ids ← tpl id;
  extendObject ("activities." +:+ ids)
    (mkObject "channel" (mkCommon name None None None None) []);;
  extendObject ("activities." +:+ ids +:+ ".is_active")
    (mkObject "state"
       (mkCommon (JStr "Activity aktiv?") (Some "boolean") (Some "indicator")
                 (Some true) (Some false)) []);;
  attrs ← get act "attributes";
  st ← get attrs "state";
  active ← lift (Js.loose_neq_word st "OFF");
  setState ("activities." +:+ ids +:+ ".is_active") (JBool active) true;;
  subscribeStates ("activities." +:+ ids +:+ ".start");;
  extendObject ("activities." +:+ ids +:+ ".start")
    (mkObject "state"
       (mkCommon (JStr "Starte diese Aktivität") (Some "boolean") (Some "button")
                 (Some false) (Some true)) []).

Definition handleMessage (msg : jsval) : Act unit :=
  logger Silly ("Empfangene WS-Nachricht: " +:+ JSON_stringify msg);;
  m ← get msg "msg";
  ms ← tpl m;
  logger Debug ("Empfangene WS-Nachricht: " +:+ ms);;
  let msg_data := Js.prop msg "msg_data" in
  when (Js.truthy msg && Js.truthy msg_data) (
    when (Js.is_str (Js.prop msg "kind") "resp" && Js.is_num (Js.prop msg "code") 200) (
      let entities := Js.prop msg_data "entities" in
      when (Js.is_str m "entities" && Js.truthy entities && Js.isArray entities) (
        for_of (Js.items entities) createOrUpdateActivity));;
    when (Js.is_str (Js.prop msg "kind") "event") (
      when (Js.is_str m "entity_change" && Js.is_str (Js.prop msg "cat") "ENTITY"
            && Js.truthy msg_data
            && Js.is_str (Js.prop msg_data "entity_type") "activity"
            && Js.is_str (Js.prop msg_data "event_type") "CHANGE"
            && Js.truthy (Js.prop msg_data "new_state")) (
        let act := msg_data in
        id ← entity_key act;
        attrs ← get (Js.prop act "new_state") "attributes";
        nstate ← get attrs "state";
        let isActive := Js.is_str nstate "ON" in
        when (Js.is_str nstate "ON" || Js.is_str nstate "OFF") (
          ids ← tpl id;
          logger Info ("Aktivität-Status geändert: " +:+ ids +:+ " => is_active="
                       +:+ (if isActive then "true" else "false"));;
          setState ("activities." +:+ ids +:+ ".is_active") (JBool isActive) true)))).

(** An [async] call that nobody awaits: what it throws is a rejection
    no handler sees. *)
Definition spawn (m : Act unit) : Act unit :=
  try_catch m (fun e => modify (upd_uncaught (fun l => l ++ [e]))).

Definition onStateChange (id : string) (state : jsval) : Act unit :=
  logger Debug ("StateChange: " +:+ id +:+ " => " +:+ JSON_stringify state);;
  if negb (Js.truthy state) || Js.truthy (Js.prop state "ack") then mret tt
  else
    let parts := Js.split "." id in
    let actId := Js.index parts (Z.of_nat (length parts) - 2) in
    let command := Js.index parts (Z.of_nat (length parts) - 1) in
    isConnected ← gets connected;
    when (Js.is_str command "start" && Js.is_true (Js.prop state "val") && isConnected) (
      act ← tpl actId;
      logger Info ("Starte Aktivität über WebSocket: " +:+ act);;
      let msg := JObj [("kind", JStr "req"); ("id", JNum 0);
                       ("msg", JStr "execute_entity_command");
                       ("msg_data", JObj [("entity_id", JStr ("uc.main." +:+ act));
                                          ("cmd_id", JStr "activity.start")])] in
      try_catch
        (ws_send (JSON_stringify msg);;
         logger Info ("Startbefehl für '" +:+ act +:+ "' gesendet."))
        (fun err => logger Error ("Fehler beim Senden von Startbefehl: " +:+ err_message err));;
      _ ← setTimeout (ResetButton id) 500;
      mret tt).

Definition callback_done : Act unit := modify (upd_unloaded S).

Definition onUnload : Act unit :=
  try_catch
    (s ← gets ws;
     match s with Some i => ws_close i | None => mret tt end;;
     h ← gets reconnectTimeout;
     clearTimeout h;;
     callback_done)
    (fun _ => callback_done).

Definition connectWebSocket (url token : string) : Act unit :=
  old ← gets ws;
  match old with Some i => ws_close i | None => mret tt end;;
  let headers := if negb (String.eqb token EmptyString) then [("API-KEY", token)] else [] in
  s ← new_WebSocket url token headers;
  modify (upd_ws (fun _ => Some s)).

(** The four listeners [connectWebSocket] installs on the socket it
    makes. *)
Definition ws_on_open : Act unit :=
  modify (upd_connected (fun _ => true));;
  setState "info.connection" (JBool true) true;;
  logger Info "WebSocket verbunden mit Remote 3.";;
  subscribeActivities;;
  requestAllActivities.

Definition ws_on_message (data : string) : Act unit :=
  try_catch
    (msg ← lift (JSON_parse data);
     spawn (handleMessage msg))
    (fun err => logger Warn ("Fehler beim Parsen von WS-Nachricht: " +:+ err_message err)).

Definition ws_on_close (url token : string) : Act unit :=
  modify (upd_connected (fun _ => false));;
  setState "info.connection" (JBool false) true;;
  logger Warn "WebSocket getrennt. Reconnect in 5s ...";;
  h ← gets reconnectTimeout;
  when (bool_decide (is_Some h)) (clearTimeout h);;
  t ← setTimeout (Reconnect url token) 5000;
  modify (upd_reconnectTimeout (fun _ => Some t)).

Definition ws_on_error (message : string) : Act unit :=
  logger Error ("WebSocket-Fehler: " +:+ message).

Definition onReady : Act unit :=
  cfg ← gets config;
  let host := host cfg in
  let port := if port cfg =? 0 then 80 else port cfg in
  let token := apikey cfg in
  if String.eqb host EmptyString || String.eqb (String_trim host) EmptyString then
    logger Error "Missing host in configuration. Please set it in the adapter settings."
  else if String.eqb token EmptyString || String.eqb (String_trim token) EmptyString then
    logger Error "Missing API key in configuration. Please set it in the adapter settings."
  else
    let wsUrl := "ws://" +:+ host +:+ ":" +:+ Number_toString port +:+ "/ws" in
    logger Info ("Verbinde mit Unfolded Circle Remote 3 WebSocket: " +:+ wsUrl);;
    connectWebSocket wsUrl token.

(** *** The event loop

    The platform, the sockets and the timers call the handlers one at a
    time, and a handler runs to its end before the next event is taken:
    the [await]s inside [handleMessage] are not interleaving points here.
    An event names the socket or timer it comes from; one that names a
    socket never made or a timer no longer pending does nothing.
    [Transport] is the environment changing whether [send] and [close]
    throw. *)
Inductive Event : Type :=
| Ready
| Open (s : nat)
| Message (s : nat) (data : string)
| Closed (s : nat)
| Failed (s : nat) (message : string)
| Fires (h : nat)
| StateChange (id : string) (state : jsval)
| Unload
| Transport (send close : option string).

Definition run_callback (cb : Callback) : Act unit :=
  match cb with
  | Reconnect url token => connectWebSocket url token
  | ResetButton id => setState id (JBool false) true
  end.

Definition on_socket (s : nat) (h : Socket -> Act unit) : Act unit :=
  l ← gets sockets;
  match l !! s with
  | Some k => h k
  | None => mret tt
  end.

Definition handler (e : Event) : Act unit :=
  match e with
  | Ready => onReady
  | Open s => on_socket s (fun _ => ws_on_open)
  | Message s data => on_socket s (fun _ => ws_on_message data)
  | Closed s => on_socket s (fun k => ws_on_close (s_url k) (s_token k))
  | Failed s m => on_socket s (fun _ => ws_on_error m)
  | Fires h =>
      ts ← gets timers;
      match list_find (fun t => handle t = h) ts with
      | Some (_, t) =>
          modify (upd_timers (filter (fun t => handle t ≠ h)));;
          run_callback (callback t)
      | None => mret tt
      end
  | StateChange id state => onStateChange id state
  | Unload => onUnload
  | Transport s c =>
      modify (upd_send_fault (fun _ => s));;
      modify (upd_close_fault (fun _ => c))
  end.

Definition step (w : World) (e : Event) : World := (spawn (handler e) w).2.

Definition run (w : World) (tr : list Event) : World := foldl step w tr.

Definition reachable (w : World) : Prop :=
  ∃ cfg tr, w = run (init cfg) tr.

End Handlers.
End Unfolded.

(** ** The one-shot REST adapter (class UnfoldedAdapter)

    Only the write path is needed here: [onStateChange] and the host and
    HTTP calls it makes.  The store holds the objects under the ids they
    were given; [unfolded_original_id] is the [native] entry of that name,
    which the adapter writes as [String(...)] of the hub's id. *)

Module UnfoldedAdapter.

Import Unfolded(LogLevel, Silly, Debug, Info, Warn, Error, StateVal, mkState, val, ack).

Record Object : Type := mkObject {
  o_type : string;
  o_name : string;
  o_ctype : option string;
  o_role : option string;
  o_read : option bool;
  o_write : option bool;
  unfolded_original_id : option string
}.

(** [post_reply url body] is what the hub will answer to
    [axios.post(url, body, ...)]: a status, or the rejection.  [clock] is
    what [new Date().toISOString()] reads. *)
Record World : Type := mkWorld {
  restBase : option string;
  objects : gmap string Object;
  states : gmap string StateVal;
  log : list (LogLevel * string);
  posts : list (string * jsval);
  post_reply : string -> jsval -> Outcome Z;
  clock : string
}.

Definition upd_objects (f : gmap string Object -> gmap string Object)
    (w : World) : World :=
  mkWorld (restBase w) (f (objects w)) (states w) (log w) (posts w) (post_reply w)
    (clock w).
Definition upd_states (f : gmap string StateVal -> gmap string StateVal)
    (w : World) : World :=
  mkWorld (restBase w) (objects w) (f (states w)) (log w) (posts w) (post_reply w)
    (clock w).
Definition upd_log (f : list (LogLevel * string) -> list (LogLevel * string))
    (w : World) : World :=
  mkWorld (restBase w) (objects w) (states w) (f (log w)) (posts w) (post_reply w)
    (clock w).
Definition upd_posts (f : list (string * jsval) -> list (string * jsval))
    (w : World) : World :=
  mkWorld (restBase w) (objects w) (states w) (log w) (f (posts w)) (post_reply w)
    (clock w).

Abbreviation Act := (M World).

Definition logger (l : LogLevel) (m : string) : Act unit :=
  modify (upd_log (fun x => x ++ [(l, m)])).

Definition setStateAsync (id : string) (v : jsval) (a : bool) : Act unit :=
  modify (upd_states (fun m => <[id := mkState v a]> m)).

Definition setObjectNotExistsAsync (id : string) (obj : Object) : Act unit :=
  modify (upd_objects (fun m => match m !! id with Some _ => m | None => <[id := obj]> m end)).

Definition getForeignObjectAsync (id : string) : Act (option Object) :=
  gets (fun w => objects w !! id).

Definition axios_post (url : string) (body : jsval) : Act Z :=
  modify (upd_posts (fun l => l ++ [(url, body)]));;
  reply ← gets post_reply;
  lift (reply url body).

(** [id.match(/^([^.]+)\.([^.]+)\.actions\.([^.]+)$/)]: four segments,
    the third being [actions] and the others not empty. *)
Definition match_action (id : string) : option (string * string * string) :=
  match Js.split "." id with
  | [t; o; k; a] =>
      if String.eqb k "actions" && negb (String.eqb t EmptyString)
         && negb (String.eqb o EmptyString) && negb (String.eqb a EmptyString)
      then Some (t, o, a) else None
  | _ => None
  end.

(** [s.replace(/_/g, ' ')] *)
Fixpoint spaces_for_underscores (s : string) : string :=
  match s with
  | EmptyString => EmptyString
  | String c r => String (if Ascii.eqb c "_" then " "%char else c) (spaces_for_underscores r)
  end.

Section Handlers.
Context {rt : Runtime}.

Definition onStateChange (id : string) (state : jsval) : Act unit :=
  if negb (Js.truthy state) || Js.truthy (Js.prop state "ack") then mret tt
  else
    logger Debug ("stateChange " +:+ id +:+ " -> " +:+ JSON_stringify state);;
    match match_action id with
    | None => mret tt
    | Some (type, safeOrigId, actionSafe) =>
        try_catch
          (channelObj ← getForeignObjectAsync (type +:+ "." +:+ safeOrigId);
           let origId :=
             match channelObj ≫= unfolded_original_id with
             | Some o => if String.eqb o EmptyString then safeOrigId else o
             | None => safeOrigId
             end in
           let actionName := spaces_for_underscores actionSafe in
           let body :=
             match Js.prop state "val" with
             | JStr v =>
                 if negb (String.eqb (String_trim v) EmptyString) then
                   match JSON_parse v with
                   | Ok b => b
                   | Throw _ => JObj [("value", JStr v)]
                   end
                 else JObj []
             | _ => JObj []
             end in
           base ← gets restBase;
           let url := default "null" base +:+ "/api/v1/entities/" +:+ encodeURIComponent origId
                      +:+ "/actions/" +:+ encodeURIComponent actionName in
           logger Info ("Calling action " +:+ actionName +:+ " for entity " +:+ origId
                        +:+ " -> " +:+ url);;
           status ← axios_post url body;
           logger Debug ("Action result status " +:+ Number_toString status);;
           setStateAsync id (Js.prop state "val") true;;
           let baseChannel := type +:+ "." +:+ safeOrigId in
           now ← gets clock;
           setStateAsync (baseChannel +:+ ".lastUpdate") (JStr now) true)
          (fun err =>
             logger Error ("Action call failed: " +:+ err_message err);;
             let errId := id +:+ "_error" in
             setObjectNotExistsAsync errId
               (mkObject "state" "last action error" (Some "string") (Some "text")
                         (Some true) (Some false) None);;
             setStateAsync errId (JStr (err_message err)) true)
    end.

End Handlers.
End UnfoldedAdapter.

(** ** A runtime to run the handlers on

    The handlers are stated over any [Runtime].  To evaluate them on
    concrete frames this module supplies one: a JSON reader and writer for
    the fragment the hub's frames are written in (literals, integers,
    strings with the short escapes, arrays, objects), ASCII trimming, and
    percent-encoding of every byte outside the unreserved set. *)

Module Node.

Definition dq : ascii := ascii_of_nat 34.
Definition bs : ascii := ascii_of_nat 92.

Definition is_ws (c : ascii) : bool :=
  let n := nat_of_ascii c in
  (n =? 32)%nat || (n =? 9)%nat || (n =? 10)%nat || (n =? 13)%nat.

Definition is_digit (c : ascii) : bool :=
  let n := nat_of_ascii c in (48 <=? n)%nat && (n <=? 57)%nat.

Fixpoint skip_ws (s : string) : string :=
  match s with
  | String c r => if is_ws c then skip_ws r else s
  | EmptyString => s
  end.

(** [strip p s]: the rest of [s] after the prefix [p]. *)
Fixpoint strip (p s : string) : option string :=
  match p, s with
  | EmptyString, _ => Some s
  | String a p', String b s' => if Ascii.eqb a b then strip p' s' else None
  | _, _ => None
  end.

Fixpoint scan_digits (acc : Z) (s : string) : Z * string :=
  match s with
  | String c r =>
      if is_digit c then scan_digits (10 * acc + Z.of_nat (nat_of_ascii c - 48)) r
      else (acc, s)
  | EmptyString => (acc, s)
  end.

Definition unescape (c : ascii) : option ascii :=
  let n := nat_of_ascii c in
  if (n =? 34)%nat || (n =? 92)%nat || (n =? 47)%nat then Some c
  else if (n =? 110)%nat then Some (ascii_of_nat 10)
  else if (n =? 116)%nat then Some (ascii_of_nat 9)
  else if (n =? 114)%nat then Some (ascii_of_nat 13)
  else if (n =? 98)%nat then Some (ascii_of_nat 8)
  else if (n =? 102)%nat then Some (ascii_of_nat 12)
  else None.

(** The body of a string literal, after its opening quote. *)
Fixpoint scan_string (s : string) : option (string * string) :=
  match s with
  | EmptyString => None
  | String c r =>
      if Ascii.eqb c dq then Some (EmptyString, r)
      else if Ascii.eqb c bs then
        match r with
        | String e r' =>
            match unescape e, scan_string r' with
            | Some x, Some (t, rest) => Some (String x t, rest)
            | _, _ => None
            end
        | EmptyString => None
        end
      else if (nat_of_ascii c <? 32)%nat then None
      else match scan_string r with
           | Some (t, rest) => Some (String c t, rest)
           | None => None
           end
  end.

Definition scan_number (s : string) : option (jsval * string) :=
  match s with
  | String c r =>
      if Ascii.eqb c "-" then
        match r with
        | String d _ =>
            if is_digit d then let '(n, rest) := scan_digits 0 r in Some (JNum (- n), rest)
            else None
        | EmptyString => None
        end
      else if is_digit c then let '(n, rest) := scan_digits 0 s in Some (JNum n, rest)
      else None
  | EmptyString => None
  end.

Fixpoint parse_value (fuel : nat) (s : string) : option (jsval * string) :=
  match fuel with
  | O => None
  | S f =>
      match skip_ws s with
      | String c r =>
          if Ascii.eqb c "[" then
            match skip_ws r with
            | String "]" rest => Some (JArr [], rest)
            | _ => match parse_items f r with
                   | Some (l, rest) => Some (JArr l, rest)
                   | None => None
                   end
            end
          else if Ascii.eqb c "{" then
            match skip_ws r with
            | String "}" rest => Some (JObj [], rest)
            | _ => match parse_members f r with
                   | Some (l, rest) => Some (JObj l, rest)
                   | None => None
                   end
            end
          else if Ascii.eqb c dq then
            match scan_string r with
            | Some (t, rest) => Some (JStr t, rest)
            | None => None
            end
          else
            match strip "null" (String c r), strip "true" (String c r),
                  strip "false" (String c r) with
            | Some rest, _, _ => Some (JNull, rest)
            | _, Some rest, _ => Some (JBool true, rest)
            | _, _, Some rest => Some (JBool false, rest)
            | _, _, _ => scan_number (String c r)
            end
      | EmptyString => None
      end
  end
with parse_items (fuel : nat) (s : string) : option (list jsval * string) :=
  match fuel with
  | O => None
  | S f =>
      match parse_value f s with
      | Some (v, rest) =>
          match skip_ws rest with
          | String "]" rest' => Some ([v], rest')
          | String "," rest' =>
              match parse_items f rest' with
              | Some (l, rest2) => Some (v :: l, rest2)
              | None => None
              end
          | _ => None
          end
      | None => None
      end
  end
with parse_members (fuel : nat) (s : string) : option (list (string * jsval) * string) :=
  match fuel with
  | O => None
  | S f =>
      match skip_ws s with
      | String c r =>
          if Ascii.eqb c dq then
            match scan_string r with
            | Some (k, rest) =>
                match skip_ws rest with
                | String ":" rest1 =>
                    match parse_value f rest1 with
                    | Some (v, rest2) =>
                        match skip_ws rest2 with
                        | String "}" rest3 => Some ([(k, v)], rest3)
                        | String "," rest3 =>
                            match parse_members f rest3 with
                            | Some (l, rest4) => Some ((k, v) :: l, rest4)
                            | None => None
                            end
                        | _ => None
                        end
                    | None => None
                    end
                | _ => None
                end
            | None => None
            end
          else None
      | EmptyString => None
      end
  end.

(** A later duplicate of a key replaces the value of the earlier one,
    which keeps its place, as [JSON.parse] has it for names that are not
    array indices. *)
Fixpoint set_member (k : string) (v : jsval) (fs : list (string * jsval))
    : list (string * jsval) :=
  match fs with
  | [] => [(k, v)]
  | (k', v') :: r =>
      if String.eqb k k' then (k, v) :: r else (k', v') :: set_member k v r
  end.

Fixpoint normalise (v : jsval) : jsval :=
  match v with
  | JArr l => JArr (map normalise l)
  | JObj fs =>
      JObj (foldl (fun acc kv => set_member kv.1 kv.2 acc) []
                  (map (fun kv => (kv.1, normalise kv.2)) fs))
  | _ => v
  end.

Definition parse (s : string) : Outcome jsval :=
  match parse_value (2 * String.length s + 2) s with
  | Some (v, rest) =>
      match skip_ws rest with
      | EmptyString => Ok (normalise v)
      | _ => Throw (mkError "SyntaxError" "Unexpected non-whitespace character after JSON")
      end
  | None => Throw (mkError "SyntaxError" "Unexpected token in JSON")
  end.

Definition hex_digit (upper : bool) (n : nat) : ascii :=
  if (n <? 10)%nat then ascii_of_nat (48 + n)
  else ascii_of_nat ((if upper then 55 else 87) + n).

Definition escape_char (c : ascii) : string :=
  let n := nat_of_ascii c in
  if (n =? 34)%nat then String bs (String dq EmptyString)
  else if (n =? 92)%nat then String bs (String bs EmptyString)
  else if (n =? 8)%nat then String bs "b"
  else if (n =? 12)%nat then String bs "f"
  else if (n =? 10)%nat then String bs "n"
  else if (n =? 13)%nat then String bs "r"
  else if (n =? 9)%nat then String bs "t"
  else if (n <? 32)%nat then
    String bs ("u00" +:+ String (hex_digit false (n / 16))
                           (String (hex_digit false (n mod 16)) EmptyString))
  else String c EmptyString.

Fixpoint escape (s : string) : string :=
  match s with
  | EmptyString => EmptyString
  | String c r => escape_char c +:+ escape r
  end.

Definition quote (s : string) : string :=
  String dq (escape s +:+ String dq EmptyString).

Definition is_undefined (v : jsval) : bool :=
  match v with JUndefined => true | _ => false end.

(** [JSON.stringify(v)] as a template literal prints it: members whose
    value is [undefined] are left out, and [undefined] in an array prints
    as [null]. *)
Fixpoint stringify (v : jsval) : string :=
  match v with
  | JUndefined => "undefined"
  | JNull => "null"
  | JBool b => if b then "true" else "false"
  | JNum n => pretty n
  | JStr s => quote s
  | JArr l =>
      "[" +:+ Js.join "," (map (fun x => if is_undefined x then "null" else stringify x) l)
          +:+ "]"
  | JObj fs =>
      "{" +:+ Js.join ","
                (omap (fun kv : string * jsval =>
                         let (k, x) := kv in
                         if is_undefined x then None
                         else Some (quote k +:+ ":" +:+ stringify x)) fs)
          +:+ "}"
  end.

Definition is_space (c : ascii) : bool :=
  let n := nat_of_ascii c in (n =? 32)%nat || ((9 <=? n)%nat && (n <=? 13)%nat).

Fixpoint trim_start (s : string) : string :=
  match s with
  | String c r => if is_space c then trim_start r else s
  | EmptyString => s
  end.

Fixpoint trim_end (s : string) : string :=
  match s with
  | EmptyString => EmptyString
  | String c r =>
      match trim_end r with
      | EmptyString => if is_space c then EmptyString else String c EmptyString
      | t => String c t
      end
  end.

Definition trim (s : string) : string := trim_end (trim_start s).

Definition unreserved (c : ascii) : bool :=
  let n := nat_of_ascii c in
  ((48 <=? n)%nat && (n <=? 57)%nat) || ((65 <=? n)%nat && (n <=? 90)%nat)
  || ((97 <=? n)%nat && (n <=? 122)%nat)
  || (n =? 45)%nat || (n =? 95)%nat || (n =? 46)%nat || (n =? 33)%nat
  || (n =? 126)%nat || (n =? 42)%nat || (n =? 39)%nat || (n =? 40)%nat || (n =? 41)%nat.

Fixpoint percent_encode (s : string) : string :=
  match s with
  | EmptyString => EmptyString
  | String c r =>
      if unreserved c then String c (percent_encode r)
      else let n := nat_of_ascii c in
           String "%" (String (hex_digit true (n / 16))
                         (String (hex_digit true (n mod 16)) (percent_encode r)))
  end.

#[export] Instance runtime : Runtime := {
  JSON_parse := parse;
  JSON_stringify := stringify;
  Number_toString := pretty;
  String_trim := trim;
  encodeURIComponent := percent_encode
}.

End Node.

(** ** Sample data and the predicates the statements use *)

Module Samples.
Import Unfolded.

Definition cfg : Config := mkConfig "192.168.1.50" 0 "secret".

(** A user pressing a button: [{ val: true, ack: false }]. *)
Definition pressed : jsval := JObj [("val", JBool true); ("ack", JBool false)].

(** The adapter's own reset of a button: [{ val: false, ack: true }]. *)
Definition released : jsval := JObj [("val", JBool false); ("ack", JBool true)].

Definition kitchen_start : string := "unfolded.0.activities.kitchen.start".

(** An adapter that has connected once. *)
Definition online : World := run (rt := Node.runtime) (init cfg) [Ready; Open 0%nat].

(** The hub reports that the kitchen activity was switched on. *)
Definition kitchen_on : jsval :=
  JObj [("kind", JStr "event"); ("msg", JStr "entity_change"); ("cat", JStr "ENTITY");
        ("msg_data",
         JObj [("entity_type", JStr "activity"); ("event_type", JStr "CHANGE");
               ("entity_id", JStr "uc.main.kitchen");
               ("new_state", JObj [("attributes", JObj [("state", JStr "ON")])])])].

(** An activity as [get_entities] lists it, and one whose id has a
    fourth segment. *)
Definition kitchen : jsval :=
  JObj [("entity_id", JStr "uc.main.kitchen");
        ("name", JObj [("en_US", JStr "Kitchen")]);
        ("attributes", JObj [("state", JStr "OFF")])].

Definition kitchen_lamp : jsval :=
  JObj [("entity_id", JStr "uc.main.kitchen.lamp");
        ("name", JObj [("en_US", JStr "Lamp")]);
        ("attributes", JObj [("state", JStr "ON")])].

(** The same adapter after the hub closed the connection. *)
Definition offline : World :=
  run (rt := Node.runtime) (init cfg) [Ready; Open 0%nat; Closed 0%nat].

End Samples.

(** [keeps R m]: running [m] moves the store along [R], whether [m]
    returns or throws. *)
Definition keeps {S A} (R : relation S) (m : M S A) : Prop := ∀ w, R w (m w).2.

(** Stores that agree on what [p] reads. *)
Definition agree {S B} (p : S -> B) : relation S := λ w w', p w' = p w.

Module Inv.
Import Unfolded.

(** What the scheduler invariant reads, and what the socket invariant
    reads. *)
Definition sched (w : World) : list Timer * nat * option nat :=
  (timers w, next_handle w, reconnectTimeout w).

Definition link (w : World) : option nat * bool * nat :=
  (ws w, connected w, length (sockets w)).

Definition is_reconnect (t : Timer) : bool :=
  match callback t with Reconnect _ _ => true | ResetButton _ => false end.

(** The pending reconnect attempts. *)
Definition pending_reconnects (w : World) : list Timer :=
  filter (λ t, is_reconnect t = true) (timers w).

(** Handles are fresh and distinct, and a pending reconnect timer is the
    one [reconnectTimeout] holds. *)
Definition sched_ok (x : list Timer * nat * option nat) : Prop :=
  let '(ts, next, r) := x in
  (∀ t, t ∈ ts → (handle t < next)%nat)
  ∧ NoDup (handle <$> ts)
  ∧ (∀ t, t ∈ ts → is_reconnect t = true → r = Some (handle t)).

Definition timers_ok (w : World) : Prop := sched_ok (sched w).

(** Once a socket exists [ws] points at one, and [connected] is only
    set after a socket exists. *)
Definition link_ok (x : option nat * bool * nat) : Prop :=
  let '(s, c, n) := x in
  (c = true → (0 < n)%nat) ∧ ((0 < n)%nat → ∃ i, s = Some i ∧ (i < n)%nat).

Definition socket_ok (w : World) : Prop := link_ok (link w).

End Inv.

Module Shape.
Import Unfolded.

(** [msg] is an entity-change event for the activity [eid] whose new
    state attribute reads [nstate]. *)
Definition entity_change (msg : jsval) (eid : string) (nstate : jsval) : Prop :=
  let d := Js.prop msg "msg_data" in
  let attrs := Js.prop (Js.prop d "new_state") "attributes" in
  Js.prop msg "kind" = JStr "event"
  ∧ Js.prop msg "msg" = JStr "entity_change"
  ∧ Js.prop msg "cat" = JStr "ENTITY"
  ∧ Js.prop d "entity_type" = JStr "activity"
  ∧ Js.prop d "event_type" = JStr "CHANGE"
  ∧ Js.prop d "entity_id" = JStr eid
  ∧ Js.nullish attrs = false
  ∧ Js.prop attrs "state" = nstate.

(** A value that is not an array or an object. *)
Definition primitive (v : jsval) : Prop :=
  match v with JArr _ | JObj _ => False | _ => True end.

(** [act] is an entity record: its id is [eid], it has a name mapping
    [names] and attributes whose state reads the primitive value [st]
    (a string such as ON or OFF, or [undefined] when there is none). *)
Definition entity (act : jsval) (eid : string) (names st : jsval) : Prop :=
  Js.prop act "entity_id" = JStr eid
  ∧ Js.prop act "name" = names
  ∧ Js.nullish names = false
  ∧ Js.nullish (Js.prop act "attributes") = false
  ∧ Js.prop (Js.prop act "attributes") "state" = st
  ∧ primitive st.

(** [`${eid.split(".")[2]}`] *)
Definition key_text (eid : string) : string :=
  match Js.split "." eid !! 2%nat with Some k => k | None => "undefined" end.

(** [names.de_DE || names.en_US || key] *)
Definition display_name (names key : jsval) : jsval :=
  if Js.truthy (Js.prop names "de_DE") then Js.prop names "de_DE"
  else if Js.truthy (Js.prop names "en_US") then Js.prop names "en_US"
  else key.

(** The three object literals of [createOrUpdateActivity]. *)
Definition channel_node (name : jsval) : IoObject :=
  mkObject "channel" (mkCommon name None None None None) [].

Definition is_active_node : IoObject :=
  mkObject "state"
    (mkCommon (JStr "Activity aktiv?") (Some "boolean") (Some "indicator")
              (Some true) (Some false)) [].

Definition start_node : IoObject :=
  mkObject "state"
    (mkCommon (JStr "Starte diese Aktivität") (Some "boolean") (Some "button")
              (Some false) (Some true)) [].

(** The store after [createOrUpdateActivity] ran to its end for the local
    key [k], display name [name] and activity flag [active], written in
    the order of the calls. *)
Definition reconciled (k : string) (name : jsval) (active : bool) (w : World) : World :=
  let p := "activities." +:+ k in
  upd_objects (λ m, <[p +:+ ".start" := extend (m !! (p +:+ ".start")) start_node]> m)
    (upd_subscriptions (λ s, {[p +:+ ".start"]} ∪ s)
      (upd_states (λ m, <[p +:+ ".is_active" := mkState (JBool active) true]> m)
        (upd_objects
           (λ m, <[p +:+ ".is_active" := extend (m !! (p +:+ ".is_active")) is_active_node]> m)
           (upd_objects (λ m, <[p := extend (m !! p) (channel_node name)]> m) w)))).

End Shape.

(** ** Further invariants, shapes and samples *)

Module Inv2.
Import Unfolded Inv.

(** The handle [reconnectTimeout] holds was issued, pending handles were
    issued, and a pending timer with the held handle is a reconnect
    timer. *)
Definition held_ok (x : list Timer * nat * option nat) : Prop :=
  let '(ts, next, r) := x in
  (∀ h, r = Some h → (h < next)%nat)
  ∧ (∀ t, t ∈ ts → (handle t < next)%nat)
  ∧ (∀ t, t ∈ ts → Some (handle t) = r → is_reconnect t = true).

Definition timers_held (w : World) : Prop := held_ok (sched w).

End Inv2.

Module Inv3.
Import Unfolded Inv.

(** What the connection indicator's invariant reads. *)
Definition indicator (w : World) : option StateVal * bool :=
  (states w !! "info.connection", connected w).

(** Once written, [info.connection] holds the value of [connected],
    acknowledged; before the first write [connected] is false. *)
Definition indicator_ok (w : World) : Prop :=
  match states w !! "info.connection" with
  | Some s => s = mkState (JBool (connected w)) true
  | None => connected w = false
  end.

(** No pending button reset is aimed at [info.connection]. *)
Definition resets_ok (w : World) : Prop :=
  ∀ t id, t ∈ timers w → callback t = ResetButton id → id ≠ "info.connection".

End Inv3.

Module Inv4.
Import Unfolded.

Section WithRuntime.
Context {rt : Runtime}.

(** The address [onReady] builds from the configuration. *)
Definition hub_url (c : Config) : string :=
  "ws://" +:+ host c +:+ ":"
  +:+ Number_toString (if (port c =? 0)%Z then 80%Z else port c) +:+ "/ws".

(** [url] and [token] are the configured address and key, the key not
    empty. *)
Definition aims_at (c : Config) (url token : string) : Prop :=
  url = hub_url c ∧ token = apikey c ∧ token ≠ EmptyString.

Definition socket_aims_at (c : Config) (k : Socket) : Prop :=
  aims_at c (s_url k) (s_token k) ∧ s_headers k = [("API-KEY", s_token k)].

Definition timer_aims_at (c : Config) (t : Timer) : Prop :=
  match callback t with
  | Reconnect url token => aims_at c url token
  | ResetButton _ => True
  end.

(** Every socket made so far and every pending reconnect is for the
    configured hub. *)
Definition dials_ok (c : Config) (w : World) : Prop :=
  config w = c
  ∧ Forall (socket_aims_at c) (sockets w)
  ∧ Forall (timer_aims_at c) (timers w).

End WithRuntime.

(** What [dials_ok] reads. *)
Definition dials (w : World) : Config * list Socket * list Timer :=
  (config w, sockets w, timers w).

End Inv4.

Module Inbound.
Import Unfolded Shape.

(** The two tests of [handleMessage], as the source writes them: the
    frame is a successful [entities] response carrying an array, or it is
    an ENTITY change event of an activity with a new state. *)
Definition is_snapshot (msg : jsval) : bool :=
  Js.is_str (Js.prop msg "kind") "resp" && Js.is_num (Js.prop msg "code") 200
  && Js.is_str (Js.prop msg "msg") "entities"
  && Js.truthy (Js.prop (Js.prop msg "msg_data") "entities")
  && Js.isArray (Js.prop (Js.prop msg "msg_data") "entities").

Definition is_change (msg : jsval) : bool :=
  Js.is_str (Js.prop msg "kind") "event"
  && Js.is_str (Js.prop msg "msg") "entity_change"
  && Js.is_str (Js.prop msg "cat") "ENTITY"
  && Js.truthy (Js.prop msg "msg_data")
  && Js.is_str (Js.prop (Js.prop msg "msg_data") "entity_type") "activity"
  && Js.is_str (Js.prop (Js.prop msg "msg_data") "event_type") "CHANGE"
  && Js.truthy (Js.prop (Js.prop msg "msg_data") "new_state").

(** [msg] is a successful [entities] response listing [l]. *)
Definition snapshot (msg : jsval) (l : list jsval) : Prop :=
  Js.prop msg "kind" = JStr "resp"
  ∧ Js.prop msg "code" = JNum 200
  ∧ Js.prop msg "msg" = JStr "entities"
  ∧ Js.prop (Js.prop msg "msg_data") "entities" = JArr l.

(** An entity record together with what [Shape.entity] reads off it. *)
Record Entry : Type := mkEntry {
  e_act : jsval;
  e_id : string;
  e_names : jsval;
  e_state : jsval
}.

Definition well_formed (e : Entry) : Prop :=
  entity (e_act e) (e_id e) (e_names e) (e_state e).

Definition reconcile_entry (w : World) (e : Entry) : World :=
  reconciled (key_text (e_id e))
    (display_name (e_names e) (Js.index (Js.split "." (e_id e)) 2))
    (negb (Js.is_str (e_state e) "OFF")) w.

Section WithRuntime.
Context {rt : Runtime}.

(** The store once [handleMessage] has written its two trace lines for a
    frame whose [msg] prints as [name]. *)
Definition received (msg : jsval) (name : string) (w : World) : World :=
  upd_log (λ l, l ++ [(Debug, "Empfangene WS-Nachricht: " +:+ name)])
    (upd_log (λ l, l ++ [(Silly, "Empfangene WS-Nachricht: " +:+ JSON_stringify msg)]) w).

End WithRuntime.

End Inbound.

Module Samples2.
Import Unfolded Inbound.

(** The hub's greeting, which the adapter has no branch for. *)
Definition greeting : jsval :=
  JObj [("kind", JStr "resp"); ("req_id", JNum 0); ("code", JNum 200);
        ("msg", JStr "authentication"); ("msg_data", JObj [("name", JStr "remote")])].

Definition office : jsval :=
  JObj [("entity_id", JStr "uc.main.office");
        ("name", JObj [("de_DE", JStr "Büro"); ("en_US", JStr "Office")]);
        ("attributes", JObj [("state", JStr "ON")])].

(** Records that lack a name mapping, attributes, or a third id segment. *)
Definition nameless : jsval := JObj [("entity_id", JStr "uc.main.tv")].

Definition bare : jsval :=
  JObj [("entity_id", JStr "uc.main.tv"); ("name", JObj [("en_US", JStr "TV")])].

Definition short : jsval :=
  JObj [("entity_id", JStr "tv"); ("name", JObj [("en_US", JStr "TV")]);
        ("attributes", JObj [("state", JStr "ON")])].

Definition entities (l : list jsval) : jsval :=
  JObj [("kind", JStr "resp"); ("code", JNum 200); ("msg", JStr "entities");
        ("msg_data", JObj [("entities", JArr l)])].

Definition kitchen_entry : Entry :=
  mkEntry Samples.kitchen "uc.main.kitchen" (JObj [("en_US", JStr "Kitchen")]) (JStr "OFF").

Definition office_entry : Entry :=
  mkEntry office "uc.main.office"
    (JObj [("de_DE", JStr "Büro"); ("en_US", JStr "Office")]) (JStr "ON").

End Samples2.

Module Naming.
Import UnfoldedAdapter.

Definition in_range (lo hi : nat) (c : ascii) : bool :=
  (lo <=? nat_of_ascii c)%nat && (nat_of_ascii c <=? hi)%nat.

(** The class [a-zA-Z0-9_\-]. *)
Definition is_safe (c : ascii) : bool :=
  in_range 97 122 c || in_range 65 90 c || in_range 48 57 c
  || Ascii.eqb c "_" || Ascii.eqb c "-".

(** [s.replace(/[^a-zA-Z0-9_\-]/g, '_')].  Strings are held as UTF-8
    and the pattern has no [u] flag, so it replaces UTF-16 code units:
    a character of two or three bytes is one unit and gives one [_], a
    character of four bytes is a surrogate pair and gives two.  The byte
    that starts a character decides; the bytes that continue it give
    nothing. *)
Fixpoint sanitize (s : string) : string :=
  match s with
  | EmptyString => EmptyString
  | String c r =>
      if is_safe c then String c (sanitize r)
      else if (nat_of_ascii c <? 128)%nat then String "_" (sanitize r)
      else if (nat_of_ascii c <? 192)%nat then sanitize r
      else if (nat_of_ascii c <? 240)%nat then String "_" (sanitize r)
      else String "_" (String "_" (sanitize r))
  end.

(** The id [_createObjectsForEntities] gives the trigger state of an
    action: [`${base}.actions.${safeAction}`] with
    [base = `${folderId}.${safeId}`], [folderId = `${type}`]. *)
Definition action_id (type origId actionName : string) : string :=
  type +:+ "." +:+ sanitize origId +:+ ".actions." +:+ sanitize actionName.

Fixpoint every (P : ascii → bool) (s : string) : bool :=
  match s with
  | EmptyString => true
  | String c r => P c && every P r
  end.

(** What [[^.]+] matches as a whole: not empty, no dot. *)
Definition segment (s : string) : Prop :=
  s ≠ EmptyString ∧ Js.split "." s = [s].

(** A character an action name keeps on its way into a state id and
    back: a letter, a digit, a hyphen or a space. *)
Definition plain (c : ascii) : bool :=
  (is_safe c && negb (Ascii.eqb c "_")) || Ascii.eqb c " ".

End Naming.

Module Samples3.
Import UnfoldedAdapter.

(** A store as start-up leaves it for the entity [uc.main.kitchen] of
    type [activity]: the channel carries the original id. *)
Definition kitchen_channel : Object :=
  mkObject "channel" "Kitchen" None None None None (Some "uc.main.kitchen").

Definition loaded : World :=
  mkWorld (Some "http://192.168.1.50:80")
    {["activity.uc_main_kitchen" := kitchen_channel]} ∅ [] []
    (λ _ _, Ok 200%Z) "2025-01-01T00:00:00.000Z".

Definition go : jsval := JObj [("val", JStr "go"); ("ack", JBool false)].

End Samples3.

(** * Properties *)

Section StringFacts.

Lemma split_nonempty c s : Js.split c s ≠ [].
Proof.
  destruct s as [|x r]; simpl; [done|].
  destruct (Ascii.eqb x c); [done|]. by destruct (Js.split c r).
Qed.

Lemma append_cons x (a b : string) : String x a +:+ b = String x (a +:+ b).
Proof. reflexivity. Qed.

Lemma split_app c a b :
  Js.split c (a +:+ String c b) = Js.split c a ++ Js.split c b.
Proof.
  induction a as [|x a IH].
  - simpl. by rewrite Ascii.eqb_refl.
  - rewrite append_cons. simpl.
    destruct (Ascii.eqb x c); [by rewrite IH|].
    rewrite IH. pose proof (split_nonempty c a). by destruct (Js.split c a).
Qed.

Lemma append_assoc (a b c : string) : (a +:+ b) +:+ c = a +:+ (b +:+ c).
Proof. induction a as [|x a IH]; [done|]. rewrite !append_cons. by rewrite IH. Qed.

Lemma length_append (a b : string) :
  String.length (a +:+ b) = (String.length a + String.length b)%nat.
Proof. induction a as [|x a IH]; [done|]. rewrite append_cons. simpl. by rewrite IH. Qed.

Lemma append_neq_self (a b : string) : b ≠ EmptyString → a +:+ b ≠ a.
Proof.
  intros Hb Heq. apply (f_equal String.length) in Heq.
  rewrite length_append in Heq. destruct b; [done|]. simpl in Heq. lia.
Qed.

End StringFacts.

(** ** Frame rules *)

Section Frames.
Context {S : Type} (R : relation S) `{!PreOrder R}.

Lemma keeps_ret {A} (a : A) : keeps R (ret a).
Proof. intros w. reflexivity. Qed.

Lemma keeps_throw {A} e : keeps R (throw (A := A) e).
Proof. intros w. reflexivity. Qed.

Lemma keeps_lift {A} (o : Outcome A) : keeps R (lift o).
Proof. intros w. reflexivity. Qed.

Lemma keeps_gets {A} (f : S → A) : keeps R (gets f).
Proof. intros w. reflexivity. Qed.

Lemma keeps_modify f : (∀ w, R w (f w)) → keeps R (modify f).
Proof. intros H w. apply H. Qed.

Lemma keeps_bind {A B} (m : M S A) (k : A → M S B) :
  keeps R m → (∀ a, keeps R (k a)) → keeps R (m ≫= k).
Proof.
  intros Hm Hk w. unfold mbind, M_bind, bind.
  specialize (Hm w). destruct (m w) as [[a|e] w']; simpl in *; [|done].
  etrans; [exact Hm|apply Hk].
Qed.

Lemma keeps_try_catch {A} (m : M S A) h :
  keeps R m → (∀ e, keeps R (h e)) → keeps R (try_catch m h).
Proof.
  intros Hm Hh w. unfold try_catch.
  specialize (Hm w). destruct (m w) as [[a|e] w']; simpl in *; [done|].
  etrans; [exact Hm|apply Hh].
Qed.

Lemma keeps_when c (m : M S unit) : keeps R m → keeps R (when c m).
Proof. intros H. destruct c; [done|apply (keeps_ret tt)]. Qed.

Lemma keeps_for_of {A} (l : list A) (body : A → M S unit) :
  (∀ a, keeps R (body a)) → keeps R (for_of l body).
Proof.
  intros H. induction l as [|a l IH]; simpl; [apply (keeps_ret tt)|].
  apply (keeps_bind (body a) (λ _, for_of l body)); auto.
Qed.

End Frames.

Lemma keeps_weaken {S A} (R R' : relation S) (m : M S A) :
  (∀ w w', R w w' → R' w w') → keeps R m → keeps R' m.
Proof. intros H Hm w. apply H, Hm. Qed.

#[global] Instance agree_preorder {S B} (p : S → B) : PreOrder (agree p).
Proof. split; [by intros ?|]. intros x y z Hxy Hyz. unfold agree in *. congruence. Qed.

(** [P] is an invariant of [m] when [m] moves along "P before implies P
    after". *)
#[global] Instance invariant_preorder {S} (P : S → Prop) : PreOrder (λ w w', P w → P w').
Proof. split; [by intros ?|]. intros x y z Hxy Hyz. auto. Qed.

Ltac tc_side := try (match goal with |- PreOrder _ => apply _ end).

Ltac keeps_step :=
  first
    [ progress unfold mret, M_ret
    | apply keeps_ret; tc_side | apply keeps_throw; tc_side
    | apply keeps_lift; tc_side | apply keeps_gets; tc_side
    | apply keeps_bind; tc_side; [|intros ?]
    | apply keeps_try_catch; tc_side; [|intros ?]
    | apply keeps_when; tc_side
    | apply keeps_for_of; tc_side; intros ?
    | apply keeps_modify; by intros ?
    | match goal with
      | |- keeps _ (if ?c then _ else _) => destruct c
      | |- keeps _ (match ?x with _ => _ end) => destruct x
      end ].

Create HintDb frame.

Ltac keeps_auto := repeat (first [ solve [auto with frame] | keeps_step ]).

(** ** Malformed frames *)

Section Malformed.
Import Unfolded.
Context {rt : Runtime}.

(** C8.  A frame whose text [JSON.parse] rejects makes the message
    handler log one warning and return: nothing is thrown, no rejection
    is left unhandled, and no object, state, subscription, socket or timer
    changes. *)
Theorem malformed_frame_is_dropped (w : World) (data : string) (err : JsError) :
  JSON_parse data = Throw err →
  ws_on_message data w
  = (Ok tt, upd_log (λ l, l ++ [(Warn, "Fehler beim Parsen von WS-Nachricht: "
                                         +:+ err_message err)]) w).
Proof.
  intros Hparse. unfold ws_on_message, try_catch, mbind, M_bind, bind, lift.
  by rewrite Hparse.
Qed.

End Malformed.

Lemma malformed_frame_is_dropped_witness :
  let data := "{oops" in
  let err := mkError "SyntaxError" "Unexpected token in JSON" in
  JSON_parse (Runtime := Node.runtime) data = Throw err
  ∧ Unfolded.ws_on_message (rt := Node.runtime) data Samples.online
    = (Ok tt, Unfolded.upd_log
                (λ l, l ++ [(Unfolded.Warn, "Fehler beim Parsen von WS-Nachricht: "
                                            +:+ err_message err)]) Samples.online).
Proof.
  split; [reflexivity|].
  apply (malformed_frame_is_dropped (rt := Node.runtime)). reflexivity.
Defined.

(** ** The command dispatcher *)

Section Dispatcher.
Import Unfolded.
Context {rt : Runtime}.

(** Whenever one of the guards of [onStateChange] fails, the call only
    writes its debug line. *)
Lemma onStateChange_guarded (w : World) (id : string) (state : jsval) :
  Js.truthy state = false ∨ Js.truthy (Js.prop state "ack") = true
  ∨ Js.is_true (Js.prop state "val") = false ∨ connected w = false →
  onStateChange id state w
  = (Ok tt, upd_log (λ l, l ++ [(Debug, "StateChange: " +:+ id +:+ " => "
                                         +:+ JSON_stringify state)]) w).
Proof.
  intros H. unfold onStateChange.
  unfold mbind, M_bind, mret, M_ret, bind, ret, gets, modify, logger, when; simpl.
  destruct (Js.truthy state) eqn:Ht; simpl; [|done].
  destruct (Js.truthy (Js.prop state "ack")) eqn:Ha; simpl; [done|].
  destruct H as [H|[H|[H|H]]]; try congruence.
  - by rewrite H, andb_false_r.
  - by rewrite H, andb_false_r.
Qed.

(** C10.  A notification whose state is null, or acknowledged, or whose
    value is not the boolean [true], sends nothing, schedules nothing and
    leaves every store as it was: the call returns after its debug line.
    The adapter's own reset, which writes [false] with acknowledgment, is
    such a notification. *)
Theorem onStateChange_ignores_other_writes (w : World) (id : string) (state : jsval) :
  Js.truthy state = false ∨ Js.truthy (Js.prop state "ack") = true
  ∨ Js.is_true (Js.prop state "val") = false →
  onStateChange id state w
  = (Ok tt, upd_log (λ l, l ++ [(Debug, "StateChange: " +:+ id +:+ " => "
                                         +:+ JSON_stringify state)]) w).
Proof. intros H. apply onStateChange_guarded. tauto. Qed.

(** C3, as the code has it.  While [connected] is false a write to a
    [start] node (or to any node) sends nothing, schedules no reset and
    writes no state; the only trace is the debug line every call begins
    with, so no error is logged. *)
Theorem start_while_disconnected_is_dropped (w : World) (id : string) (state : jsval) :
  connected w = false →
  onStateChange id state w
  = (Ok tt, upd_log (λ l, l ++ [(Debug, "StateChange: " +:+ id +:+ " => "
                                         +:+ JSON_stringify state)]) w).
Proof. intros H. apply onStateChange_guarded. tauto. Qed.

End Dispatcher.

Lemma onStateChange_ignores_other_writes_witness :
  (Js.truthy Samples.released = false
   ∨ Js.truthy (Js.prop Samples.released "ack") = true
   ∨ Js.is_true (Js.prop Samples.released "val") = false)
  ∧ Unfolded.onStateChange (rt := Node.runtime) Samples.kitchen_start Samples.released
      Samples.online
    = (Ok tt, Unfolded.upd_log
                (λ l, l ++ [(Unfolded.Debug, "StateChange: " +:+ Samples.kitchen_start
                                             +:+ " => " +:+ Node.stringify Samples.released)])
                Samples.online).
Proof.
  split; [right; left; reflexivity|].
  apply (onStateChange_ignores_other_writes (rt := Node.runtime)).
  right; left; reflexivity.
Defined.

Lemma start_while_disconnected_is_dropped_witness :
  Unfolded.connected Samples.offline = false
  ∧ Unfolded.onStateChange (rt := Node.runtime) Samples.kitchen_start Samples.pressed
      Samples.offline
    = (Ok tt, Unfolded.upd_log
                (λ l, l ++ [(Unfolded.Debug, "StateChange: " +:+ Samples.kitchen_start
                                             +:+ " => " +:+ Node.stringify Samples.pressed)])
                Samples.offline).
Proof.
  split; [reflexivity|].
  apply (start_while_disconnected_is_dropped (rt := Node.runtime)). reflexivity.
Defined.

(** C3 as stated asks for an error in the log.  Pressing
    [activities.kitchen.start] on the disconnected adapter adds one entry
    to the log, at debug level. *)
Lemma start_while_disconnected_logs_no_error :
  let w := Samples.offline in
  let w' := (Unfolded.onStateChange (rt := Node.runtime)
               Samples.kitchen_start Samples.pressed w).2 in
  Unfolded.connected w = false
  ∧ Unfolded.log w'
    = Unfolded.log w ++ [(Unfolded.Debug, "StateChange: " +:+ Samples.kitchen_start
                                           +:+ " => " +:+ Node.stringify Samples.pressed)]
  ∧ ¬ ∃ m, (Unfolded.Error, m) ∈ Unfolded.log w'.
Proof.
  vm_compute. split; [reflexivity|]. split; [reflexivity|].
  intros [m Hm]. repeat (apply elem_of_cons in Hm as [Hm|Hm]; [discriminate Hm|]).
  by apply elem_of_nil in Hm.
Qed.

(** ** What the handlers leave alone *)

Section HandlerFrames.
Import Unfolded Inv.
Context {rt : Runtime} {B : Type} (p : World → B).
Hypothesis p_log : ∀ f w, p (upd_log f w) = p w.
Hypothesis p_objects : ∀ f w, p (upd_objects f w) = p w.
Hypothesis p_states : ∀ f w, p (upd_states f w) = p w.
Hypothesis p_subscriptions : ∀ f w, p (upd_subscriptions f w) = p w.
Hypothesis p_uncaught : ∀ f w, p (upd_uncaught f w) = p w.
Hypothesis p_unloaded : ∀ f w, p (upd_unloaded f w) = p w.
Hypothesis p_alter : ∀ f i w, p (upd_sockets (alter f i) w) = p w.

Local Hint Extern 1 (agree p _ _) => unfold agree : frame.
Local Hint Resolve p_log p_objects p_states p_subscriptions p_uncaught p_unloaded p_alter : frame.

Ltac unfold_prims :=
  unfold logger, setState, extendObject, subscribeStates, get, split_dots, tpl,
    ws_send, ws_close, fault, callback_done, spawn.

Ltac frame_auto :=
  unfold_prims;
  repeat first
    [ solve [auto with frame]
    | apply keeps_modify; intros ?; solve [auto with frame]
    | keeps_step ].

Lemma entity_key_agree v : keeps (agree p) (entity_key v).
Proof. unfold entity_key. frame_auto. Qed.
Local Hint Resolve entity_key_agree : frame.

Lemma createOrUpdateActivity_agree v : keeps (agree p) (createOrUpdateActivity v).
Proof. unfold createOrUpdateActivity. frame_auto. Qed.
Local Hint Resolve createOrUpdateActivity_agree : frame.

Lemma handleMessage_agree v : keeps (agree p) (handleMessage v).
Proof. unfold handleMessage. frame_auto. Qed.
Local Hint Resolve handleMessage_agree : frame.

Lemma ws_on_message_agree data : keeps (agree p) (ws_on_message data).
Proof. unfold ws_on_message. frame_auto. Qed.

Lemma ws_on_error_agree m : keeps (agree p) (ws_on_error m).
Proof. unfold ws_on_error. frame_auto. Qed.

Lemma ws_send_agree data : keeps (agree p) (ws_send data).
Proof. frame_auto. Qed.

Lemma ws_close_agree i : keeps (agree p) (ws_close i).
Proof. frame_auto. Qed.

Lemma subscribeActivities_agree : keeps (agree p) subscribeActivities.
Proof. unfold subscribeActivities. frame_auto. Qed.

Lemma requestAllActivities_agree : keeps (agree p) requestAllActivities.
Proof. unfold requestAllActivities. frame_auto. Qed.

End HandlerFrames.

(** ** Invariants of the event loop *)

Section Invariants.
Import Unfolded Inv.
Context {rt : Runtime}.

Ltac prove_blind := intros; reflexivity.

Lemma link_alter f i w : link (upd_sockets (alter f i) w) = link w.
Proof. unfold link; simpl. by rewrite length_alter. Qed.

Lemma handleMessage_link v : keeps (agree link) (handleMessage v).
Proof. apply handleMessage_agree; try prove_blind. Qed.

Lemma ws_on_message_link d : keeps (agree link) (ws_on_message d).
Proof. apply ws_on_message_agree; try prove_blind. Qed.

Lemma ws_send_link d : keeps (agree link) (ws_send d).
Proof. apply ws_send_agree; try prove_blind. apply link_alter. Qed.

Lemma ws_close_link i : keeps (agree link) (ws_close i).
Proof. apply ws_close_agree; try prove_blind. apply link_alter. Qed.

Lemma subscribeActivities_link : keeps (agree link) subscribeActivities.
Proof. apply subscribeActivities_agree; try prove_blind. apply link_alter. Qed.

Lemma requestAllActivities_link : keeps (agree link) requestAllActivities.
Proof. apply requestAllActivities_agree; try prove_blind. apply link_alter. Qed.

Lemma setTimeout_link cb ms : keeps (agree link) (setTimeout cb ms).
Proof. by intros w. Qed.

Lemma clearTimeout_link h : keeps (agree link) (clearTimeout h).
Proof. by intros w. Qed.

Lemma logger_link l m : keeps (agree link) (logger l m).
Proof. by intros w. Qed.

Lemma setState_link id v a : keeps (agree link) (setState id v a).
Proof. by intros w. Qed.

Local Hint Resolve handleMessage_link ws_on_message_link ws_send_link ws_close_link
  subscribeActivities_link requestAllActivities_link setTimeout_link clearTimeout_link
  logger_link setState_link : frame.

Lemma onStateChange_link id state : keeps (agree link) (onStateChange id state).
Proof. unfold onStateChange, tpl. keeps_auto. Qed.

Lemma onUnload_link : keeps (agree link) onUnload.
Proof. unfold onUnload, callback_done. keeps_auto. Qed.

Lemma connectWebSocket_socket_ok url token w :
  socket_ok w → socket_ok (connectWebSocket url token w).2.
Proof.
  intros Hw. unfold connectWebSocket.
  unfold mbind, M_bind, mret, M_ret, bind, ret, gets, modify, new_WebSocket; simpl.
  assert (∀ w1, link w1 = link w →
    socket_ok (upd_ws (λ _, Some (length (sockets w1)))
                 (upd_sockets (λ l, l ++ [mkSocket url token
                    (if negb (String.eqb token EmptyString) then [("API-KEY", token)] else [])
                    0 []]) w1))) as Hnew.
  { intros w1 Hl. unfold socket_ok, link in *. simpl. rewrite length_app. simpl.
    injection Hl as Hws Hc Hn. destruct Hw as [Hw1 Hw2]. rewrite Hc. split.
    - intros _. lia.
    - intros _. eexists. split; [done|lia]. }
  destruct (ws w) as [i|] eqn:Hws.
  - pose proof (ws_close_link i w) as Hc. unfold agree in Hc.
    destruct (ws_close i w) as [[[]|e] w1]; simpl in *.
    + by apply Hnew.
    + unfold socket_ok. by rewrite Hc.
  - simpl. by apply Hnew.
Qed.


Lemma spawn_link m w : link (spawn m w).2 = link (m w).2.
Proof. unfold spawn, try_catch. by destruct (m w) as [[?|?] ?]. Qed.

Lemma ws_on_open_link w : link (ws_on_open w).2 = (ws w, true, length (sockets w)).
Proof.
  unfold ws_on_open.
  change ((modify (upd_connected (λ _, true)) ≫= ?k) w)
    with (k tt (upd_connected (λ _, true) w)).
  cbv beta.
  match goal with |- link (?m _).2 = _ => assert (keeps (agree link) m) as H by keeps_auto end.
  by rewrite H.
Qed.

Lemma ws_on_close_link url token w :
  link (ws_on_close url token w).2 = (ws w, false, length (sockets w)).
Proof.
  unfold ws_on_close, mbind, M_bind, bind, gets, modify, setState, logger; simpl.
  by destruct (reconnectTimeout w).
Qed.

Lemma onReady_socket_ok w : socket_ok w → socket_ok (onReady w).2.
Proof.
  intros Hw. unfold onReady.
  unfold mbind, M_bind, mret, M_ret, bind, ret, gets; simpl.
  repeat (match goal with |- context [if ?c then _ else _] => destruct c end; simpl; try done).
  all: by apply connectWebSocket_socket_ok.
Qed.

Lemma step_socket_ok w e : socket_ok w → socket_ok (step w e).
Proof.
  intros Hw. unfold step, socket_ok. rewrite spawn_link. fold (socket_ok (handler e w).2).
  destruct e as [|s|s data|s|s m|h|id state| |sf cf]; simpl.
  - by apply onReady_socket_ok.
  - unfold on_socket, mbind, M_bind, bind, gets; simpl.
    destruct (sockets w !! s) as [k|] eqn:Hs; simpl; [|done].
    unfold socket_ok. rewrite ws_on_open_link.
    apply lookup_lt_Some in Hs. destruct Hw as [_ Hw]. split; [lia|done].
  - unfold on_socket, mbind, M_bind, bind, gets; simpl.
    destruct (sockets w !! s); simpl; [|done].
    unfold socket_ok. by rewrite ws_on_message_link.
  - unfold on_socket, mbind, M_bind, bind, gets; simpl.
    destruct (sockets w !! s); simpl; [|done].
    unfold socket_ok. rewrite ws_on_close_link.
    destruct Hw as [_ Hw]. split; [done|done].
  - unfold on_socket, mbind, M_bind, bind, gets; simpl.
    by destruct (sockets w !! s).
  - unfold mbind, M_bind, bind, gets; simpl.
    destruct (list_find _ (timers w)) as [[? t]|]; simpl; [|done].
    destruct (callback t); simpl; [|done].
    by apply connectWebSocket_socket_ok.
  - unfold socket_ok. by rewrite onStateChange_link.
  - unfold socket_ok. by rewrite onUnload_link.
  - done.
Qed.

Lemma init_socket_ok cfg : socket_ok (init cfg).
Proof. split; [done|]. simpl. lia. Qed.

Lemma run_socket_ok w tr : socket_ok w → socket_ok (run w tr).
Proof.
  revert w. induction tr as [|e tr IH]; intros w Hw; simpl; [done|].
  by apply IH, step_socket_ok.
Qed.

Lemma reachable_socket_ok w : reachable w → socket_ok w.
Proof. intros (cfg & tr & ->). apply run_socket_ok, init_socket_ok. Qed.

End Invariants.

Section TimerInvariant.
Import Unfolded Inv.
Context {rt : Runtime}.

Ltac prove_blind := intros; reflexivity.

Lemma handleMessage_sched v : keeps (agree sched) (handleMessage v).
Proof. apply handleMessage_agree; prove_blind. Qed.

Lemma ws_on_message_sched d : keeps (agree sched) (ws_on_message d).
Proof. apply ws_on_message_agree; prove_blind. Qed.

Lemma ws_on_error_sched m : keeps (agree sched) (ws_on_error m).
Proof. apply ws_on_error_agree; prove_blind. Qed.

Lemma ws_send_sched d : keeps (agree sched) (ws_send d).
Proof. apply ws_send_agree; prove_blind. Qed.

Lemma ws_close_sched i : keeps (agree sched) (ws_close i).
Proof. apply ws_close_agree; prove_blind. Qed.

Lemma subscribeActivities_sched : keeps (agree sched) subscribeActivities.
Proof. apply subscribeActivities_agree; prove_blind. Qed.

Lemma requestAllActivities_sched : keeps (agree sched) requestAllActivities.
Proof. apply requestAllActivities_agree; prove_blind. Qed.

Lemma logger_sched l m : keeps (agree sched) (logger l m).
Proof. by intros w. Qed.

Lemma setState_sched id v a : keeps (agree sched) (setState id v a).
Proof. by intros w. Qed.

Lemma new_WebSocket_sched u t h : keeps (agree sched) (new_WebSocket u t h).
Proof. by intros w. Qed.

Lemma callback_done_sched : keeps (agree sched) callback_done.
Proof. by intros w. Qed.

Local Hint Resolve handleMessage_sched ws_on_message_sched ws_on_error_sched ws_send_sched
  ws_close_sched subscribeActivities_sched requestAllActivities_sched logger_sched
  setState_sched new_WebSocket_sched callback_done_sched : frame.

Lemma connectWebSocket_sched url token : keeps (agree sched) (connectWebSocket url token).
Proof. unfold connectWebSocket. keeps_auto. Qed.
Local Hint Resolve connectWebSocket_sched : frame.

Lemma ws_on_open_sched : keeps (agree sched) ws_on_open.
Proof. unfold ws_on_open. keeps_auto. Qed.

Lemma onReady_sched : keeps (agree sched) onReady.
Proof. unfold onReady. keeps_auto. Qed.

Lemma run_callback_sched cb : keeps (agree sched) (run_callback cb).
Proof. unfold run_callback. keeps_auto. Qed.

Lemma sched_ok_filter (P : Timer → Prop) `{!∀ t, Decision (P t)} ts n r :
  sched_ok (ts, n, r) → sched_ok (filter P ts, n, r).
Proof.
  intros (Hlt & Hnd & Hrc). split_and!.
  - intros t [_ Ht]%list_elem_of_filter. auto.
  - eapply sublist_NoDup; [exact Hnd|]. apply fmap_sublist, sublist_filter.
  - intros t [_ Ht]%list_elem_of_filter. auto.
Qed.

Lemma sched_ok_fresh ts n r h : sched_ok (ts, n, r) → (n ≤ h)%nat → h ∉ handle <$> ts.
Proof.
  intros (Hlt & _ & _) Hh (t & Heq & Ht)%list_elem_of_fmap.
  apply Hlt in Ht. lia.
Qed.

Lemma sched_ok_push_reset ts n r id ms :
  sched_ok (ts, n, r) → sched_ok (ts ++ [mkTimer n ms (ResetButton id)], S n, r).
Proof.
  intros Hok. pose proof Hok as (Hlt & Hnd & Hrc). split_and!.
  - intros t [Ht|Ht%list_elem_of_singleton]%elem_of_app;
      [apply Hlt in Ht; lia|subst t; simpl; lia].
  - rewrite fmap_app. apply NoDup_app. split_and!; [done| |apply NoDup_singleton].
    intros h Hh Hn%list_elem_of_singleton. simpl in Hn. subst h.
    by eapply sched_ok_fresh.
  - intros t [Ht|Ht%list_elem_of_singleton]%elem_of_app; [by auto|by subst t].
Qed.

Lemma sched_ok_reschedule ts n r cb ms :
  sched_ok (ts, n, r) →
  sched_ok (filter (λ t, Some (handle t) ≠ r) ts ++ [mkTimer n ms cb], S n, Some n).
Proof.
  intros Hok. pose proof (sched_ok_filter (λ t, Some (handle t) ≠ r) _ _ _ Hok) as Hf.
  destruct Hf as (Hlt & Hnd & _). destruct Hok as (_ & _ & Hrc). split_and!.
  - intros t [Ht|Ht%list_elem_of_singleton]%elem_of_app;
      [apply Hlt in Ht; lia|subst t; simpl; lia].
  - rewrite fmap_app. apply NoDup_app. split_and!; [done| |apply NoDup_singleton].
    intros h (t & Heq & Ht)%list_elem_of_fmap Hn%list_elem_of_singleton.
    simpl in Hn. apply Hlt in Ht. lia.
  - intros t [[Hne Ht]%list_elem_of_filter|Ht%list_elem_of_singleton]%elem_of_app Hr;
      [|by subst t].
    by specialize (Hrc t Ht Hr).
Qed.

Lemma filter_all {A} (P : A → Prop) `{!∀ x, Decision (P x)} (l : list A) :
  (∀ x, P x) → filter P l = l.
Proof.
  intros HP. induction l as [|x l IH]; [done|].
  rewrite filter_cons_True by done. by rewrite IH.
Qed.

Lemma ws_on_close_sched url token w :
  sched (ws_on_close url token w).2
  = (filter (λ t, Some (handle t) ≠ reconnectTimeout w) (timers w)
       ++ [mkTimer (next_handle w) 5000 (Reconnect url token)],
     S (next_handle w), Some (next_handle w)).
Proof.
  unfold ws_on_close, mbind, M_bind, bind, gets, modify, setState, logger, setTimeout; simpl.
  destruct (reconnectTimeout w); simpl; [done|].
  unfold sched; simpl. by rewrite filter_all.
Qed.

Lemma timers_ok_agree {A} (m : Act A) :
  keeps (agree sched) m → keeps (λ w w', timers_ok w → timers_ok w') m.
Proof. intros H w Hw. unfold timers_ok. by rewrite (H w). Qed.

Lemma setTimeout_reset_timers_ok id ms :
  keeps (λ w w', timers_ok w → timers_ok w') (setTimeout (ResetButton id) ms).
Proof. intros w Hw. by apply sched_ok_push_reset. Qed.

Lemma clearTimeout_timers_ok h :
  keeps (λ w w', timers_ok w → timers_ok w') (clearTimeout h).
Proof. intros w Hw. by apply sched_ok_filter. Qed.

Local Hint Resolve setTimeout_reset_timers_ok clearTimeout_timers_ok : frame.
Local Hint Extern 3 (keeps (λ w w', timers_ok w → timers_ok w') _) =>
  apply timers_ok_agree; solve [auto with frame] : frame.

Lemma onStateChange_timers_ok id state :
  keeps (λ w w', timers_ok w → timers_ok w') (onStateChange id state).
Proof. unfold onStateChange, tpl. keeps_auto. Qed.

Lemma onUnload_timers_ok : keeps (λ w w', timers_ok w → timers_ok w') onUnload.
Proof. unfold onUnload. keeps_auto. Qed.

Lemma spawn_sched m w : sched (spawn m w).2 = sched (m w).2.
Proof. unfold spawn, try_catch. by destruct (m w) as [[?|?] ?]. Qed.

Lemma step_timers_ok w e : timers_ok w → timers_ok (step w e).
Proof.
  intros Hw. unfold step, timers_ok. rewrite spawn_sched. fold (timers_ok (handler e w).2).
  destruct e as [|s|s data|s|s m|h|id state| |sf cf]; simpl.
  - unfold timers_ok. by rewrite onReady_sched.
  - unfold on_socket, mbind, M_bind, bind, gets; simpl.
    destruct (sockets w !! s); simpl; [|done].
    unfold timers_ok. by rewrite ws_on_open_sched.
  - unfold on_socket, mbind, M_bind, bind, gets; simpl.
    destruct (sockets w !! s); simpl; [|done].
    unfold timers_ok. by rewrite ws_on_message_sched.
  - unfold on_socket, mbind, M_bind, bind, gets; simpl.
    destruct (sockets w !! s); simpl; [|done].
    unfold timers_ok. rewrite ws_on_close_sched. by apply sched_ok_reschedule.
  - unfold on_socket, mbind, M_bind, bind, gets; simpl.
    by destruct (sockets w !! s).
  - unfold mbind, M_bind, bind, gets, modify; simpl.
    destruct (list_find _ (timers w)) as [[? t]|]; simpl; [|done].
    unfold timers_ok. rewrite run_callback_sched. by apply sched_ok_filter.
  - by apply onStateChange_timers_ok.
  - by apply onUnload_timers_ok.
  - done.
Qed.

Lemma init_timers_ok cfg : timers_ok (init cfg).
Proof.
  split_and!; [by intros t ?%elem_of_nil|apply NoDup_nil_2|by intros t ?%elem_of_nil].
Qed.

Lemma run_timers_ok w tr : timers_ok w → timers_ok (run w tr).
Proof.
  revert w. induction tr as [|e tr IH]; intros w Hw; simpl; [done|].
  by apply IH, step_timers_ok.
Qed.

Lemma reachable_timers_ok w : reachable w → timers_ok w.
Proof. intros (cfg & tr & ->). apply run_timers_ok, init_timers_ok. Qed.

(** All pending reconnect timers share one handle and handles are
    distinct, so there is at most one. *)
Lemma timers_ok_one_reconnect w : timers_ok w → (length (pending_reconnects w) ≤ 1)%nat.
Proof.
  intros Hw.
  pose proof (sched_ok_filter (λ t, is_reconnect t = true) _ _ _ Hw) as (_ & Hnd & _).
  destruct Hw as (_ & _ & Hrc). unfold pending_reconnects.
  destruct (filter _ (timers w)) as [|a [|b l]] eqn:Hf; simpl; [lia..|].
  assert (a ∈ filter (λ t, is_reconnect t = true) (timers w)) as [Ha1 Ha2]%list_elem_of_filter
    by (rewrite Hf; set_solver).
  assert (b ∈ filter (λ t, is_reconnect t = true) (timers w)) as [Hb1 Hb2]%list_elem_of_filter
    by (rewrite Hf; set_solver).
  pose proof (Hrc a Ha2 Ha1) as Ea. pose proof (Hrc b Hb2 Hb1) as Eb.
  rewrite Ea in Eb. injection Eb as Eb.
  simpl in Hnd. apply NoDup_cons in Hnd as [Hnd _]. rewrite Eb in Hnd. set_solver.
Qed.

End TimerInvariant.

(** ** The transport connector *)

Section Connector.
Import Unfolded Inv.
Context {rt : Runtime}.

Lemma filter_none {A} (P : A → Prop) `{!∀ x, Decision (P x)} (l : list A) :
  (∀ x, x ∈ l → ¬ P x) → filter P l = [].
Proof.
  intros HP. induction l as [|x l IH]; [done|].
  rewrite filter_cons_False by (apply HP; set_solver).
  apply IH. intros y Hy. apply HP. set_solver.
Qed.

(** C5.  In every state the event loop can reach there is at most one
    pending reconnect timer.  The close handler, run in such a state,
    returns normally having set [connected] to false, written
    [info.connection = false] (acknowledged), logged the warning,
    cancelled the timer [reconnectTimeout] held and scheduled one new
    attempt 5000 ms ahead, which is then the only pending reconnect
    timer. *)
Theorem at_most_one_reconnect_timer (w : World) (url token : string) :
  reachable w →
  (length (pending_reconnects w) ≤ 1)%nat
  ∧ let r := ws_on_close url token w in
    let attempt := mkTimer (next_handle w) 5000 (Reconnect url token) in
    r.1 = Ok tt
    ∧ connected r.2 = false
    ∧ states r.2 = <["info.connection" := mkState (JBool false) true]> (states w)
    ∧ log r.2 = log w ++ [(Warn, "WebSocket getrennt. Reconnect in 5s ...")]
    ∧ timers r.2
      = filter (λ t, Some (handle t) ≠ reconnectTimeout w) (timers w) ++ [attempt]
    ∧ reconnectTimeout r.2 = Some (next_handle w)
    ∧ pending_reconnects r.2 = [attempt].
Proof.
  intros Hw%reachable_timers_ok. split; [by apply timers_ok_one_reconnect|].
  pose proof (ws_on_close_sched url token w) as Hs.
  cbv zeta. unfold sched in Hs. injection Hs as Ht Hn Hr.
  assert ((ws_on_close url token w).1 = Ok tt
          ∧ connected (ws_on_close url token w).2 = false
          ∧ states (ws_on_close url token w).2
            = <["info.connection" := mkState (JBool false) true]> (states w)
          ∧ log (ws_on_close url token w).2
            = log w ++ [(Warn, "WebSocket getrennt. Reconnect in 5s ...")]) as (?&?&?&?).
  { unfold ws_on_close, mbind, M_bind, bind, gets, modify, setState, logger, setTimeout; simpl.
    by destruct (reconnectTimeout w). }
  split_and!; try done.
  unfold pending_reconnects. rewrite Ht, filter_app.
  rewrite filter_none; [done|].
  intros t [Hne Hin]%list_elem_of_filter Hrc.
  destruct Hw as (_ & _ & Hw). by specialize (Hw t Hin Hrc).
Qed.

(** The close listener asks nothing about a teardown: whenever a socket
    that exists reports its close, a reconnect is pending afterwards. *)
Lemma close_always_schedules (w : World) (s : nat) (k : Socket) :
  sockets w !! s = Some k →
  mkTimer (next_handle w) 5000 (Reconnect (s_url k) (s_token k))
  ∈ timers (step w (Closed s)).
Proof.
  intros Hk.
  assert (sched (step w (Closed s)) = sched (ws_on_close (s_url k) (s_token k) w).2) as H.
  { unfold step. rewrite spawn_sched. simpl.
    unfold on_socket, mbind, M_bind, bind, gets; simpl. by rewrite Hk. }
  rewrite ws_on_close_sched in H. unfold sched in H. injection H as -> _ _.
  apply elem_of_app. right. by apply list_elem_of_singleton.
Qed.

End Connector.

Lemma at_most_one_reconnect_timer_witness :
  Unfolded.reachable (rt := Node.runtime) Samples.offline
  ∧ (length (Inv.pending_reconnects Samples.offline) ≤ 1)%nat
  ∧ Inv.pending_reconnects
      (Unfolded.ws_on_close "ws://192.168.1.50:80/ws" "secret" Samples.offline).2
    = [Unfolded.mkTimer 1 5000 (Unfolded.Reconnect "ws://192.168.1.50:80/ws" "secret")].
Proof.
  assert (Unfolded.reachable (rt := Node.runtime) Samples.offline) as Hr.
  { exists Samples.cfg, [Unfolded.Ready; Unfolded.Open 0%nat; Unfolded.Closed 0%nat].
    reflexivity. }
  split; [exact Hr|].
  destruct (at_most_one_reconnect_timer (rt := Node.runtime) Samples.offline
              "ws://192.168.1.50:80/ws" "secret" Hr) as (H1 & _ & _ & _ & _ & _ & _ & H2).
  split; [exact H1|exact H2].
Defined.

(** C2.  The adapter connects, is told to unload, and the socket it
    closed then reports its close: the close handler schedules a reconnect
    after the teardown, and once that timer fires and the new socket opens
    the adapter is connected again. *)
Theorem teardown_then_close_reschedules :
  let url := "ws://192.168.1.50:80/ws" in
  let w := Unfolded.run (rt := Node.runtime) (Unfolded.init Samples.cfg)
             [Unfolded.Ready; Unfolded.Open 0%nat; Unfolded.Unload; Unfolded.Closed 0%nat] in
  let w' := Unfolded.run (rt := Node.runtime) w [Unfolded.Fires 0%nat; Unfolded.Open 1%nat] in
  Unfolded.unloaded w = 1%nat
  ∧ Unfolded.s_closes <$> Unfolded.sockets w = [1%nat]
  ∧ Unfolded.timers w = [Unfolded.mkTimer 0 5000 (Unfolded.Reconnect url "secret")]
  ∧ Unfolded.connected w' = true
  ∧ Unfolded.ws w' = Some 1%nat
  ∧ length (Unfolded.sockets w') = 2%nat.
Proof. vm_compute. repeat split. Qed.

Section Start.
Import Unfolded Inv.
Context {rt : Runtime}.

Lemma index_last_two (l : list string) (a b : string) :
  Js.index (l ++ [a; b]) (Z.of_nat (length (l ++ [a; b])) - 2) = JStr a
  ∧ Js.index (l ++ [a; b]) (Z.of_nat (length (l ++ [a; b])) - 1) = JStr b.
Proof.
  rewrite length_app. simpl. unfold Js.index.
  replace (Z.of_nat (length l + 2) - 2)%Z with (Z.of_nat (length l)) by lia.
  replace (Z.of_nat (length l + 2) - 1)%Z with (Z.of_nat (S (length l))) by lia.
  destruct (Z.ltb_spec (Z.of_nat (length l)) 0); [lia|].
  destruct (Z.ltb_spec (Z.of_nat (S (length l))) 0); [lia|].
  rewrite !Nat2Z.id.
  rewrite lookup_app_r by lia. rewrite Nat.sub_diag. simpl.
  rewrite lookup_app_r by lia.
  replace (S (length l) - length l)%nat with 1%nat by lia. done.
Qed.

Lemma split_start_id (pre key : string) :
  Js.split "." key = [key] →
  Js.split "." (pre +:+ "activities." +:+ key +:+ ".start")
  = Js.split "." (pre +:+ "activities") ++ [key; "start"].
Proof.
  intros Hkey.
  change ("activities." +:+ key +:+ ".start")
    with ("activities" +:+ String "." (key +:+ String "." "start")).
  rewrite <- append_assoc, split_app, split_app, Hkey. done.
Qed.

(** C4.  In a reachable state with [connected] set, an unacknowledged
    write of [true] to [activities.<key>.start] returns normally; one
    frame is handed to [send] on the current socket, the serialised
    request [execute_entity_command] for entity [uc.main.<key>] with
    command [activity.start]; one timer is scheduled, 500 ms ahead, whose
    callback writes [false], acknowledged, to the same node; no state or
    object is written by the call itself. *)
Theorem start_sends_one_command (w : World) (pre key : string) (state : jsval) :
  reachable w →
  connected w = true →
  Js.split "." key = [key] →
  Js.truthy state = true →
  Js.truthy (Js.prop state "ack") = false →
  Js.prop state "val" = JBool true →
  let id := pre +:+ "activities." +:+ key +:+ ".start" in
  let envelope :=
    JObj [("kind", JStr "req"); ("id", JNum 0); ("msg", JStr "execute_entity_command");
          ("msg_data", JObj [("entity_id", JStr ("uc.main." +:+ key));
                             ("cmd_id", JStr "activity.start")])] in
  let r := onStateChange id state w in
  r.1 = Ok tt
  ∧ (∃ s k, ws w = Some s ∧ sockets w !! s = Some k
       ∧ sockets r.2
         = <[s := mkSocket (s_url k) (s_token k) (s_headers k) (s_closes k)
                           (outbox k ++ [JSON_stringify envelope])]> (sockets w))
  ∧ timers r.2 = timers w ++ [mkTimer (next_handle w) 500 (ResetButton id)]
  ∧ states r.2 = states w
  ∧ objects r.2 = objects w
  ∧ ∀ w2, (run_callback (ResetButton id) w2).1 = Ok tt
          ∧ states (run_callback (ResetButton id) w2).2
            = <[id := mkState (JBool false) true]> (states w2).
Proof.
  intros Hreach Hconn Hkey Ht Hack Hval id envelope r.
  destruct (reachable_socket_ok w Hreach) as [Hpos Hws].
  destruct (Hws (Hpos Hconn)) as (s & Hs & Hlt).
  destruct (lookup_lt_is_Some_2 (sockets w) s Hlt) as [k Hk].
  assert (∀ f, alter f s (sockets w) = <[s := f k]> (sockets w)) as Halter.
  { intros f. apply list_eq. intros i. destruct (decide (i = s)) as [->|Hne].
    - rewrite list_lookup_alter_eq, list_lookup_insert_eq by done. by rewrite Hk.
    - by rewrite list_lookup_alter_ne, list_lookup_insert_ne. }
  subst r. unfold onStateChange, id.
  rewrite (split_start_id pre key Hkey).
  destruct (index_last_two (Js.split "." (pre +:+ "activities")) key "start") as [-> ->].
  unfold ws_send, fault, tpl, logger, setTimeout.
  unfold mbind, M_bind, mret, M_ret, bind, ret, gets, modify, when, lift, try_catch, throw;
    simpl.
  rewrite Ht, Hack. simpl. rewrite Hval, Hconn. simpl. rewrite Hs. simpl.
  destruct (send_fault w) as [m|]; simpl.
  - split_and!; try done. exists s, k. by rewrite Halter.
  - split_and!; try done. exists s, k. by rewrite Halter.
Qed.

End Start.

Lemma start_sends_one_command_witness :
  let w := Samples.online in
  let key := "kitchen" in
  let r := Unfolded.onStateChange (rt := Node.runtime) Samples.kitchen_start Samples.pressed w in
  Unfolded.reachable (rt := Node.runtime) w
  ∧ Unfolded.connected w = true
  ∧ Js.split "." key = [key]
  ∧ Js.truthy Samples.pressed = true
  ∧ Js.truthy (Js.prop Samples.pressed "ack") = false
  ∧ Js.prop Samples.pressed "val" = JBool true
  ∧ r.1 = Ok tt
  ∧ Unfolded.timers r.2
    = Unfolded.timers w
      ++ [Unfolded.mkTimer (Unfolded.next_handle w) 500
            (Unfolded.ResetButton Samples.kitchen_start)].
Proof.
  assert (Unfolded.reachable (rt := Node.runtime) Samples.online) as Hr.
  { exists Samples.cfg, [Unfolded.Ready; Unfolded.Open 0%nat]. reflexivity. }
  cbv zeta. split; [exact Hr|]. do 5 (split; [reflexivity|]).
  destruct (start_sends_one_command (rt := Node.runtime) Samples.online "unfolded.0."
              "kitchen" Samples.pressed Hr eq_refl eq_refl eq_refl eq_refl eq_refl)
    as (H1 & _ & H2 & _).
  split; [exact H1|exact H2].
Defined.

(** ** The entity reconciler *)

Section Reconciler.
Import Unfolded Shape.
Context {rt : Runtime}.

Lemma prop_defined v k : Js.prop v k ≠ JUndefined → Js.nullish v = false.
Proof. by destruct v. Qed.

Lemma prop_nullish v k : Js.nullish (Js.prop v k) = false → Js.nullish v = false.
Proof. by destruct v. Qed.

Lemma prop_truthy v k : Js.nullish (Js.prop v k) = false → Js.truthy v = true.
Proof. by destruct v. Qed.

Lemma toString_index (l : list string) :
  Js.toString (Js.index l 2)
  = Ok (match l !! 2%nat with Some k => k | None => "undefined" end).
Proof.
  unfold Js.index. change (2 <? 0)%Z with false. change (Z.to_nat 2) with 2%nat.
  cbv iota. by destruct (l !! 2%nat).
Qed.

Lemma loose_neq_primitive st :
  primitive st → Js.loose_neq_word st "OFF" = Ok (negb (Js.is_str st "OFF")).
Proof. by destruct st. Qed.

Lemma is_str_true v s : Js.is_str v s = true ↔ v = JStr s.
Proof.
  destruct v; simpl; try (split; [done|discriminate]).
  rewrite String.eqb_eq. split; [by intros ->|by intros [=]].
Qed.

Ltac run_m :=
  unfold createOrUpdateActivity, handleMessage, entity_key, get, split_dots, tpl,
    extendObject, setState, subscribeStates, logger;
  unfold mbind, M_bind, mret, M_ret, bind, ret, gets, modify, when, lift, throw.

(** What a complete run of [createOrUpdateActivity] does. *)
Lemma createOrUpdateActivity_run (w : World) (act : jsval) eid names st :
  entity act eid names st →
  createOrUpdateActivity act w
  = (Ok tt, reconciled (key_text eid)
              (display_name names (Js.index (Js.split "." eid) 2))
              (negb (Js.is_str st "OFF")) w).
Proof.
  intros (Hid & Hname & Hnames & Hattrs & Hst & Hcmp%loose_neq_primitive).
  assert (Js.nullish act = false) as Hact by (apply (prop_defined _ "entity_id"); by rewrite Hid).
  run_m. rewrite Hact, Hid, Hname, Hnames. simpl.
  rewrite toString_index. fold (key_text eid). unfold display_name.
  destruct (Js.truthy (Js.prop names "de_DE")); simpl.
  - rewrite Hattrs, Hst, Hcmp. reflexivity.
  - rewrite Hattrs, Hst, Hcmp. reflexivity.
Qed.

(** What [handleMessage] does with an entity-change event. *)
Lemma handleMessage_entity_change (w : World) (msg : jsval) eid nstate :
  entity_change msg eid nstate →
  let received :=
    upd_log (λ l, l ++ [(Debug, "Empfangene WS-Nachricht: entity_change")])
      (upd_log (λ l, l ++ [(Silly, "Empfangene WS-Nachricht: " +:+ JSON_stringify msg)]) w) in
  let on := Js.is_str nstate "ON" in
  handleMessage msg w
  = (Ok tt,
     if on || Js.is_str nstate "OFF" then
       upd_states (λ m, <["activities." +:+ key_text eid +:+ ".is_active"
                          := mkState (JBool on) true]> m)
         (upd_log (λ l, l ++ [(Info, "Aktivität-Status geändert: " +:+ key_text eid
                                      +:+ " => is_active="
                                      +:+ (if on then "true" else "false"))]) received)
     else received).
Proof.
  intros (Hkind & Hmsg & Hcat & Htype & Hevent & Hid & Hattrs & Hst).
  assert (Js.nullish msg = false) as Hm by (apply (prop_defined _ "kind"); by rewrite Hkind).
  assert (Js.truthy msg = true) as Hmt by (by destruct msg).
  assert (Js.truthy (Js.prop msg "msg_data") = true) as Hd.
  { destruct (Js.prop msg "msg_data"); try done. }
  assert (Js.nullish (Js.prop msg "msg_data") = false) as Hdn.
  { destruct (Js.prop msg "msg_data"); try done. }
  pose proof (prop_truthy _ _ Hattrs) as Hns.
  pose proof (prop_nullish _ _ Hattrs) as Hnn.
  run_m. rewrite Hm, Hmsg. simpl. rewrite Hmt, Hd, Hkind, Hcat, Htype, Hevent, Hns. simpl.
  rewrite Hdn, Hid. simpl. rewrite Hnn. simpl. rewrite Hattrs, Hst. simpl.
  destruct (Js.is_str nstate "ON" || Js.is_str nstate "OFF"); simpl; [|done].
  rewrite toString_index. by fold (key_text eid).
Qed.


(** C7.  An entity-change event never makes [handleMessage] throw and
    never touches an object.  It sets [is_active], acknowledged, to true
    when the new state is the string ON and to false when it is OFF; for
    every other new state value the states are left as they were. *)
Theorem applyStateChange_filters (w : World) (msg : jsval) (eid : string) (nstate : jsval) :
  entity_change msg eid nstate →
  let r := handleMessage msg w in
  let node := "activities." +:+ key_text eid +:+ ".is_active" in
  r.1 = Ok tt
  ∧ objects r.2 = objects w
  ∧ (nstate = JStr "ON" → states r.2 = <[node := mkState (JBool true) true]> (states w))
  ∧ (nstate = JStr "OFF" → states r.2 = <[node := mkState (JBool false) true]> (states w))
  ∧ (nstate ≠ JStr "ON" → nstate ≠ JStr "OFF" → states r.2 = states w).
Proof.
  intros H. cbv zeta. rewrite (handleMessage_entity_change w msg eid nstate H). cbv zeta.
  split_and!.
  - done.
  - by destruct (Js.is_str nstate "ON" || Js.is_str nstate "OFF").
  - by intros ->.
  - by intros ->.
  - intros Hon Hoff.
    destruct (Js.is_str nstate "ON") eqn:E1; [by apply is_str_true in E1|].
    destruct (Js.is_str nstate "OFF") eqn:E2; [by apply is_str_true in E2|]. done.
Qed.

(** C1, as the code has it.  The local key is the third segment of
    [entity_id] (index 2 of the split on dots): [createOrUpdateActivity]
    and the event branch of [handleMessage] both build their paths from
    it.  When [entity_id] has exactly three segments it is the final
    one. *)
Theorem local_key_is_third_segment (w : World) (eid : string) :
  (∀ act, Js.prop act "entity_id" = JStr eid →
     entity_key act w = (Ok (Js.index (Js.split "." eid) 2), w))
  ∧ (∀ act names st,
       entity act eid names st →
       createOrUpdateActivity act w
       = (Ok tt, reconciled (key_text eid)
                   (display_name names (Js.index (Js.split "." eid) 2))
                   (negb (Js.is_str st "OFF")) w))
  ∧ (∀ msg, entity_change msg eid (JStr "ON") →
       states (handleMessage msg w).2
       = <["activities." +:+ key_text eid +:+ ".is_active" := mkState (JBool true) true]>
           (states w))
  ∧ (∀ a b k, Js.split "." eid = [a; b; k] →
       Js.index (Js.split "." eid) 2 = JStr k
       ∧ key_text eid = k
       ∧ last (Js.split "." eid) = Some k).
Proof.
  split_and!.
  - intros act Hid.
    assert (Js.nullish act = false) as Hact
      by (apply (prop_defined _ "entity_id"); by rewrite Hid).
    run_m. by rewrite Hact, Hid.
  - intros act names st He.
    by apply (createOrUpdateActivity_run w act eid names st).
  - intros msg H. by rewrite (handleMessage_entity_change w msg eid _ H).
  - intros a b k Hs. unfold key_text. by rewrite Hs.
Qed.

Lemma extend_twice (old : option IoObject) (new : IoObject) :
  o_native new = [] → extend (Some (extend old new)) new = extend old new.
Proof.
  intros Hn. destruct new as [t [n ct r rd wr] nat]. simpl in Hn. subst nat.
  destruct old as [[t' [n' ct' r' rd' wr'] nat']|]; simpl; unfold merge_common; simpl.
  - f_equal. f_equal; [by destruct n|by destruct ct|by destruct r|by destruct rd|by destruct wr].
  - f_equal. f_equal; [by destruct n|by destruct ct|by destruct r|by destruct rd|by destruct wr].
Qed.

Lemma node_paths_distinct (p : string) :
  p ≠ p +:+ ".is_active" ∧ p ≠ p +:+ ".start" ∧ p +:+ ".is_active" ≠ p +:+ ".start".
Proof.
  split_and!.
  - intros H. by apply (append_neq_self p ".is_active").
  - intros H. by apply (append_neq_self p ".start").
  - by intros H%String.app_inj.
Qed.

(** The objects of a reconciled store, read back. *)
Lemma reconciled_objects k name active w :
  let p := "activities." +:+ k in
  objects (reconciled k name active w) !! p = Some (extend (objects w !! p) (channel_node name))
  ∧ objects (reconciled k name active w) !! (p +:+ ".is_active")
    = Some (extend (objects w !! (p +:+ ".is_active")) is_active_node)
  ∧ objects (reconciled k name active w) !! (p +:+ ".start")
    = Some (extend (objects w !! (p +:+ ".start")) start_node)
  ∧ ∀ id, id ≠ p → id ≠ p +:+ ".is_active" → id ≠ p +:+ ".start" →
          objects (reconciled k name active w) !! id = objects w !! id.
Proof.
  intros p. destruct (node_paths_distinct p) as (H1 & H2 & H3).
  unfold reconciled. fold p. simpl. split_and!.
  - by rewrite lookup_insert_ne, lookup_insert_ne, lookup_insert_eq.
  - rewrite lookup_insert_ne, lookup_insert_eq by done. by rewrite lookup_insert_ne.
  - rewrite lookup_insert_eq. by rewrite !lookup_insert_ne.
  - intros id ? ? ?. by rewrite !lookup_insert_ne.
Qed.

Lemma upd_objects_id f w : f (objects w) = objects w → upd_objects f w = w.
Proof. destruct w; unfold upd_objects; simpl. by intros ->. Qed.

Lemma upd_states_id f w : f (states w) = states w → upd_states f w = w.
Proof. destruct w; unfold upd_states; simpl. by intros ->. Qed.

Lemma upd_subscriptions_id f w :
  f (subscriptions w) = subscriptions w → upd_subscriptions f w = w.
Proof. destruct w; unfold upd_subscriptions; simpl. by intros ->. Qed.

Lemma reconciled_twice k name active w :
  reconciled k name active (reconciled k name active w) = reconciled k name active w.
Proof.
  destruct (reconciled_objects k name active w) as (Hc & Ha & Hs & _).
  assert (states (reconciled k name active w) !! (("activities." +:+ k) +:+ ".is_active")
          = Some (mkState (JBool active) true)) as Hv.
  { unfold reconciled. simpl. by rewrite lookup_insert_eq. }
  assert ({[("activities." +:+ k) +:+ ".start"]} ∪ subscriptions (reconciled k name active w)
          = subscriptions (reconciled k name active w)) as Hsub.
  { unfold reconciled. simpl. by rewrite (assoc_L (∪)), (idemp_L (∪)). }
  set (w1 := reconciled k name active w) in *.
  unfold reconciled at 1.
  rewrite (upd_objects_id _ w1) by (rewrite Hc, extend_twice by done; by apply insert_id).
  rewrite (upd_objects_id _ w1) by (rewrite Ha, extend_twice by done; by apply insert_id).
  rewrite (upd_states_id _ w1) by (by apply insert_id).
  rewrite (upd_subscriptions_id _ w1) by exact Hsub.
  rewrite (upd_objects_id _ w1) by (rewrite Hs, extend_twice by done; by apply insert_id).
  done.
Qed.

(** C6, as the code has it.  For an entity whose id has three segments,
    the last being [k], [createOrUpdateActivity] returns normally having
    created or extended three objects and no other: the channel
    [activities.k], the read-only boolean state [activities.k.is_active]
    and the write-only boolean trigger [activities.k.start].  It sets
    [is_active], acknowledged, to whether the state attribute differs from
    OFF, and subscribes to the trigger.  Running it again on the result
    with the same entity changes nothing. *)
Theorem reconcile_three_segment_entity (w : World) (act : jsval) (eid a b k : string)
    (names st : jsval) :
  Js.split "." eid = [a; b; k] →
  entity act eid names st →
  let p := "activities." +:+ k in
  let name := display_name names (JStr k) in
  let active := negb (Js.is_str st "OFF") in
  let r := createOrUpdateActivity act w in
  r.1 = Ok tt
  ∧ objects r.2 !! p = Some (extend (objects w !! p) (channel_node name))
  ∧ objects r.2 !! (p +:+ ".is_active")
    = Some (extend (objects w !! (p +:+ ".is_active")) is_active_node)
  ∧ objects r.2 !! (p +:+ ".start")
    = Some (extend (objects w !! (p +:+ ".start")) start_node)
  ∧ (∀ id, id ≠ p → id ≠ p +:+ ".is_active" → id ≠ p +:+ ".start" →
       objects r.2 !! id = objects w !! id)
  ∧ (∀ old, o_type (extend old (channel_node name)) = "channel")
  ∧ (∀ old, let o := extend old is_active_node in
       o_type o = "state" ∧ c_type (o_common o) = Some "boolean"
       ∧ c_read (o_common o) = Some true ∧ c_write (o_common o) = Some false)
  ∧ (∀ old, let o := extend old start_node in
       o_type o = "state" ∧ c_type (o_common o) = Some "boolean"
       ∧ c_read (o_common o) = Some false ∧ c_write (o_common o) = Some true)
  ∧ states r.2 = <[p +:+ ".is_active" := mkState (JBool active) true]> (states w)
  ∧ (active = true ↔ st ≠ JStr "OFF")
  ∧ subscriptions r.2 = {[p +:+ ".start"]} ∪ subscriptions w
  ∧ createOrUpdateActivity act r.2 = (Ok tt, r.2).
Proof.
  intros Hs He p name active r.
  assert (key_text eid = k) as Hk by (unfold key_text; by rewrite Hs).
  assert (Js.index (Js.split "." eid) 2 = JStr k) as Hi by (by rewrite Hs).
  pose proof (createOrUpdateActivity_run) as Hrun.
  assert (∀ w0, createOrUpdateActivity act w0 = (Ok tt, reconciled k name active w0)) as Hr.
  { intros w0. rewrite (Hrun w0 act eid names st He). by rewrite Hk, Hi. }
  subst r. rewrite Hr. simpl.
  destruct (reconciled_objects k name active w) as (Hc & Ha & Hst & Hother).
  split_and!; try done.
  - by intros [|].
  - by intros [|].
  - by intros [|].
  - subst active. rewrite negb_true_iff. split.
    + intros Hf ->. simpl in Hf. discriminate.
    + intros Hne. destruct (Js.is_str st "OFF") eqn:E; [|done]. by apply is_str_true in E.
  - rewrite Hr. by rewrite reconciled_twice.
Qed.

End Reconciler.

Lemma applyStateChange_filters_witness :
  Shape.entity_change Samples.kitchen_on "uc.main.kitchen" (JStr "ON")
  ∧ (Unfolded.handleMessage (rt := Node.runtime) Samples.kitchen_on Samples.online).1 = Ok tt
  ∧ Unfolded.states
      (Unfolded.handleMessage (rt := Node.runtime) Samples.kitchen_on Samples.online).2
    = <["activities." +:+ Shape.key_text "uc.main.kitchen" +:+ ".is_active"
        := Unfolded.mkState (JBool true) true]> (Unfolded.states Samples.online).
Proof.
  assert (Shape.entity_change Samples.kitchen_on "uc.main.kitchen" (JStr "ON")) as H
    by (repeat split).
  split; [exact H|].
  destruct (applyStateChange_filters (rt := Node.runtime) Samples.online Samples.kitchen_on
              "uc.main.kitchen" (JStr "ON") H) as (H1 & _ & H2 & _).
  split; [exact H1|exact (H2 eq_refl)].
Defined.

Lemma local_key_is_third_segment_witness :
  Js.prop Samples.kitchen "entity_id" = JStr "uc.main.kitchen"
  ∧ Js.split "." "uc.main.kitchen" = ["uc"; "main"; "kitchen"]
  ∧ Unfolded.entity_key Samples.kitchen Samples.online = (Ok (JStr "kitchen"), Samples.online)
  ∧ last (Js.split "." "uc.main.kitchen") = Some "kitchen".
Proof.
  split; [reflexivity|]. split; [reflexivity|].
  destruct (local_key_is_third_segment (rt := Node.runtime) Samples.online "uc.main.kitchen")
    as (H1 & _ & _ & H4).
  split; [exact (H1 Samples.kitchen eq_refl)|].
  exact (proj2 (proj2 (H4 "uc" "main" "kitchen" eq_refl))).
Defined.

Lemma reconcile_three_segment_entity_witness :
  let r := Unfolded.createOrUpdateActivity (rt := Node.runtime) Samples.kitchen Samples.online in
  Js.split "." "uc.main.kitchen" = ["uc"; "main"; "kitchen"]
  ∧ Shape.entity Samples.kitchen "uc.main.kitchen" (JObj [("en_US", JStr "Kitchen")])
      (JStr "OFF")
  ∧ r.1 = Ok tt
  ∧ Unfolded.createOrUpdateActivity (rt := Node.runtime) Samples.kitchen r.2 = (Ok tt, r.2).
Proof.
  assert (Shape.entity Samples.kitchen "uc.main.kitchen" (JObj [("en_US", JStr "Kitchen")])
            (JStr "OFF")) as He by (repeat split).
  cbv zeta. split; [reflexivity|]. split; [exact He|].
  destruct (reconcile_three_segment_entity (rt := Node.runtime) Samples.online Samples.kitchen
              "uc.main.kitchen" "uc" "main" "kitchen" _ _ eq_refl He)
    as (H1 & _ & _ & _ & _ & _ & _ & _ & _ & _ & _ & H2).
  split; [exact H1|exact H2].
Defined.

(** C1 as stated fails on an id of four segments: for
    [uc.main.kitchen.lamp] the final segment is [lamp], while the key is
    [kitchen] and the objects are made under [activities.kitchen]. *)
Lemma local_key_is_not_the_final_segment :
  let w := Unfolded.init Samples.cfg in
  let w' := (Unfolded.createOrUpdateActivity (rt := Node.runtime) Samples.kitchen_lamp w).2 in
  Js.prop Samples.kitchen_lamp "entity_id" = JStr "uc.main.kitchen.lamp"
  ∧ last (Js.split "." "uc.main.kitchen.lamp") = Some "lamp"
  ∧ (Unfolded.entity_key Samples.kitchen_lamp w).1 = Ok (JStr "kitchen")
  ∧ is_Some (Unfolded.objects w' !! "activities.kitchen")
  ∧ Unfolded.objects w' !! "activities.lamp" = None.
Proof. vm_compute. split_and!; try reflexivity. by eexists. Qed.

(** C6 as stated fails on the same entity: its id ends in [lamp], and
    reconciling it from an empty store leaves no channel
    [activities.lamp] and no state [activities.lamp.is_active]; the three
    objects are under [activities.kitchen]. *)
Lemma reconcile_ignores_the_final_segment :
  let w' := (Unfolded.createOrUpdateActivity (rt := Node.runtime) Samples.kitchen_lamp
               (Unfolded.init Samples.cfg)).2 in
  last (Js.split "." "uc.main.kitchen.lamp") = Some "lamp"
  ∧ Unfolded.objects w' !! "activities.lamp" = None
  ∧ Unfolded.objects w' !! "activities.lamp.is_active" = None
  ∧ Unfolded.states w' !! "activities.lamp.is_active" = None
  ∧ dom (Unfolded.objects w')
    = {[ "activities.kitchen"; "activities.kitchen.is_active"; "activities.kitchen.start" ]}.
Proof. vm_compute. split_and!; reflexivity. Qed.

(** ** The REST adapter's action states *)

Section Actions.
Import Unfolded(Debug, Info, Error, mkState).
Import UnfoldedAdapter.
Context {rt : Runtime}.

(** C9.  An unacknowledged write to an action state makes exactly one
    POST.  If the POST is rejected, the handler returns normally, leaves
    the trigger state as the user wrote it, creates the sibling
    [<id>_error] object when it is absent and sets its state to the
    rejection's message.  If the POST succeeds, the trigger is
    acknowledged with the value written and the entity's [lastUpdate] is
    set to the current time; no object is created. *)
Theorem action_write_outcome (w : World) (id type oid action : string) (state : jsval) :
  match_action id = Some (type, oid, action) →
  Js.truthy state = true →
  Js.truthy (Js.prop state "ack") = false →
  let r := onStateChange id state w in
  let error_node := mkObject "state" "last action error" (Some "string") (Some "text")
                             (Some true) (Some false) None in
  ∃ url body,
    posts r.2 = posts w ++ [(url, body)]
    ∧ r.1 = Ok tt
    ∧ (∀ e, post_reply w url body = Throw e →
         states r.2 = <[id +:+ "_error" := mkState (JStr (err_message e)) true]> (states w)
         ∧ states r.2 !! id = states w !! id
         ∧ objects r.2 !! (id +:+ "_error")
           = Some (default error_node (objects w !! (id +:+ "_error")))
         ∧ (∀ other, other ≠ id +:+ "_error" → objects r.2 !! other = objects w !! other))
    ∧ (∀ status, post_reply w url body = Ok status →
         states r.2
         = <[(type +:+ "." +:+ oid) +:+ ".lastUpdate" := mkState (JStr (clock w)) true]>
             (<[id := mkState (Js.prop state "val") true]> (states w))
         ∧ objects r.2 = objects w).
Proof.
  intros Hm Ht Hack r error_node. subst r. unfold onStateChange.
  rewrite Ht, Hack, Hm. simpl.
  unfold axios_post, getForeignObjectAsync, setStateAsync, setObjectNotExistsAsync, logger.
  unfold mbind at 1, M_bind at 1, bind at 1, modify at 1.
  unfold try_catch, mbind, M_bind, bind, gets, modify, lift; simpl.
  match goal with
  | |- context [post_reply w ?u ?b] =>
      exists u, b; destruct (post_reply w u b) as [status|e] eqn:Hreply; simpl
  end.
  - split_and!; done.
  - split_and!; try done; intros ? Heq; try discriminate Heq.
    injection Heq as <-. split_and!.
    + done.
    + rewrite lookup_insert_ne; [done|]. by apply append_neq_self.
    + destruct (objects w !! (id +:+ "_error")) eqn:E; simpl; [done|].
      by rewrite lookup_insert_eq.
    + intros other Hne. destruct (objects w !! (id +:+ "_error")); [done|].
      by rewrite lookup_insert_ne.
Qed.

End Actions.

Lemma action_write_outcome_witness :
  let id := "activities.uc_main_kitchen.actions.start" in
  let state := JObj [("val", JStr "go"); ("ack", JBool false)] in
  let down := UnfoldedAdapter.mkWorld (Some "http://192.168.1.50:80") ∅ ∅ [] []
                (λ _ _, Throw (mkError "Error" "connect ECONNREFUSED"))
                "2025-01-01T00:00:00.000Z" in
  let r := UnfoldedAdapter.onStateChange (rt := Node.runtime) id state down in
  UnfoldedAdapter.match_action id = Some ("activities", "uc_main_kitchen", "start")
  ∧ Js.truthy state = true
  ∧ Js.truthy (Js.prop state "ack") = false
  ∧ r.1 = Ok tt
  ∧ length (UnfoldedAdapter.posts r.2) = 1%nat.
Proof.
  cbv zeta. do 3 (split; [reflexivity|]).
  destruct (action_write_outcome (rt := Node.runtime)
              (UnfoldedAdapter.mkWorld (Some "http://192.168.1.50:80") ∅ ∅ [] []
                 (λ _ _, Throw (mkError "Error" "connect ECONNREFUSED"))
                 "2025-01-01T00:00:00.000Z")
              "activities.uc_main_kitchen.actions.start" "activities" "uc_main_kitchen" "start"
              (JObj [("val", JStr "go"); ("ack", JBool false)]) eq_refl eq_refl eq_refl)
    as (url & body & Hposts & Hok & _).
  split; [exact Hok|]. rewrite Hposts. reflexivity.
Defined.

(** ** The model at work *)

Section Examples.
Import Unfolded Node Samples.

(** The event frame survives serialisation and parsing. *)
Example kitchen_on_round_trip :
  JSON_parse (JSON_stringify kitchen_on) = Ok kitchen_on.
Proof. reflexivity. Qed.

(** After connecting, an [entities] response listing the kitchen
    activity and an event switching it on leave [is_active] true. *)
Example snapshot_then_event :
  let entities :=
    JObj [("kind", JStr "resp"); ("code", JNum 200); ("msg", JStr "entities");
          ("msg_data", JObj [("entities", JArr [kitchen])])] in
  let w := run (init cfg)
             [Ready; Open 0%nat;
              Message 0%nat (JSON_stringify entities);
              Message 0%nat (JSON_stringify kitchen_on)] in
  dom (objects w)
  = {[ "activities.kitchen"; "activities.kitchen.is_active"; "activities.kitchen.start" ]}
  ∧ states w !! "activities.kitchen.is_active" = Some (mkState (JBool true) true)
  ∧ "activities.kitchen.start" ∈ subscriptions w
  ∧ uncaught w = [].
Proof. vm_compute. split_and!; reflexivity. Qed.

(** A record without a name makes [createOrUpdateActivity] throw before
    it creates anything; the rejection reaches no handler. *)
Example nameless_entity_rejects :
  let entities :=
    JObj [("kind", JStr "resp"); ("code", JNum 200); ("msg", JStr "entities");
          ("msg_data", JObj [("entities", JArr [JObj [("entity_id", JStr "uc.main.tv")]])])] in
  let w := run (init cfg) [Ready; Open 0%nat; Message 0%nat (JSON_stringify entities)] in
  objects w = ∅
  ∧ uncaught w
    = [TypeError "Cannot read properties of undefined (reading 'de_DE')"].
Proof. vm_compute. split; reflexivity. Qed.

(** Pressing start while connected, then letting the reset timer fire. *)
Example press_and_release :
  let w := run online [StateChange kitchen_start pressed; Fires 0%nat] in
  (length <$> (outbox <$> sockets w)) = [3%nat]
  ∧ states w !! kitchen_start = Some (mkState (JBool false) true)
  ∧ timers w = [].
Proof. vm_compute. split_and!; reflexivity. Qed.

End Examples.

(** * Further properties of the WebSocket adapter *)

(** ** Start-up *)

Section Startup.
Import Unfolded Inv.
Context {rt : Runtime}.


(** X2.  With a host and an API key that are not blank, the first
    [onReady] makes exactly one socket, for [ws://<host>:<port>/ws] with
    the header [API-KEY: <key>], port 80 standing in for an unset port;
    [ws] refers to it, and nothing is sent or scheduled yet. *)
Theorem onReady_dials_configured_hub (w : World) :
  let cfg := config w in
  host cfg ≠ EmptyString → String_trim (host cfg) ≠ EmptyString →
  apikey cfg ≠ EmptyString → String_trim (apikey cfg) ≠ EmptyString →
  ws w = None →
  let url := "ws://" +:+ host cfg +:+ ":"
             +:+ Number_toString (if (port cfg =? 0)%Z then 80%Z else port cfg) +:+ "/ws" in
  onReady w
  = (Ok tt,
     upd_ws (λ _, Some (length (sockets w)))
       (upd_sockets (λ l, l ++ [mkSocket url (apikey cfg) [("API-KEY", apikey cfg)] 0 []])
          (upd_log (λ l, l ++ [(Info, "Verbinde mit Unfolded Circle Remote 3 WebSocket: "
                                      +:+ url)]) w))).
Proof.
  intros cfg Hh Hh' Hk Hk' Hws url. subst cfg url.
  unfold onReady, connectWebSocket, new_WebSocket, logger.
  unfold mbind, M_bind, mret, M_ret, bind, ret, gets, modify; simpl.
  destruct (String.eqb_spec (host (config w)) EmptyString); [done|].
  destruct (String.eqb_spec (String_trim (host (config w))) EmptyString); [done|].
  destruct (String.eqb_spec (apikey (config w)) EmptyString); [done|].
  destruct (String.eqb_spec (String_trim (apikey (config w))) EmptyString); [done|].
  simpl. rewrite Hws. simpl.
  by destruct (port (config w) =? 0)%Z.
Qed.

End Startup.


Lemma onReady_dials_configured_hub_witness :
  let w := Unfolded.init Samples.cfg in
  Unfolded.host (Unfolded.config w) ≠ EmptyString
  ∧ String_trim (Runtime := Node.runtime) (Unfolded.host (Unfolded.config w)) ≠ EmptyString
  ∧ Unfolded.apikey (Unfolded.config w) ≠ EmptyString
  ∧ String_trim (Runtime := Node.runtime) (Unfolded.apikey (Unfolded.config w)) ≠ EmptyString
  ∧ Unfolded.ws w = None
  ∧ Unfolded.sockets (Unfolded.onReady (rt := Node.runtime) w).2
    = [Unfolded.mkSocket "ws://192.168.1.50:80/ws" "secret" [("API-KEY", "secret")] 0 []].
Proof.
  cbv zeta.
  assert (∀ a b : string, String.eqb a b = false → a ≠ b) as Hne.
  { intros a b H ->. by rewrite String.eqb_refl in H. }
  pose proof (Hne "192.168.1.50" EmptyString eq_refl) as H1.
  pose proof (Hne (String_trim (Runtime := Node.runtime) "192.168.1.50") EmptyString eq_refl) as H2.
  pose proof (Hne "secret" EmptyString eq_refl) as H3.
  pose proof (Hne (String_trim (Runtime := Node.runtime) "secret") EmptyString eq_refl) as H4.
  split; [exact H1|]. split; [exact H2|]. split; [exact H3|]. split; [exact H4|].
  split; [reflexivity|].
  rewrite (onReady_dials_configured_hub (rt := Node.runtime) (Unfolded.init Samples.cfg)
             H1 H2 H3 H4 eq_refl).
  reflexivity.
Defined.

(** ** The open listener *)

Section OpenListener.
Import Unfolded Inv.
Context {rt : Runtime}.

Lemma alter_as_insert {A} (f : A → A) (l : list A) (i : nat) (x : A) :
  l !! i = Some x → alter f i l = <[i := f x]> l.
Proof.
  intros Hx. apply list_eq. intros j. destruct (decide (j = i)) as [->|Hne].
  - rewrite list_lookup_alter_eq, Hx.
    by rewrite list_lookup_insert_eq by (by eapply lookup_lt_Some).
  - by rewrite list_lookup_alter_ne, list_lookup_insert_ne.
Qed.

(** X3.  When the current socket opens and the transport is sound, the
    listener returns normally with [connected] set and
    [info.connection] written true (acknowledged), and it hands the
    socket two frames in this order: the [subscribe_events] request for
    the channel [entity_activity], then the [get_entities] request
    filtered to activities. *)
Theorem open_subscribes_then_requests (w : World) (s : nat) (k : Socket) :
  ws w = Some s →
  sockets w !! s = Some k →
  send_fault w = None →
  let subscribe :=
    JObj [("kind", JStr "req"); ("id", JNum 0); ("msg", JStr "subscribe_events");
          ("msg_data", JObj [("channels", JArr [JStr "entity_activity"])])] in
  let request :=
    JObj [("kind", JStr "req"); ("id", JNum 0); ("msg", JStr "get_entities");
          ("msg_data", JObj [("filter", JObj [("entity_types", JArr [JStr "activity"])])])] in
  let r := ws_on_open w in
  r.1 = Ok tt
  ∧ connected r.2 = true
  ∧ states r.2 = <["info.connection" := mkState (JBool true) true]> (states w)
  ∧ sockets r.2
    = <[s := mkSocket (s_url k) (s_token k) (s_headers k) (s_closes k)
                      (outbox k ++ [JSON_stringify subscribe; JSON_stringify request])]>
        (sockets w)
  ∧ timers r.2 = timers w.
Proof.
  intros Hws Hk Hf subscribe request r. subst r.
  unfold ws_on_open, subscribeActivities, requestAllActivities, ws_send, fault, setState, logger.
  unfold mbind, M_bind, mret, M_ret, bind, ret, gets, modify, throw; simpl.
  repeat (first [rewrite Hws|rewrite Hf]; simpl). split_and!; try done.
  rewrite (alter_as_insert _ _ _ _ Hk).
  erewrite alter_as_insert by (by apply list_lookup_insert_eq; eapply lookup_lt_Some).
  rewrite list_insert_insert_eq. simpl. by rewrite <- (assoc_L (++)).
Qed.

(** X4.  When the transport makes [send] throw, the open listener has
    already set [connected] and written [info.connection]; the exception
    leaves the listener after the subscribe frame was handed over, so the
    [get_entities] request is never made, and the event loop records the
    exception as uncaught. *)
Theorem open_with_failing_send (w : World) (s : nat) (k : Socket) (m : string) :
  ws w = Some s →
  sockets w !! s = Some k →
  send_fault w = Some m →
  let subscribe :=
    JObj [("kind", JStr "req"); ("id", JNum 0); ("msg", JStr "subscribe_events");
          ("msg_data", JObj [("channels", JArr [JStr "entity_activity"])])] in
  let w' := step w (Open s) in
  (ws_on_open w).1 = Throw (mkError "Error" m)
  ∧ connected w' = true
  ∧ states w' = <["info.connection" := mkState (JBool true) true]> (states w)
  ∧ sockets w'
    = <[s := mkSocket (s_url k) (s_token k) (s_headers k) (s_closes k)
                      (outbox k ++ [JSON_stringify subscribe])]> (sockets w)
  ∧ uncaught w' = uncaught w ++ [mkError "Error" m].
Proof.
  intros Hws Hk Hf subscribe w'. subst w'.
  unfold step, spawn, try_catch, handler, on_socket.
  unfold ws_on_open, subscribeActivities, requestAllActivities, ws_send, fault, setState, logger.
  unfold mbind, M_bind, mret, M_ret, bind, ret, gets, modify, throw; simpl.
  rewrite Hk. simpl. repeat (first [rewrite Hws|rewrite Hf]; simpl). split_and!; try done.
  by rewrite (alter_as_insert _ _ _ _ Hk).
Qed.

End OpenListener.

Lemma open_subscribes_then_requests_witness :
  let w := Unfolded.run (rt := Node.runtime) (Unfolded.init Samples.cfg) [Unfolded.Ready] in
  Unfolded.ws w = Some 0%nat
  ∧ Unfolded.sockets w !! 0%nat
    = Some (Unfolded.mkSocket "ws://192.168.1.50:80/ws" "secret" [("API-KEY", "secret")] 0 [])
  ∧ Unfolded.send_fault w = None
  ∧ (Unfolded.ws_on_open (rt := Node.runtime) w).1 = Ok tt
  ∧ Unfolded.connected (Unfolded.ws_on_open (rt := Node.runtime) w).2 = true.
Proof.
  cbv zeta. do 3 (split; [reflexivity|]).
  destruct (open_subscribes_then_requests (rt := Node.runtime)
              (Unfolded.run (rt := Node.runtime) (Unfolded.init Samples.cfg) [Unfolded.Ready])
              0 _ eq_refl eq_refl eq_refl) as (H1 & H2 & _).
  split; [exact H1|exact H2].
Defined.

Lemma open_with_failing_send_witness :
  let w := Unfolded.run (rt := Node.runtime) (Unfolded.init Samples.cfg)
             [Unfolded.Ready; Unfolded.Transport (Some "socket hang up") None] in
  Unfolded.ws w = Some 0%nat
  ∧ Unfolded.sockets w !! 0%nat
    = Some (Unfolded.mkSocket "ws://192.168.1.50:80/ws" "secret" [("API-KEY", "secret")] 0 [])
  ∧ Unfolded.send_fault w = Some "socket hang up"
  ∧ Unfolded.uncaught (Unfolded.step (rt := Node.runtime) w (Unfolded.Open 0%nat))
    = [mkError "Error" "socket hang up"].
Proof.
  cbv zeta. do 3 (split; [reflexivity|]).
  destruct (open_with_failing_send (rt := Node.runtime)
              (Unfolded.run (rt := Node.runtime) (Unfolded.init Samples.cfg)
                 [Unfolded.Ready; Unfolded.Transport (Some "socket hang up") None])
              0 _ "socket hang up" eq_refl eq_refl eq_refl) as (_ & _ & _ & _ & H).
  exact H.
Defined.

(** ** More on the command dispatcher *)

Section DispatcherEdges.
Import Unfolded Inv.
Context {rt : Runtime}.

Lemma index_last (l : list string) :
  Js.index l (Z.of_nat (length l) - 1)
  = match last l with Some s => JStr s | None => JUndefined end.
Proof.
  destruct l as [|x l] using rev_ind; [done|].
  rewrite length_app, last_snoc. simpl. unfold Js.index.
  replace (Z.of_nat (length l + 1) - 1)%Z with (Z.of_nat (length l)) by lia.
  destruct (Z.ltb_spec (Z.of_nat (length l)) 0); [lia|].
  rewrite Nat2Z.id, lookup_app_r by lia. by rewrite Nat.sub_diag.
Qed.

Lemma onStateChange_not_start (w : World) (id : string) (state : jsval) :
  last (Js.split "." id) ≠ Some "start" →
  onStateChange id state w
  = (Ok tt, upd_log (λ l, l ++ [(Debug, "StateChange: " +:+ id +:+ " => "
                                         +:+ JSON_stringify state)]) w).
Proof.
  intros Hlast. unfold onStateChange.
  unfold mbind, M_bind, mret, M_ret, bind, ret, gets, modify, logger, when; simpl.
  destruct (negb (Js.truthy state) || Js.truthy (Js.prop state "ack")); [done|].
  rewrite index_last.
  destruct (last (Js.split "." id)) as [s|]; simpl; [|done].
  destruct (String.eqb_spec s "start") as [->|]; [done|]. done.
Qed.

(** X5.  A write to a node whose last segment is not [start] is never
    turned into a command, whatever its value and whether or not the
    adapter is connected: the call returns after its debug line. *)
Theorem onStateChange_ignores_other_nodes (w : World) (id : string) (state : jsval) :
  last (Js.split "." id) ≠ Some "start" →
  onStateChange id state w
  = (Ok tt, upd_log (λ l, l ++ [(Debug, "StateChange: " +:+ id +:+ " => "
                                         +:+ JSON_stringify state)]) w).
Proof. apply onStateChange_not_start. Qed.

(** X6.  When the transport makes [send] throw while a start command is
    dispatched, the exception stays inside [onStateChange]: the call
    returns normally, logs the attempt and then the error with the
    transport's message instead of the confirmation, and still schedules
    the 500 ms reset of the button. *)
Theorem start_with_failing_send (w : World) (pre key m : string) (state : jsval) :
  reachable w →
  connected w = true →
  send_fault w = Some m →
  Js.split "." key = [key] →
  Js.truthy state = true →
  Js.truthy (Js.prop state "ack") = false →
  Js.prop state "val" = JBool true →
  let id := pre +:+ "activities." +:+ key +:+ ".start" in
  let r := onStateChange id state w in
  r.1 = Ok tt
  ∧ log r.2
    = log w ++ [(Debug, "StateChange: " +:+ id +:+ " => " +:+ JSON_stringify state);
                (Info, "Starte Aktivität über WebSocket: " +:+ key);
                (Error, "Fehler beim Senden von Startbefehl: " +:+ m)]
  ∧ timers r.2 = timers w ++ [mkTimer (next_handle w) 500 (ResetButton id)]
  ∧ states r.2 = states w
  ∧ uncaught r.2 = uncaught w.
Proof.
  intros Hreach Hconn Hf Hkey Ht Hack Hval id r.
  destruct (reachable_socket_ok w Hreach) as [Hpos Hws].
  destruct (Hws (Hpos Hconn)) as (s & Hs & Hlt).
  subst r. unfold onStateChange, id.
  rewrite (split_start_id pre key Hkey).
  destruct (index_last_two (Js.split "." (pre +:+ "activities")) key "start") as [-> ->].
  unfold ws_send, fault, tpl, logger, setTimeout.
  unfold mbind, M_bind, mret, M_ret, bind, ret, gets, modify, when, lift, try_catch, throw;
    simpl.
  rewrite Ht, Hack. simpl. rewrite Hval, Hconn. simpl. rewrite Hs. simpl. rewrite Hf. simpl.
  split_and!; try done.
  by rewrite <- !(assoc_L (++)).
Qed.

End DispatcherEdges.

Lemma onStateChange_ignores_other_nodes_witness :
  let id := "unfolded.0.activities.kitchen.is_active" in
  last (Js.split "." id) ≠ Some "start"
  ∧ Unfolded.sockets (Unfolded.onStateChange (rt := Node.runtime) id Samples.pressed
                        Samples.online).2
    = Unfolded.sockets Samples.online.
Proof.
  cbv zeta.
  assert (last (Js.split "." "unfolded.0.activities.kitchen.is_active") ≠ Some "start") as H
    by (vm_compute; discriminate).
  split; [exact H|].
  rewrite (onStateChange_ignores_other_nodes (rt := Node.runtime) Samples.online
             "unfolded.0.activities.kitchen.is_active" Samples.pressed H).
  reflexivity.
Defined.

Lemma start_with_failing_send_witness :
  let w := Unfolded.run (rt := Node.runtime) Samples.online
             [Unfolded.Transport (Some "not opened") None] in
  let r := Unfolded.onStateChange (rt := Node.runtime) Samples.kitchen_start Samples.pressed w in
  Unfolded.reachable (rt := Node.runtime) w
  ∧ Unfolded.connected w = true
  ∧ Unfolded.send_fault w = Some "not opened"
  ∧ Js.split "." "kitchen" = ["kitchen"]
  ∧ Js.truthy Samples.pressed = true
  ∧ Js.truthy (Js.prop Samples.pressed "ack") = false
  ∧ Js.prop Samples.pressed "val" = JBool true
  ∧ r.1 = Ok tt
  ∧ Unfolded.uncaught r.2 = Unfolded.uncaught w.
Proof.
  assert (Unfolded.reachable (rt := Node.runtime)
            (Unfolded.run (rt := Node.runtime) Samples.online
               [Unfolded.Transport (Some "not opened") None])) as Hr.
  { exists Samples.cfg,
      [Unfolded.Ready; Unfolded.Open 0%nat; Unfolded.Transport (Some "not opened") None].
    reflexivity. }
  cbv zeta. split; [exact Hr|]. do 6 (split; [reflexivity|]).
  destruct (start_with_failing_send (rt := Node.runtime) _ "unfolded.0." "kitchen" "not opened"
              Samples.pressed Hr eq_refl eq_refl eq_refl eq_refl eq_refl eq_refl)
    as (H1 & _ & _ & _ & H2).
  split; [exact H1|exact H2].
Defined.

(** ** Teardown and the reconnect timer *)

Section Teardown.
Import Unfolded Inv Inv2.
Context {rt : Runtime}.


(** A second invariant of the scheduler: the handle [reconnectTimeout]
    holds was issued, pending handles were issued, and a pending timer
    with that handle is a reconnect timer. *)
Lemma held_ok_filter (P : Timer → Prop) `{!∀ t, Decision (P t)} ts n r :
  held_ok (ts, n, r) → held_ok (filter P ts, n, r).
Proof.
  intros (Hr & Hlt & Hrc). split_and!; [done|..].
  - intros t [_ Ht]%list_elem_of_filter. auto.
  - intros t [_ Ht]%list_elem_of_filter. auto.
Qed.

Lemma held_ok_push_reset ts n r id ms :
  held_ok (ts, n, r) → held_ok (ts ++ [mkTimer n ms (ResetButton id)], S n, r).
Proof.
  intros (Hr & Hlt & Hrc). split_and!.
  - intros h Hh. apply Hr in Hh. lia.
  - intros t [Ht|Ht%list_elem_of_singleton]%elem_of_app;
      [apply Hlt in Ht; lia|subst t; simpl; lia].
  - intros t [Ht|Ht%list_elem_of_singleton]%elem_of_app Heq; [by auto|].
    subst t. simpl in Heq. symmetry in Heq. apply Hr in Heq. lia.
Qed.

Lemma held_ok_reschedule (P : Timer → Prop) `{!∀ t, Decision (P t)} ts n r url token ms :
  held_ok (ts, n, r) →
  held_ok (filter P ts ++ [mkTimer n ms (Reconnect url token)], S n, Some n).
Proof.
  intros (Hr & Hlt & Hrc). split_and!.
  - intros h [= <-]. lia.
  - intros t [[_ Ht]%list_elem_of_filter|Ht%list_elem_of_singleton]%elem_of_app;
      [apply Hlt in Ht; lia|subst t; simpl; lia].
  - intros t [[_ Ht]%list_elem_of_filter|Ht%list_elem_of_singleton]%elem_of_app Heq;
      [|by subst t].
    apply Hlt in Ht. injection Heq as Heq. lia.
Qed.

Lemma timers_held_agree {A} (m : Act A) :
  keeps (agree sched) m → keeps (λ w w', timers_held w → timers_held w') m.
Proof. intros H w Hw. unfold timers_held. by rewrite (H w). Qed.

Lemma setTimeout_reset_timers_held id ms :
  keeps (λ w w', timers_held w → timers_held w') (setTimeout (ResetButton id) ms).
Proof. intros w Hw. by apply held_ok_push_reset. Qed.

Lemma clearTimeout_timers_held h :
  keeps (λ w w', timers_held w → timers_held w') (clearTimeout h).
Proof. intros w Hw. by apply held_ok_filter. Qed.

Local Hint Resolve setTimeout_reset_timers_held clearTimeout_timers_held : frame.
Local Hint Resolve logger_sched ws_send_sched ws_close_sched callback_done_sched : frame.
Local Hint Extern 3 (keeps (λ w w', timers_held w → timers_held w') _) =>
  apply timers_held_agree; solve [auto with frame] : frame.

Lemma onStateChange_timers_held id state :
  keeps (λ w w', timers_held w → timers_held w') (onStateChange id state).
Proof. unfold onStateChange, tpl. keeps_auto. Qed.

Lemma onUnload_timers_held : keeps (λ w w', timers_held w → timers_held w') onUnload.
Proof. unfold onUnload. keeps_auto. Qed.

Lemma step_timers_held w e : timers_held w → timers_held (step w e).
Proof.
  intros Hw. unfold step, timers_held. rewrite spawn_sched. fold (timers_held (handler e w).2).
  destruct e as [|s|s data|s|s m|h|id state| |sf cf]; simpl.
  - unfold timers_held. by rewrite onReady_sched.
  - unfold on_socket, mbind, M_bind, bind, gets; simpl.
    destruct (sockets w !! s); simpl; [|done].
    unfold timers_held. by rewrite ws_on_open_sched.
  - unfold on_socket, mbind, M_bind, bind, gets; simpl.
    destruct (sockets w !! s); simpl; [|done].
    unfold timers_held. by rewrite ws_on_message_sched.
  - unfold on_socket, mbind, M_bind, bind, gets; simpl.
    destruct (sockets w !! s); simpl; [|done].
    unfold timers_held. rewrite ws_on_close_sched.
    by apply (held_ok_reschedule _ _ _ (reconnectTimeout w)).
  - unfold on_socket, mbind, M_bind, bind, gets; simpl.
    by destruct (sockets w !! s).
  - unfold mbind, M_bind, bind, gets, modify; simpl.
    destruct (list_find (λ t, handle t = h) (timers w)) as [[? t]|]; simpl; [|done].
    unfold timers_held. rewrite run_callback_sched. by apply held_ok_filter.
  - by apply onStateChange_timers_held.
  - by apply onUnload_timers_held.
  - done.
Qed.

Lemma run_timers_held w tr : timers_held w → timers_held (run w tr).
Proof.
  revert w. induction tr as [|e tr IH]; intros w Hw; simpl; [done|].
  by apply IH, step_timers_held.
Qed.

Lemma reachable_timers_held w : reachable w → timers_held w.
Proof.
  intros (cfg & tr & ->). apply run_timers_held.
  split_and!; [by intros h [=]|by intros t ?%elem_of_nil|by intros t ?%elem_of_nil].
Qed.

Lemma filter_keeps_resets (ts : list Timer) (r : option nat) :
  (∀ t, t ∈ ts → Some (handle t) = r → is_reconnect t = true) →
  filter (λ t, is_reconnect t = false) (filter (λ t, Some (handle t) ≠ r) ts)
  = filter (λ t, is_reconnect t = false) ts.
Proof.
  induction ts as [|t ts IH]; intros Hheld; [done|].
  assert (∀ t', t' ∈ ts → Some (handle t') = r → is_reconnect t' = true) as Hts
    by (intros t' Ht'; apply Hheld; set_solver).
  specialize (IH Hts).
  destruct (decide (Some (handle t) ≠ r)) as [Hne|Heq].
  - rewrite (filter_cons_True (λ t, Some (handle t) ≠ r) t ts Hne).
    destruct (decide (is_reconnect t = false)) as [Hb|Hb].
    + rewrite !filter_cons_True by done. by rewrite IH.
    + rewrite !filter_cons_False by done. done.
  - rewrite (filter_cons_False (λ t, Some (handle t) ≠ r) t ts Heq).
    apply dec_stable in Heq.
    assert (is_reconnect t = true) as Hb by (apply Hheld; [set_solver|done]).
    rewrite filter_cons_False by (by rewrite Hb). done.
Qed.

(** X8.  In a reachable state where closing does not throw, [onUnload]
    asks the current socket to close once, removes from the pending
    timers exactly the one [reconnectTimeout] holds, and leaves no
    reconnect attempt pending.  Button resets that are pending are not
    cancelled: they stay scheduled after the teardown. *)
Theorem onUnload_cancels_reconnect (w : World) :
  reachable w →
  close_fault w = None →
  let w' := (onUnload w).2 in
  timers w' = filter (λ t, Some (handle t) ≠ reconnectTimeout w) (timers w)
  ∧ pending_reconnects w' = []
  ∧ filter (λ t, is_reconnect t = false) (timers w')
    = filter (λ t, is_reconnect t = false) (timers w)
  ∧ sockets w'
    = match ws w with
      | Some i => alter (λ k, mkSocket (s_url k) (s_token k) (s_headers k) (S (s_closes k))
                                       (outbox k)) i (sockets w)
      | None => sockets w
      end.
Proof.
  intros Hreach Hf w'. subst w'.
  pose proof (reachable_timers_ok w Hreach) as (_ & _ & Hrc).
  pose proof (reachable_timers_held w Hreach) as (_ & _ & Hheld).
  assert (timers (onUnload w).2
          = filter (λ t, Some (handle t) ≠ reconnectTimeout w) (timers w)
          ∧ sockets (onUnload w).2
            = match ws w with
              | Some i => alter (λ k, mkSocket (s_url k) (s_token k) (s_headers k)
                                               (S (s_closes k)) (outbox k)) i (sockets w)
              | None => sockets w
              end) as [Ht Hs].
  { unfold onUnload, ws_close, fault, clearTimeout, callback_done.
    unfold try_catch, mbind, M_bind, mret, M_ret, bind, ret, gets, modify, throw; simpl.
    destruct (ws w); simpl; [|done]. by rewrite Hf. }
  split_and!; [done| | |done].
  - unfold pending_reconnects. rewrite Ht. apply filter_none.
    intros t [Hne Hin]%list_elem_of_filter Hr. by specialize (Hrc t Hin Hr).
  - rewrite Ht. by apply filter_keeps_resets.
Qed.

(** X9.  When closing the socket throws, [onUnload] still calls the
    callback, but the [clearTimeout] after the failed [close] is skipped:
    every pending timer, a reconnect attempt included, stays scheduled. *)
Theorem onUnload_with_failing_close (w : World) (i : nat) (m : string) :
  ws w = Some i →
  close_fault w = Some m →
  (onUnload w).1 = Ok tt
  ∧ timers (onUnload w).2 = timers w
  ∧ reconnectTimeout (onUnload w).2 = reconnectTimeout w
  ∧ unloaded (onUnload w).2 = S (unloaded w).
Proof.
  intros Hws Hf.
  unfold onUnload, ws_close, fault, clearTimeout, callback_done.
  unfold try_catch, mbind, M_bind, mret, M_ret, bind, ret, gets, modify, throw; simpl.
  rewrite Hws. simpl. by rewrite Hf.
Qed.

Lemma find_handle (ts : list Timer) (t : Timer) :
  NoDup (handle <$> ts) → t ∈ ts →
  ∃ i, list_find (λ t', handle t' = handle t) ts = Some (i, t).
Proof.
  intros Hnd Hin.
  destruct (list_find (λ t', handle t' = handle t) ts) as [[i t']|] eqn:Hfind.
  - exists i. apply list_find_Some in Hfind as (Hi & Hh & _).
    apply list_elem_of_lookup in Hin as [j Hj].
    assert (i = j) as ->.
    { eapply NoDup_lookup; [exact Hnd| |].
      - rewrite list_lookup_fmap, Hi. simpl. by rewrite Hh.
      - by rewrite list_lookup_fmap, Hj. }
    congruence.
  - apply list_find_None in Hfind. rewrite Forall_forall in Hfind.
    by specialize (Hfind t Hin).
Qed.

(** X10.  When a pending reconnect timer fires in a reachable state
    (and closing does not throw), it is taken off the pending list, the
    socket [ws] pointed at is asked to close, and one new socket is made
    for the url and token the timer carries, to which [ws] now refers; no
    new timer is set by the attempt itself. *)
Theorem reconnect_timer_dials_again (w : World) (t : Timer) (url token : string) :
  reachable w →
  t ∈ timers w →
  callback t = Reconnect url token →
  close_fault w = None →
  let w' := step w (Fires (handle t)) in
  let headers := if negb (String.eqb token EmptyString) then [("API-KEY", token)] else [] in
  timers w' = filter (λ t', handle t' ≠ handle t) (timers w)
  ∧ (t ∉ timers w')
  ∧ sockets w'
    = (match ws w with
       | Some i => alter (λ k, mkSocket (s_url k) (s_token k) (s_headers k) (S (s_closes k))
                                        (outbox k)) i (sockets w)
       | None => sockets w
       end) ++ [mkSocket url token headers 0 []]
  ∧ ws w' = Some (length (sockets w))
  ∧ uncaught w' = uncaught w.
Proof.
  intros Hreach Hin Hcb Hf w' headers. subst w' headers.
  pose proof (reachable_timers_ok w Hreach) as (_ & Hnd & _).
  destruct (find_handle (timers w) t Hnd Hin) as [i Hfind].
  unfold step, spawn, try_catch, handler, run_callback, connectWebSocket, ws_close, fault,
    new_WebSocket.
  unfold mbind, M_bind, mret, M_ret, bind, ret, gets, modify, throw; simpl.
  rewrite Hfind, Hcb. simpl.
  destruct (ws w) as [j|] eqn:Hws; simpl.
  - rewrite Hf. simpl. split_and!; try done.
    + intros [Hne _]%list_elem_of_filter. done.
    + by rewrite length_alter.
  - split_and!; try done.
    intros [Hne _]%list_elem_of_filter. done.
Qed.

End Teardown.

Lemma onUnload_cancels_reconnect_witness :
  Unfolded.reachable (rt := Node.runtime) Samples.offline
  ∧ Unfolded.close_fault Samples.offline = None
  ∧ Inv.pending_reconnects Samples.offline
    = [Unfolded.mkTimer 0 5000 (Unfolded.Reconnect "ws://192.168.1.50:80/ws" "secret")]
  ∧ Inv.pending_reconnects (Unfolded.onUnload Samples.offline).2 = [].
Proof.
  assert (Unfolded.reachable (rt := Node.runtime) Samples.offline) as Hr.
  { exists Samples.cfg, [Unfolded.Ready; Unfolded.Open 0%nat; Unfolded.Closed 0%nat].
    reflexivity. }
  split; [exact Hr|]. split; [reflexivity|]. split; [reflexivity|].
  destruct (onUnload_cancels_reconnect (rt := Node.runtime) Samples.offline Hr eq_refl)
    as (_ & H & _).
  exact H.
Defined.

Lemma onUnload_with_failing_close_witness :
  let w := Unfolded.run (rt := Node.runtime) Samples.offline
             [Unfolded.Transport None (Some "boom")] in
  Unfolded.ws w = Some 0%nat
  ∧ Unfolded.close_fault w = Some "boom"
  ∧ Unfolded.timers (Unfolded.onUnload w).2 = Unfolded.timers w
  ∧ Unfolded.unloaded (Unfolded.onUnload w).2 = 1%nat.
Proof.
  cbv zeta. split; [reflexivity|]. split; [reflexivity|].
  destruct (onUnload_with_failing_close
              (Unfolded.run (rt := Node.runtime) Samples.offline
                 [Unfolded.Transport None (Some "boom")]) 0 "boom" eq_refl eq_refl)
    as (_ & H1 & _ & H2).
  split; [exact H1|exact H2].
Defined.

Lemma reconnect_timer_dials_again_witness :
  let t := Unfolded.mkTimer 0 5000 (Unfolded.Reconnect "ws://192.168.1.50:80/ws" "secret") in
  let w' := Unfolded.step (rt := Node.runtime) Samples.offline (Unfolded.Fires 0%nat) in
  Unfolded.reachable (rt := Node.runtime) Samples.offline
  ∧ t ∈ Unfolded.timers Samples.offline
  ∧ Unfolded.close_fault Samples.offline = None
  ∧ Unfolded.ws w' = Some 1%nat
  ∧ Unfolded.timers w' = [].
Proof.
  assert (Unfolded.reachable (rt := Node.runtime) Samples.offline) as Hr.
  { exists Samples.cfg, [Unfolded.Ready; Unfolded.Open 0%nat; Unfolded.Closed 0%nat].
    reflexivity. }
  assert (Unfolded.mkTimer 0 5000 (Unfolded.Reconnect "ws://192.168.1.50:80/ws" "secret")
          ∈ Unfolded.timers Samples.offline) as Hin by (vm_compute; apply list_elem_of_here).
  cbv zeta. split; [exact Hr|]. split; [exact Hin|]. split; [reflexivity|].
  destruct (reconnect_timer_dials_again (rt := Node.runtime) Samples.offline _
              "ws://192.168.1.50:80/ws" "secret" Hr Hin eq_refl eq_refl)
    as (H1 & _ & _ & H2 & _).
  split; [refine (eq_trans H2 _); vm_compute; reflexivity|].
  refine (eq_trans H1 _). vm_compute. reflexivity.
Defined.

(** ** Inbound frames *)

Section InboundFrames.
Import Unfolded Shape Inbound.
Context {rt : Runtime}.

Ltac run_h :=
  unfold createOrUpdateActivity, handleMessage, entity_key, get, split_dots, tpl,
    extendObject, setState, subscribeStates, logger;
  unfold mbind, M_bind, mret, M_ret, bind, ret, gets, modify, when, lift, throw.

(** X11.  A frame that is neither a successful [entities] response with
    an array nor an ENTITY change event of an activity is ignored:
    [handleMessage] writes its two trace lines and returns, whatever else
    the frame carries. *)
Theorem handleMessage_ignores_other_frames (w : World) (msg : jsval) (name : string) :
  Js.nullish msg = false →
  Js.toString (Js.prop msg "msg") = Ok name →
  is_snapshot msg = false →
  is_change msg = false →
  handleMessage msg w = (Ok tt, received msg name w).
Proof.
  intros Hm Hname Hsnap Hchg. unfold is_snapshot in Hsnap. unfold is_change in Hchg.
  run_h. rewrite Hm. simpl. rewrite Hname. simpl.
  destruct (Js.truthy msg); simpl; [|done].
  destruct (Js.truthy (Js.prop msg "msg_data")) eqn:Hd; simpl; [|done].
  destruct (Js.is_str (Js.prop msg "kind") "resp") eqn:Hk; simpl in *.
  - assert (Js.is_str (Js.prop msg "kind") "event" = false) as Hev.
    { destruct (Js.prop msg "kind"); try done. simpl in *.
      apply String.eqb_eq in Hk. by subst. }
    rewrite Hev. simpl.
    destruct (Js.is_num (Js.prop msg "code") 200); simpl in *; [|done].
    destruct (Js.is_str (Js.prop msg "msg") "entities"); simpl in *; [|done].
    by rewrite Hsnap.
  - destruct (Js.is_str (Js.prop msg "kind") "event"); simpl in *; [|done].
    destruct (Js.is_str (Js.prop msg "msg") "entity_change"); simpl in *; [|done].
    destruct (Js.is_str (Js.prop msg "cat") "ENTITY"); simpl in *; [|done].
    by rewrite Hchg.
Qed.

(** X12.  The text [null] is valid JSON, so the handler's [catch] does
    not see it: [handleMessage] writes its first trace line and then
    throws on reading [msg.msg].  The message listener returns normally
    and logs no warning; the rejection is left unhandled. *)
Theorem null_frame_is_an_unhandled_rejection (w : World) (data : string) :
  JSON_parse data = Ok JNull →
  ws_on_message data w
  = (Ok tt,
     upd_uncaught
       (λ l, l ++ [TypeError "Cannot read properties of null (reading 'msg')"])
       (upd_log (λ l, l ++ [(Silly, "Empfangene WS-Nachricht: " +:+ JSON_stringify JNull)]) w)).
Proof.
  intros Hp. unfold ws_on_message, spawn, try_catch.
  unfold mbind at 1, M_bind at 1, bind at 1, lift at 1. rewrite Hp.
  by run_h.
Qed.

Lemma for_of_reconciles (es : list Entry) (w : World) :
  Forall well_formed es →
  for_of (e_act <$> es) createOrUpdateActivity w = (Ok tt, foldl reconcile_entry w es).
Proof.
  intros Hes. revert w. induction Hes as [|e es He Hes IH]; intros w; [done|].
  simpl. unfold bind.
  rewrite (createOrUpdateActivity_run w (e_act e) (e_id e) (e_names e) (e_state e) He).
  apply IH.
Qed.

Lemma for_of_stops (es : list Entry) (bad : jsval) (rest : list jsval) (w : World) err w' :
  Forall well_formed es →
  (∀ w0, createOrUpdateActivity bad w0 = (Throw err, w' w0)) →
  for_of ((e_act <$> es) ++ bad :: rest) createOrUpdateActivity w
  = (Throw err, w' (foldl reconcile_entry w es)).
Proof.
  intros Hes Hbad. revert w. induction Hes as [|e es He Hes IH]; intros w.
  - simpl. unfold bind. by rewrite Hbad.
  - simpl. unfold bind.
    rewrite (createOrUpdateActivity_run w (e_act e) (e_id e) (e_names e) (e_state e) He).
    apply IH.
Qed.

Lemma snapshot_dispatch (w : World) (msg : jsval) (l : list jsval) :
  snapshot msg l →
  handleMessage msg w
  = match for_of l createOrUpdateActivity (received msg "entities" w) with
    | (Ok _, w') => (Ok tt, w')
    | (Throw e, w') => (Throw e, w')
    end.
Proof.
  intros (Hkind & Hcode & Hmsg & Hent).
  assert (Js.nullish msg = false) as Hm by (apply (prop_defined _ "kind"); by rewrite Hkind).
  assert (Js.truthy msg = true) as Hmt by (by destruct msg).
  assert (Js.truthy (Js.prop msg "msg_data") = true) as Hd.
  { destruct (Js.prop msg "msg_data"); try done. }
  unfold handleMessage, get, tpl, logger.
  unfold mbind, M_bind, mret, M_ret, bind, ret, gets, modify, when, lift, throw.
  rewrite Hm, Hmsg. simpl. rewrite Hmt, Hd, Hkind, Hcode, Hent. simpl.
  unfold received.
  destruct (for_of l createOrUpdateActivity _) as [[[]|e] w']; done.
Qed.

(** X13.  A successful [entities] response whose records are all
    well-formed entities is reconciled record by record, in the order of
    the array: the result is the store after the two trace lines with
    each record's three objects, state and subscription laid over it in
    turn.  An empty array changes nothing but the log. *)
Theorem snapshot_reconciles_in_order (w : World) (msg : jsval) (es : list Entry) :
  snapshot msg (e_act <$> es) →
  Forall well_formed es →
  handleMessage msg w = (Ok tt, foldl reconcile_entry (received msg "entities" w) es).
Proof.
  intros Hs Hes. rewrite (snapshot_dispatch w msg _ Hs).
  by rewrite (for_of_reconciles es _ Hes).
Qed.

(** X14.  A record without a name mapping in the middle of a snapshot
    makes [handleMessage] throw a [TypeError] there: the records before
    it have been reconciled, the bad record and every record after it
    leave no trace. *)
Theorem snapshot_stops_at_nameless_record (w : World) (msg : jsval) (es : list Entry)
    (bad : jsval) (eid : string) (rest : list jsval) :
  snapshot msg ((e_act <$> es) ++ bad :: rest) →
  Forall well_formed es →
  Js.prop bad "entity_id" = JStr eid →
  Js.nullish (Js.prop bad "name") = true →
  ∃ err,
    err_name err = "TypeError"
    ∧ handleMessage msg w
      = (Throw err, foldl reconcile_entry (received msg "entities" w) es).
Proof.
  intros Hs Hes Hid Hname.
  assert (Js.nullish bad = false) as Hb by (apply (prop_defined _ "entity_id"); by rewrite Hid).
  eexists. split; [|rewrite (snapshot_dispatch w msg _ Hs)].
  2: { erewrite (for_of_stops es bad rest _ _ (λ w0, w0) Hes); [reflexivity|].
       intros w0. run_h. rewrite Hb, Hid. simpl. by rewrite Hname. }
  done.
Qed.

(** X15.  A record with an id and a name mapping but no attributes is
    reconciled by half: [createOrUpdateActivity] has created or extended
    the channel and the [is_active] object when reading the state
    attribute throws, so no state value is written, nothing is subscribed
    and the [start] object is not made. *)
Theorem reconcile_without_attributes (w : World) (act : jsval) (eid : string) (names : jsval) :
  Js.prop act "entity_id" = JStr eid →
  Js.prop act "name" = names →
  Js.nullish names = false →
  Js.nullish (Js.prop act "attributes") = true →
  let p := "activities." +:+ key_text eid in
  let name := display_name names (Js.index (Js.split "." eid) 2) in
  ∃ err,
    err_name err = "TypeError"
    ∧ createOrUpdateActivity act w
      = (Throw err,
         upd_objects
           (λ m, <[p +:+ ".is_active" := extend (m !! (p +:+ ".is_active")) is_active_node]> m)
           (upd_objects (λ m, <[p := extend (m !! p) (channel_node name)]> m) w)).
Proof.
  intros Hid Hname Hnames Hattrs p name. subst p name.
  assert (Js.nullish act = false) as Hact by (apply (prop_defined _ "entity_id"); by rewrite Hid).
  eexists. split; [|run_h; rewrite Hact, Hid, Hname, Hnames; simpl].
  2: { rewrite toString_index. fold (key_text eid). unfold display_name.
       destruct (Js.truthy (Js.prop names "de_DE")); simpl; rewrite Hattrs; reflexivity. }
  done.
Qed.

(** X16.  An [entity_id] with fewer than three segments has no index 2:
    the key prints as [undefined], so every such entity is reconciled
    onto the same nodes under [activities.undefined], and a change event
    for it writes [activities.undefined.is_active]. *)
Theorem short_ids_share_one_node (w : World) (eid : string) :
  (length (Js.split "." eid) < 3)%nat →
  key_text eid = "undefined"
  ∧ (∀ act names st, entity act eid names st →
       createOrUpdateActivity act w
       = (Ok tt, reconciled "undefined" (display_name names JUndefined)
                   (negb (Js.is_str st "OFF")) w))
  ∧ (∀ msg, entity_change msg eid (JStr "ON") →
       states (handleMessage msg w).2
       = <["activities.undefined.is_active" := mkState (JBool true) true]> (states w)).
Proof.
  intros Hlen.
  assert (Js.split "." eid !! 2%nat = None) as Hnone by (apply lookup_ge_None; lia).
  assert (key_text eid = "undefined") as Hk by (unfold key_text; by rewrite Hnone).
  assert (Js.index (Js.split "." eid) 2 = JUndefined) as Hi.
  { unfold Js.index. change (2 <? 0)%Z with false. change (Z.to_nat 2) with 2%nat.
    by rewrite Hnone. }
  split_and!; [done|..].
  - intros act names st He.
    rewrite (createOrUpdateActivity_run w act eid names st He). by rewrite Hk, Hi.
  - intros msg H. rewrite (handleMessage_entity_change w msg eid _ H). simpl.
    by rewrite Hk.
Qed.

(** X17.  Applying the same change event twice is the same as applying
    it once as far as states, objects and subscriptions go: the second
    application only adds its trace lines to the log. *)
Theorem change_event_is_idempotent (w : World) (msg : jsval) (eid : string) (nstate : jsval) :
  entity_change msg eid nstate →
  let w1 := (handleMessage msg w).2 in
  let w2 := (handleMessage msg w1).2 in
  states w2 = states w1
  ∧ objects w2 = objects w1
  ∧ subscriptions w2 = subscriptions w1
  ∧ timers w2 = timers w1
  ∧ sockets w2 = sockets w1
  ∧ uncaught w2 = uncaught w1.
Proof.
  intros H. cbv zeta.
  rewrite (handleMessage_entity_change (handleMessage msg w).2 msg eid nstate H).
  rewrite (handleMessage_entity_change w msg eid nstate H). cbv zeta.
  destruct (Js.is_str nstate "ON" || Js.is_str nstate "OFF"); simpl; [|done].
  split_and!; try done. by rewrite insert_insert_eq.
Qed.

End InboundFrames.

Lemma handleMessage_ignores_other_frames_witness :
  Js.nullish Samples2.greeting = false
  ∧ Js.toString (rt := Node.runtime) (Js.prop Samples2.greeting "msg") = Ok "authentication"
  ∧ Inbound.is_snapshot Samples2.greeting = false
  ∧ Inbound.is_change Samples2.greeting = false
  ∧ Unfolded.handleMessage (rt := Node.runtime) Samples2.greeting Samples.online
    = (Ok tt, Inbound.received (rt := Node.runtime) Samples2.greeting "authentication"
                Samples.online).
Proof.
  do 4 (split; [reflexivity|]).
  apply (handleMessage_ignores_other_frames (rt := Node.runtime)); reflexivity.
Defined.

Lemma null_frame_is_an_unhandled_rejection_witness :
  JSON_parse (Runtime := Node.runtime) "null" = Ok JNull
  ∧ Unfolded.uncaught
      (Unfolded.ws_on_message (rt := Node.runtime) "null" Samples.online).2
    = [TypeError "Cannot read properties of null (reading 'msg')"].
Proof.
  split; [reflexivity|].
  rewrite (null_frame_is_an_unhandled_rejection (rt := Node.runtime) Samples.online "null"
             eq_refl).
  reflexivity.
Defined.

Lemma snapshot_reconciles_in_order_witness :
  let es := [Samples2.kitchen_entry; Samples2.office_entry] in
  let msg := Samples2.entities (Inbound.e_act <$> es) in
  Inbound.snapshot msg (Inbound.e_act <$> es)
  ∧ Forall Inbound.well_formed es
  ∧ Unfolded.handleMessage (rt := Node.runtime) msg Samples.online
    = (Ok tt, foldl Inbound.reconcile_entry
                (Inbound.received (rt := Node.runtime) msg "entities" Samples.online) es).
Proof.
  cbv zeta.
  assert (Forall Inbound.well_formed [Samples2.kitchen_entry; Samples2.office_entry]) as Hes.
  { repeat constructor. }
  assert (Inbound.snapshot
            (Samples2.entities
               (Inbound.e_act <$> [Samples2.kitchen_entry; Samples2.office_entry]))
            (Inbound.e_act <$> [Samples2.kitchen_entry; Samples2.office_entry])) as Hs.
  { repeat split. }
  split; [exact Hs|]. split; [exact Hes|].
  exact (snapshot_reconciles_in_order (rt := Node.runtime) Samples.online _ _ Hs Hes).
Defined.

Lemma snapshot_stops_at_nameless_record_witness :
  let msg := Samples2.entities [Samples.kitchen; Samples2.nameless; Samples2.office] in
  let w' := (Unfolded.handleMessage (rt := Node.runtime) msg Samples.online).2 in
  Inbound.snapshot msg ((Inbound.e_act <$> [Samples2.kitchen_entry])
                        ++ Samples2.nameless :: [Samples2.office])
  ∧ Forall Inbound.well_formed [Samples2.kitchen_entry]
  ∧ Js.prop Samples2.nameless "entity_id" = JStr "uc.main.tv"
  ∧ Js.nullish (Js.prop Samples2.nameless "name") = true
  ∧ w' = foldl Inbound.reconcile_entry
           (Inbound.received (rt := Node.runtime) msg "entities" Samples.online)
           [Samples2.kitchen_entry].
Proof.
  cbv zeta.
  assert (Forall Inbound.well_formed [Samples2.kitchen_entry]) as Hes by (repeat constructor).
  assert (Inbound.snapshot
            (Samples2.entities [Samples.kitchen; Samples2.nameless; Samples2.office])
            ((Inbound.e_act <$> [Samples2.kitchen_entry])
             ++ Samples2.nameless :: [Samples2.office])) as Hs by (repeat split).
  split; [exact Hs|]. split; [exact Hes|]. do 2 (split; [reflexivity|]).
  destruct (snapshot_stops_at_nameless_record (rt := Node.runtime) Samples.online _ _ _
              "uc.main.tv" _ Hs Hes eq_refl eq_refl) as (err & _ & H).
  exact (f_equal snd H).
Defined.

Lemma reconcile_without_attributes_witness :
  let r := Unfolded.createOrUpdateActivity (rt := Node.runtime) Samples2.bare Samples.online in
  Js.prop Samples2.bare "entity_id" = JStr "uc.main.tv"
  ∧ Js.nullish (Js.prop Samples2.bare "name") = false
  ∧ Js.nullish (Js.prop Samples2.bare "attributes") = true
  ∧ Unfolded.states r.2 = Unfolded.states Samples.online
  ∧ Unfolded.subscriptions r.2 = Unfolded.subscriptions Samples.online.
Proof.
  cbv zeta. do 3 (split; [reflexivity|]).
  destruct (reconcile_without_attributes (rt := Node.runtime) Samples.online Samples2.bare
              "uc.main.tv" _ eq_refl eq_refl eq_refl eq_refl) as (err & _ & H).
  split.
  - exact (f_equal (λ r, Unfolded.states r.2) H).
  - exact (f_equal (λ r, Unfolded.subscriptions r.2) H).
Defined.

Lemma short_ids_share_one_node_witness :
  (length (Js.split "." "tv") < 3)%nat
  ∧ Shape.entity Samples2.short "tv" (JObj [("en_US", JStr "TV")]) (JStr "ON")
  ∧ Unfolded.createOrUpdateActivity (rt := Node.runtime) Samples2.short Samples.online
    = (Ok tt, Shape.reconciled "undefined" (JStr "TV") true Samples.online).
Proof.
  assert (length (Js.split "." "tv") < 3)%nat as Hlen by (vm_compute; lia).
  assert (Shape.entity Samples2.short "tv" (JObj [("en_US", JStr "TV")]) (JStr "ON")) as He
    by (repeat split).
  split; [exact Hlen|]. split; [exact He|].
  destruct (short_ids_share_one_node (rt := Node.runtime) Samples.online "tv" Hlen)
    as (_ & H & _).
  exact (H _ _ _ He).
Defined.

Lemma change_event_is_idempotent_witness :
  let w1 := (Unfolded.handleMessage (rt := Node.runtime) Samples.kitchen_on Samples.online).2 in
  let w2 := (Unfolded.handleMessage (rt := Node.runtime) Samples.kitchen_on w1).2 in
  Shape.entity_change Samples.kitchen_on "uc.main.kitchen" (JStr "ON")
  ∧ Unfolded.states w2 = Unfolded.states w1.
Proof.
  assert (Shape.entity_change Samples.kitchen_on "uc.main.kitchen" (JStr "ON")) as H
    by (repeat split).
  cbv zeta. split; [exact H|].
  exact (proj1 (change_event_is_idempotent (rt := Node.runtime) Samples.online
                  Samples.kitchen_on "uc.main.kitchen" (JStr "ON") H)).
Defined.

(** ** The connection indicator *)

Section Indicator.
Import Unfolded Inv Inv3.
Context {rt : Runtime}.

Lemma activities_not_indicator (x : string) : "activities." +:+ x ≠ "info.connection".
Proof. discriminate. Qed.

Lemma setState_activities_indicator x v a :
  keeps (agree indicator) (setState ("activities." +:+ x) v a).
Proof.
  intros w. unfold agree, indicator. simpl.
  by rewrite lookup_insert_ne by apply activities_not_indicator.
Qed.

Lemma logger_indicator l m : keeps (agree indicator) (logger l m).
Proof. by intros w. Qed.
Lemma extendObject_indicator id o : keeps (agree indicator) (extendObject id o).
Proof. by intros w. Qed.
Lemma subscribeStates_indicator p : keeps (agree indicator) (subscribeStates p).
Proof. by intros w. Qed.
Lemma ws_send_indicator d : keeps (agree indicator) (ws_send d).
Proof. apply ws_send_agree; by intros. Qed.
Lemma ws_close_indicator i : keeps (agree indicator) (ws_close i).
Proof. apply ws_close_agree; by intros. Qed.
Lemma setTimeout_indicator cb ms : keeps (agree indicator) (setTimeout cb ms).
Proof. by intros w. Qed.
Lemma clearTimeout_indicator h : keeps (agree indicator) (clearTimeout h).
Proof. by intros w. Qed.
Lemma new_WebSocket_indicator u t h : keeps (agree indicator) (new_WebSocket u t h).
Proof. by intros w. Qed.
Lemma callback_done_indicator : keeps (agree indicator) callback_done.
Proof. by intros w. Qed.

Local Hint Resolve setState_activities_indicator logger_indicator extendObject_indicator
  subscribeStates_indicator ws_send_indicator ws_close_indicator setTimeout_indicator
  clearTimeout_indicator new_WebSocket_indicator callback_done_indicator : frame.

Lemma entity_key_indicator v : keeps (agree indicator) (entity_key v).
Proof. unfold entity_key, get, split_dots. keeps_auto. Qed.
Local Hint Resolve entity_key_indicator : frame.

Lemma createOrUpdateActivity_indicator v : keeps (agree indicator) (createOrUpdateActivity v).
Proof. unfold createOrUpdateActivity, get, tpl. keeps_auto. Qed.
Local Hint Resolve createOrUpdateActivity_indicator : frame.

Lemma handleMessage_indicator v : keeps (agree indicator) (handleMessage v).
Proof. unfold handleMessage, get, tpl. keeps_auto. Qed.
Local Hint Resolve handleMessage_indicator : frame.

Lemma ws_on_message_indicator d : keeps (agree indicator) (ws_on_message d).
Proof. unfold ws_on_message, spawn. keeps_auto. Qed.

Lemma connectWebSocket_indicator u t : keeps (agree indicator) (connectWebSocket u t).
Proof. unfold connectWebSocket. keeps_auto. Qed.
Local Hint Resolve connectWebSocket_indicator : frame.

Lemma onReady_indicator : keeps (agree indicator) onReady.
Proof. unfold onReady. keeps_auto. Qed.

Lemma onStateChange_indicator id state : keeps (agree indicator) (onStateChange id state).
Proof. unfold onStateChange, tpl. keeps_auto. Qed.

Lemma onUnload_indicator : keeps (agree indicator) onUnload.
Proof. unfold onUnload. keeps_auto. Qed.

Lemma subscribeActivities_indicator : keeps (agree indicator) subscribeActivities.
Proof. unfold subscribeActivities. keeps_auto. Qed.

Lemma requestAllActivities_indicator : keeps (agree indicator) requestAllActivities.
Proof. unfold requestAllActivities. keeps_auto. Qed.

Local Hint Resolve subscribeActivities_indicator requestAllActivities_indicator : frame.

Lemma ws_on_open_indicator w :
  indicator (ws_on_open w).2 = (Some (mkState (JBool true) true), true).
Proof.
  unfold ws_on_open.
  change ((modify (upd_connected (λ _, true)) ≫= ?k) w)
    with (k tt (upd_connected (λ _, true) w)).
  cbv beta.
  change ((setState "info.connection" (JBool true) true ≫= ?k) ?w0)
    with (k tt (upd_states (λ m, <["info.connection" := mkState (JBool true) true]> m) w0)).
  cbv beta.
  match goal with |- indicator (?m _).2 = _ => assert (keeps (agree indicator) m) as H by keeps_auto end.
  rewrite H. unfold indicator. simpl. by rewrite lookup_insert_eq.
Qed.

Lemma ws_on_close_indicator url token w :
  indicator (ws_on_close url token w).2 = (Some (mkState (JBool false) true), false).
Proof.
  unfold ws_on_close, mbind, M_bind, bind, gets, modify, setState, logger, setTimeout; simpl.
  destruct (reconnectTimeout w); simpl; unfold indicator; simpl; by rewrite lookup_insert_eq.
Qed.

Lemma spawn_indicator m w : indicator (spawn m w).2 = indicator (m w).2.
Proof. unfold spawn, try_catch. by destruct (m w) as [[?|?] ?]. Qed.

Lemma indicator_ok_agree w w' : indicator w' = indicator w → indicator_ok w → indicator_ok w'.
Proof. unfold indicator, indicator_ok. intros [= -> ->]. done. Qed.

(** The last segment of [info.connection] is not [start]. *)
Lemma start_id_not_indicator (id : string) :
  last (Js.split "." id) = Some "start" → id ≠ "info.connection".
Proof. intros H ->. vm_compute in H. discriminate. Qed.

Lemma onStateChange_resets_ok id state w :
  resets_ok w → resets_ok (onStateChange id state w).2.
Proof.
  intros Hw.
  destruct (decide (last (Js.split "." id) = Some "start")) as [Hs|Hs].
  - assert (keeps (λ w w', resets_ok w → resets_ok w') (onStateChange id state)) as Hk.
    { assert (keeps (λ w w', resets_ok w → resets_ok w') (setTimeout (ResetButton id) 500))
        as Hset.
      { intros w0 H0 t id' [Ht|Ht%list_elem_of_singleton]%elem_of_app Hcb.
        - by eapply H0.
        - subst t. simpl in Hcb. injection Hcb as <-. by apply start_id_not_indicator. }
      assert (∀ A (m : Act A), keeps (agree sched) m
                → keeps (λ w w', resets_ok w → resets_ok w') m) as Hblind.
      { intros A m Hm w0 H0. specialize (Hm w0). unfold agree, sched in Hm.
        injection Hm as Ht _ _. unfold resets_ok. by rewrite Ht. }
      unfold onStateChange, tpl.
      repeat first
        [ exact Hset
        | apply Hblind; solve [auto using logger_sched, ws_send_sched with frame]
        | keeps_step ]. }
    by apply Hk.
  - by rewrite (onStateChange_not_start w id state Hs).
Qed.

Lemma resets_ok_sched w w' : sched w' = sched w → resets_ok w → resets_ok w'.
Proof. unfold sched, resets_ok. intros [= -> _ _]. done. Qed.

Lemma resets_ok_filter (P : Timer → Prop) `{!∀ t, Decision (P t)} w :
  resets_ok w → resets_ok (upd_timers (filter P) w).
Proof. intros Hw t id [_ Ht]%list_elem_of_filter. by apply Hw. Qed.

Lemma step_indicator_ok w e :
  indicator_ok w ∧ resets_ok w → indicator_ok (step w e) ∧ resets_ok (step w e).
Proof.
  intros [Hi Hr]. unfold step.
  assert (∀ m : Act unit, resets_ok (m w).2 → resets_ok (spawn m w).2) as Hsp.
  { intros m. unfold spawn, try_catch. by destruct (m w) as [[?|?] ?]. }
  assert (∀ m : Act unit, indicator_ok (m w).2 → indicator_ok (spawn m w).2) as Hsi.
  { intros m. apply indicator_ok_agree, spawn_indicator. }
  split; [apply Hsi|apply Hsp];
    destruct e as [|s|s data|s|s m|h|id state| |sf cf]; simpl.
  - by apply (indicator_ok_agree w), Hi; [apply onReady_indicator].
  - unfold on_socket, mbind, M_bind, bind, gets; simpl.
    destruct (sockets w !! s); simpl; [|done].
    pose proof (ws_on_open_indicator w) as H. unfold indicator in H. injection H as H1 H2.
    unfold indicator_ok. by rewrite H1, H2.
  - unfold on_socket, mbind, M_bind, bind, gets; simpl.
    destruct (sockets w !! s); simpl; [|done].
    by apply (indicator_ok_agree w), Hi; [apply ws_on_message_indicator].
  - unfold on_socket, mbind, M_bind, bind, gets; simpl.
    destruct (sockets w !! s) as [k|]; simpl; [|done].
    pose proof (ws_on_close_indicator (s_url k) (s_token k) w) as H.
    unfold indicator in H. injection H as H1 H2.
    unfold indicator_ok. by rewrite H1, H2.
  - unfold on_socket, mbind, M_bind, bind, gets; simpl.
    by destruct (sockets w !! s).
  - unfold mbind, M_bind, bind, gets, modify; simpl.
    destruct (list_find (λ t, handle t = h) (timers w)) as [[i t]|] eqn:Hfind; simpl; [|done].
    apply list_find_Some in Hfind as (Hfi & _ & _).
    destruct (callback t) as [u tk|id] eqn:Hcb; simpl.
    + by apply (indicator_ok_agree (upd_timers (filter (λ t, handle t ≠ h)) w));
        [apply connectWebSocket_indicator|].
    + assert (id ≠ "info.connection") as Hne.
      { eapply Hr; [|exact Hcb]. by eapply list_elem_of_lookup_2. }
      unfold indicator_ok. simpl. by rewrite lookup_insert_ne.
  - by apply (indicator_ok_agree w), Hi; [apply onStateChange_indicator].
  - by apply (indicator_ok_agree w), Hi; [apply onUnload_indicator].
  - done.
  - by apply (resets_ok_sched w), Hr; [apply onReady_sched].
  - unfold on_socket, mbind, M_bind, bind, gets; simpl.
    destruct (sockets w !! s); simpl; [|done].
    by apply (resets_ok_sched w), Hr; [apply ws_on_open_sched].
  - unfold on_socket, mbind, M_bind, bind, gets; simpl.
    destruct (sockets w !! s); simpl; [|done].
    by apply (resets_ok_sched w), Hr; [apply ws_on_message_sched].
  - unfold on_socket, mbind, M_bind, bind, gets; simpl.
    destruct (sockets w !! s) as [k|]; simpl; [|done].
    pose proof (ws_on_close_sched (s_url k) (s_token k) w) as H.
    unfold sched in H. injection H as H1 _ _.
    intros t id. rewrite H1.
    intros [[_ Ht]%list_elem_of_filter|Ht%list_elem_of_singleton]%elem_of_app Hcb.
    + by eapply Hr.
    + by subst t.
  - unfold on_socket, mbind, M_bind, bind, gets; simpl.
    by destruct (sockets w !! s).
  - unfold mbind, M_bind, bind, gets, modify; simpl.
    destruct (list_find (λ t, handle t = h) (timers w)) as [[i t]|]; simpl; [|done].
    apply (resets_ok_sched (upd_timers (filter (λ t, handle t ≠ h)) w));
      [apply run_callback_sched|by apply resets_ok_filter].
  - by apply onStateChange_resets_ok.
  - assert (keeps (λ w w', resets_ok w → resets_ok w') onUnload) as Hk; [|by apply Hk].
    assert (∀ A (m : Act A), keeps (agree sched) m
              → keeps (λ w w', resets_ok w → resets_ok w') m) as Hblind.
    { intros A m Hm w0 H0. specialize (Hm w0). by apply (resets_ok_sched w0). }
    assert (∀ h, keeps (λ w w', resets_ok w → resets_ok w') (clearTimeout h)) as Hclear.
    { intros h w0 H0. by apply resets_ok_filter. }
    unfold onUnload.
    repeat first
      [ apply Hclear
      | apply Hblind; solve [auto using ws_close_sched, callback_done_sched with frame]
      | keeps_step ].
  - done.
Qed.

(** X18.  In every state the event loop can reach, the state
    [info.connection], once it has been written, holds exactly the value
    of [connected], acknowledged; as long as it has not been written,
    [connected] is false.  No snapshot, event or button reset ever
    overwrites it. *)
Theorem connection_indicator_is_truthful (w : World) :
  reachable w →
  match states w !! "info.connection" with
  | Some s => s = mkState (JBool (connected w)) true
  | None => connected w = false
  end.
Proof.
  intros (cfg & tr & ->).
  assert (indicator_ok (init cfg) ∧ resets_ok (init cfg)) as H0.
  { split; [done|]. by intros t id ?%elem_of_nil. }
  revert H0. generalize (init cfg). induction tr as [|e tr IH]; intros w [Hi Hr]; [done|].
  simpl. apply IH. by apply step_indicator_ok.
Qed.

End Indicator.

Lemma connection_indicator_is_truthful_witness :
  Unfolded.reachable (rt := Node.runtime) Samples.offline
  ∧ Unfolded.connected Samples.offline = false
  ∧ Unfolded.states Samples.offline !! "info.connection"
    = Some (Unfolded.mkState (JBool false) true).
Proof.
  assert (Unfolded.reachable (rt := Node.runtime) Samples.offline) as Hr.
  { exists Samples.cfg, [Unfolded.Ready; Unfolded.Open 0%nat; Unfolded.Closed 0%nat].
    reflexivity. }
  split; [exact Hr|]. split; [reflexivity|].
  pose proof (connection_indicator_is_truthful (rt := Node.runtime) Samples.offline Hr) as H.
  destruct (Unfolded.states Samples.offline !! "info.connection") as [s|] eqn:E.
  - rewrite H. reflexivity.
  - vm_compute in E. discriminate E.
Defined.

(** ** Where the adapter connects to *)

Section Dials.
Import Unfolded Inv Inv4.
Context {rt : Runtime} (c : Config).

Local Abbreviation R := (λ w w' : World, dials_ok c w → dials_ok c w').

Lemma dials_ok_agree {A} (m : Act A) : keeps (agree dials) m → keeps R m.
Proof.
  intros H w (Hc & Hs & Ht). specialize (H w). unfold agree, dials in H.
  injection H as H1 H2 H3. unfold dials_ok. by rewrite H1, H2, H3.
Qed.

Lemma alter_aims_at (f : Socket → Socket) i (l : list Socket) :
  (∀ k, s_url (f k) = s_url k ∧ s_token (f k) = s_token k ∧ s_headers (f k) = s_headers k) →
  Forall (socket_aims_at c) l → Forall (socket_aims_at c) (alter f i l).
Proof.
  intros Hf Hl. apply Forall_alter; [done|]. intros k _ [Ha Hh].
  destruct (Hf k) as (H1 & H2 & H3). unfold socket_aims_at. by rewrite H1, H2, H3.
Qed.

Lemma ws_send_dials d : keeps R (ws_send d).
Proof.
  intros w (Hc & Hs & Ht). unfold ws_send, fault.
  unfold mbind, M_bind, mret, M_ret, bind, ret, gets, modify, throw; simpl.
  destruct (ws w); simpl; [|done].
  assert (dials_ok c (upd_sockets (alter (λ k, mkSocket (s_url k) (s_token k) (s_headers k)
                        (s_closes k) (outbox k ++ [d])) n) w)) as H.
  { split; [done|]. split; [|done]. by apply alter_aims_at. }
  by destruct (send_fault w).
Qed.

Lemma ws_close_dials i : keeps R (ws_close i).
Proof.
  intros w (Hc & Hs & Ht). unfold ws_close, fault.
  unfold mbind, M_bind, mret, M_ret, bind, ret, gets, modify, throw; simpl.
  assert (dials_ok c (upd_sockets (alter (λ k, mkSocket (s_url k) (s_token k) (s_headers k)
                        (S (s_closes k)) (outbox k)) i) w)) as H.
  { split; [done|]. split; [|done]. by apply alter_aims_at. }
  by destruct (close_fault w).
Qed.

Lemma setTimeout_dials cb ms :
  match cb with Reconnect u tk => aims_at c u tk | ResetButton _ => True end →
  keeps R (setTimeout cb ms).
Proof.
  intros Hcb w (Hc & Hs & Ht). split; [done|]. split; [done|]. simpl.
  apply Forall_app. split; [done|]. by apply Forall_singleton.
Qed.

Lemma setTimeout_reset_dials id ms : keeps R (setTimeout (ResetButton id) ms).
Proof. by apply setTimeout_dials. Qed.

Lemma filter_dials (P : Timer → Prop) `{!∀ t, Decision (P t)} w :
  dials_ok c w → dials_ok c (upd_timers (filter P) w).
Proof.
  intros (Hc & Hs & Ht). split; [done|]. split; [done|]. simpl.
  apply Forall_forall. intros t [_ Hin]%list_elem_of_filter.
  by eapply Forall_forall in Ht.
Qed.

Lemma clearTimeout_dials h : keeps R (clearTimeout h).
Proof. intros w. apply filter_dials. Qed.

Lemma new_WebSocket_dials u tk :
  aims_at c u tk → keeps R (new_WebSocket u tk [("API-KEY", tk)]).
Proof.
  intros Ha w (Hc & Hs & Ht). split; [done|]. split; [|done]. simpl.
  apply Forall_app. split; [done|]. by apply Forall_singleton.
Qed.

Lemma logger_dials l m : keeps R (logger l m).
Proof. by apply dials_ok_agree. Qed.
Lemma setState_dials id v a : keeps R (setState id v a).
Proof. by apply dials_ok_agree. Qed.
Lemma callback_done_dials : keeps R callback_done.
Proof. by apply dials_ok_agree. Qed.
Lemma ws_on_message_dials d : keeps R (ws_on_message d).
Proof. apply dials_ok_agree, ws_on_message_agree; by intros. Qed.
Lemma ws_on_error_dials m : keeps R (ws_on_error m).
Proof. apply dials_ok_agree, ws_on_error_agree; by intros. Qed.

Local Hint Resolve ws_send_dials ws_close_dials setTimeout_reset_dials clearTimeout_dials
  logger_dials setState_dials callback_done_dials : frame.

Lemma connectWebSocket_dials u tk : aims_at c u tk → keeps R (connectWebSocket u tk).
Proof.
  intros Ha. unfold connectWebSocket.
  destruct Ha as (Hu & Htk & Hne).
  destruct (String.eqb_spec tk EmptyString) as [?|_]; [done|]. simpl.
  assert (keeps R (new_WebSocket u tk [("API-KEY", tk)])) by by apply new_WebSocket_dials.
  keeps_auto.
Qed.

Lemma ws_on_open_dials : keeps R ws_on_open.
Proof. unfold ws_on_open, subscribeActivities, requestAllActivities. keeps_auto. Qed.

Lemma ws_on_close_dials u tk : aims_at c u tk → keeps R (ws_on_close u tk).
Proof.
  intros Ha. unfold ws_on_close.
  assert (keeps R (setTimeout (Reconnect u tk) 5000)) by by apply setTimeout_dials.
  keeps_auto.
Qed.

Lemma onStateChange_dials id state : keeps R (onStateChange id state).
Proof. unfold onStateChange, tpl. keeps_auto. Qed.

Lemma onUnload_dials : keeps R onUnload.
Proof. unfold onUnload. keeps_auto. Qed.

Lemma onReady_dials w : dials_ok c w → dials_ok c (onReady w).2.
Proof.
  intros Hw. pose proof Hw as (Hc & _).
  unfold onReady. unfold mbind at 1. unfold M_bind, bind, gets. simpl.
  destruct (String.eqb (host (config w)) EmptyString
            || String.eqb (String_trim (host (config w))) EmptyString);
    [by apply logger_dials|].
  destruct (String.eqb_spec (apikey (config w)) EmptyString) as [?|Hne]; simpl;
    [by apply logger_dials|].
  destruct (String.eqb (String_trim (apikey (config w))) EmptyString);
    [by apply logger_dials|].
  match goal with |- dials_ok c (?m w).2 => assert (keeps R m) as Hk end; [|by apply Hk].
  apply keeps_bind; [apply _|apply logger_dials|].
  intros _. apply connectWebSocket_dials. by rewrite Hc in *.
Qed.

Lemma spawn_dials m w : dials_ok c (m w).2 → dials_ok c (spawn m w).2.
Proof. unfold spawn, try_catch. by destruct (m w) as [[?|?] ?]. Qed.

Lemma step_dials w e : dials_ok c w → dials_ok c (step w e).
Proof.
  intros Hw. unfold step. apply spawn_dials.
  destruct e as [|s|s data|s|s m|h|id state| |sf cf]; simpl.
  - by apply onReady_dials.
  - unfold on_socket, mbind, M_bind, bind, gets; simpl.
    destruct (sockets w !! s); simpl; [|done]. by apply ws_on_open_dials.
  - unfold on_socket, mbind, M_bind, bind, gets; simpl.
    destruct (sockets w !! s); simpl; [|done]. by apply ws_on_message_dials.
  - unfold on_socket, mbind, M_bind, bind, gets; simpl.
    destruct (sockets w !! s) as [k|] eqn:Hk; simpl; [|done].
    apply ws_on_close_dials; [|done].
    destruct Hw as (_ & Hs & _).
    eapply Forall_forall in Hs; [|by eapply list_elem_of_lookup_2]. apply Hs.
  - unfold on_socket, mbind, M_bind, bind, gets; simpl.
    destruct (sockets w !! s); simpl; [|done]. by apply ws_on_error_dials.
  - unfold mbind, M_bind, bind, gets, modify; simpl.
    destruct (list_find (λ t, handle t = h) (timers w)) as [[i t]|] eqn:Hfind; simpl; [|done].
    apply list_find_Some in Hfind as (Hfi & _ & _).
    assert (dials_ok c (upd_timers (filter (λ t, handle t ≠ h)) w)) as Hw'.
    { by apply filter_dials. }
    destruct Hw as (_ & _ & Ht).
    eapply Forall_forall in Ht; [|by eapply list_elem_of_lookup_2].
    unfold timer_aims_at in Ht.
    destruct (callback t) as [u tk|id]; simpl.
    + by apply connectWebSocket_dials.
    + by apply setState_dials.
  - by apply onStateChange_dials.
  - by apply onUnload_dials.
  - done.
Qed.

Lemma run_dials w tr : dials_ok c w → dials_ok c (run w tr).
Proof.
  revert w. induction tr as [|e tr IH]; intros w Hw; [done|].
  simpl. by apply IH, step_dials.
Qed.

End Dials.

Section DialsTheorem.
Import Unfolded Inv Inv4.
Context {rt : Runtime}.

(** X19.  Whatever events arrive, every socket the adapter ever makes,
    at start-up or from a reconnect timer, is for the address
    [ws://<host>:<port>/ws] built from the configuration (port 80 for an
    unset port) and carries the configured key in its [API-KEY] header. *)
Theorem every_socket_targets_the_configured_hub (cfg : Config) (tr : list Event) (k : Socket) :
  k ∈ sockets (run (init cfg) tr) →
  s_url k = "ws://" +:+ host cfg +:+ ":"
            +:+ Number_toString (if (port cfg =? 0)%Z then 80%Z else port cfg) +:+ "/ws"
  ∧ s_headers k = [("API-KEY", apikey cfg)].
Proof.
  intros Hk.
  assert (dials_ok cfg (init cfg)) as H0.
  { split; [done|]. split; apply Forall_nil_2. }
  apply (run_dials cfg _ tr) in H0 as (_ & Hs & _).
  eapply Forall_forall in Hs; [|exact Hk].
  destruct Hs as ((Hu & Htk & _) & Hh). by rewrite Hh, Htk.
Qed.

End DialsTheorem.

Lemma every_socket_targets_the_configured_hub_witness :
  let tr := [Unfolded.Ready; Unfolded.Open 0%nat; Unfolded.Closed 0%nat; Unfolded.Fires 0%nat] in
  let k := Unfolded.mkSocket "ws://192.168.1.50:80/ws" "secret" [("API-KEY", "secret")] 0 [] in
  Unfolded.sockets (Unfolded.run (rt := Node.runtime) (Unfolded.init Samples.cfg) tr) !! 1%nat
  = Some k
  ∧ Unfolded.s_url k = "ws://192.168.1.50:80/ws"
  ∧ Unfolded.s_headers k = [("API-KEY", "secret")].
Proof.
  cbv zeta.
  assert (Unfolded.sockets
            (Unfolded.run (rt := Node.runtime) (Unfolded.init Samples.cfg)
               [Unfolded.Ready; Unfolded.Open 0%nat; Unfolded.Closed 0%nat;
                Unfolded.Fires 0%nat]) !! 1%nat
          = Some (Unfolded.mkSocket "ws://192.168.1.50:80/ws" "secret"
                    [("API-KEY", "secret")] 0 [])) as Hk by (vm_compute; reflexivity).
  split; [exact Hk|].
  destruct (every_socket_targets_the_configured_hub (rt := Node.runtime) Samples.cfg _ _
              (list_elem_of_lookup_2 _ _ _ Hk)) as [H1 H2].
  split; [refine (eq_trans H1 _); vm_compute; reflexivity|exact H2].
Defined.

(** ** The button reset *)

Section ButtonReset.
Import Unfolded Inv.
Context {rt : Runtime}.

Lemma filter_members {A} (P : A → Prop) `{!∀ x, Decision (P x)} (l : list A) :
  (∀ x, x ∈ l → P x) → filter P l = l.
Proof.
  induction l as [|x l IH]; intros HP; [done|].
  rewrite filter_cons_True by (apply HP; left).
  rewrite IH; [done|]. intros y Hy. apply HP. by right.
Qed.

Lemma find_fresh (ts : list Timer) (n : nat) (ms : Z) (cb : Callback) :
  (∀ t, t ∈ ts → (handle t < n)%nat) →
  list_find (λ t, handle t = n) (ts ++ [mkTimer n ms cb]) = Some (length ts, mkTimer n ms cb)
  ∧ filter (λ t, handle t ≠ n) (ts ++ [mkTimer n ms cb]) = ts.
Proof.
  intros Hlt. split.
  - rewrite list_find_app_r.
    + simpl. rewrite decide_True by done. simpl. repeat f_equal; lia.
    + apply list_find_None, Forall_forall. intros t Ht%Hlt Heq. lia.
  - rewrite filter_app, filter_cons_False, filter_nil, app_nil_r by (simpl; auto).
    apply filter_members. intros t Ht%Hlt. lia.
Qed.

Lemma fires_fresh_reset (w : World) (ts : list Timer) (n : nat) (id : string) :
  timers w = ts ++ [mkTimer n 500 (ResetButton id)] →
  (∀ t, t ∈ ts → (handle t < n)%nat) →
  step w (Fires n)
  = upd_states (λ m, <[id := mkState (JBool false) true]> m)
      (upd_timers (filter (λ t, handle t ≠ n)) w)
  ∧ filter (λ t, handle t ≠ n) (timers w) = ts.
Proof.
  intros Hts Hlt.
  destruct (find_fresh ts n 500 (ResetButton id) Hlt) as [Hfind Hfilter].
  rewrite <- Hts in Hfind, Hfilter. split; [|done].
  unfold step, spawn, try_catch, handler, run_callback, setState.
  unfold mbind, M_bind, mret, M_ret, bind, ret, gets, modify; simpl.
  by rewrite Hfind.
Qed.

(** X20.  A start press that is dispatched leaves one 500 ms timer
    behind, and when that timer fires the event loop writes [false],
    acknowledged, to the very node that was pressed and takes the timer
    off the pending list, whether or not the command could be sent. *)
Theorem start_button_resets_itself (w : World) (pre key : string) (state : jsval) :
  reachable w →
  connected w = true →
  Js.split "." key = [key] →
  Js.truthy state = true →
  Js.truthy (Js.prop state "ack") = false →
  Js.prop state "val" = JBool true →
  let id := pre +:+ "activities." +:+ key +:+ ".start" in
  let w1 := step w (StateChange id state) in
  let w2 := step w1 (Fires (next_handle w)) in
  timers w1 = timers w ++ [mkTimer (next_handle w) 500 (ResetButton id)]
  ∧ states w1 = states w
  ∧ states w2 = <[id := mkState (JBool false) true]> (states w)
  ∧ timers w2 = timers w
  ∧ sockets w2 = sockets w1.
Proof.
  intros Hreach Hconn Hkey Ht Hack Hval id w1 w2.
  destruct (reachable_socket_ok w Hreach) as [Hpos Hws].
  destruct (Hws (Hpos Hconn)) as (s & Hs & Hlt).
  pose proof (reachable_timers_ok w Hreach) as (Hfresh & _ & _).
  assert (timers w1 = timers w ++ [mkTimer (next_handle w) 500 (ResetButton id)]
          ∧ states w1 = states w) as [Ht1 Hs1].
  { subst w1. unfold step, spawn, handler, onStateChange, id.
    rewrite (split_start_id pre key Hkey).
    destruct (index_last_two (Js.split "." (pre +:+ "activities")) key "start") as [-> ->].
    unfold ws_send, fault, tpl, logger, setTimeout.
    unfold mbind, M_bind, mret, M_ret, bind, ret, gets, modify, when, lift, try_catch, throw;
      simpl.
    rewrite Ht, Hack. simpl. rewrite Hval, Hconn. simpl. rewrite Hs. simpl.
    by destruct (send_fault w). }
  destruct (fires_fresh_reset w1 _ _ _ Ht1 Hfresh) as [Hw2 Hfilter].
  subst w2. rewrite Hw2. simpl. by rewrite Hfilter, Hs1.
Qed.

End ButtonReset.

Lemma start_button_resets_itself_witness :
  let w1 := Unfolded.step (rt := Node.runtime) Samples.online
              (Unfolded.StateChange Samples.kitchen_start Samples.pressed) in
  let w2 := Unfolded.step (rt := Node.runtime) w1
              (Unfolded.Fires (Unfolded.next_handle Samples.online)) in
  Unfolded.reachable (rt := Node.runtime) Samples.online
  ∧ Unfolded.connected Samples.online = true
  ∧ Js.split "." "kitchen" = ["kitchen"]
  ∧ Js.truthy Samples.pressed = true
  ∧ Js.truthy (Js.prop Samples.pressed "ack") = false
  ∧ Js.prop Samples.pressed "val" = JBool true
  ∧ Unfolded.states w2
    = <[Samples.kitchen_start := Unfolded.mkState (JBool false) true]>
        (Unfolded.states Samples.online)
  ∧ Unfolded.timers w2 = [].
Proof.
  assert (Unfolded.reachable (rt := Node.runtime) Samples.online) as Hr.
  { exists Samples.cfg, [Unfolded.Ready; Unfolded.Open 0%nat]. reflexivity. }
  cbv zeta. split; [exact Hr|]. do 5 (split; [reflexivity|]).
  destruct (start_button_resets_itself (rt := Node.runtime) Samples.online "unfolded.0."
              "kitchen" Samples.pressed Hr eq_refl eq_refl eq_refl eq_refl eq_refl)
    as (_ & _ & H1 & H2 & _).
  split; [exact H1|]. refine (eq_trans H2 _). vm_compute. reflexivity.
Defined.

(** * Further properties of the REST adapter *)

(** ** The REST adapter's state ids *)

Section Ids.
Import Unfolded(Debug, Info, Error, mkState).
Import UnfoldedAdapter Naming.
Context {rt : Runtime}.

Lemma join_split (s : string) : Js.join "." (Js.split "." s) = s.
Proof.
  induction s as [|c r IH]; [done|]. simpl.
  pose proof (split_nonempty "." r) as Hne.
  destruct (Ascii.eqb_spec c ".") as [->|_].
  - destruct (Js.split "." r) as [|h t]; [done|].
    change (Js.join "." (EmptyString :: h :: t)) with (String "." (Js.join "." (h :: t))).
    by rewrite IH.
  - destruct (Js.split "." r) as [|h [|t1 t]]; [done|..].
    + simpl in *. by rewrite IH.
    + change (Js.join "." (String c h :: t1 :: t))
        with (String c (Js.join "." (h :: t1 :: t))).
      by rewrite IH.
Qed.

Lemma split_segments (s x : string) : x ∈ Js.split "." s → Js.split "." x = [x].
Proof.
  revert x. induction s as [|c r IH]; intros x; simpl.
  - by intros ->%list_elem_of_singleton.
  - pose proof (split_nonempty "." r) as Hne.
    destruct (Ascii.eqb_spec c ".") as [->|Hc].
    + intros [->|Hx]%elem_of_cons; [done|by apply IH].
    + destruct (Js.split "." r) as [|h t] eqn:Hr; [done|].
      intros [->|Hx]%elem_of_cons.
      * simpl. rewrite (proj2 (Ascii.eqb_neq c ".") Hc).
        rewrite (IH h); [done|by left].
      * apply IH. by right.
Qed.

Lemma split_action_id (t o a : string) :
  Js.split "." t = [t] → Js.split "." o = [o] → Js.split "." a = [a] →
  Js.split "." (t +:+ "." +:+ o +:+ ".actions." +:+ a) = [t; o; "actions"; a].
Proof.
  intros Ht Ho Ha.
  change (t +:+ "." +:+ o +:+ ".actions." +:+ a)
    with (t +:+ String "." (o +:+ String "." ("actions" +:+ String "." a))).
  by rewrite !split_app, Ht, Ho, Ha.
Qed.

Lemma eqb_empty (s : string) : String.eqb s EmptyString = false ↔ s ≠ EmptyString.
Proof. by destruct s. Qed.

Lemma match_action_spec (id t o a : string) :
  match_action id = Some (t, o, a)
  ↔ id = t +:+ "." +:+ o +:+ ".actions." +:+ a ∧ segment t ∧ segment o ∧ segment a.
Proof.
  unfold match_action, segment. split.
  - intros H. pose proof (join_split id) as Hj. pose proof (split_segments id) as Hseg.
    destruct (Js.split "." id) as [|t' [|o' [|k' [|a' [|? ?]]]]]; try done.
    destruct (String.eqb_spec k' "actions") as [->|]; [|done]. simpl in H.
    destruct (String.eqb t' EmptyString) eqn:Et; [done|].
    destruct (String.eqb o' EmptyString) eqn:Eo; [done|].
    destruct (String.eqb a' EmptyString) eqn:Ea; [done|].
    simpl in H. injection H as -> -> ->.
    apply eqb_empty in Et, Eo, Ea.
    split; [by rewrite <- Hj|].
    split_and!; try done; apply Hseg; set_solver.
  - intros (-> & [Ht Hts] & [Ho Hos] & [Ha Has]).
    rewrite split_action_id by done. simpl.
    apply eqb_empty in Ht, Ho, Ha. by rewrite Ht, Ho, Ha.
Qed.

(** X21.  The pattern of [onStateChange] accepts exactly the ids of the
    form [<type>.<id>.actions.<action>] whose three parts are not empty
    and hold no dot, and then yields those three parts. *)
Theorem match_action_accepts_four_segments (id t o a : string) :
  match_action id = Some (t, o, a)
  ↔ id = t +:+ "." +:+ o +:+ ".actions." +:+ a ∧ segment t ∧ segment o ∧ segment a.
Proof. apply match_action_spec. Qed.

Lemma no_dot_split (s : string) :
  every (λ c, negb (Ascii.eqb c ".")) s = true → Js.split "." s = [s].
Proof.
  induction s as [|c r IH]; [done|]. simpl.
  intros [Hc Hr]%andb_true_iff. apply negb_true_iff in Hc. rewrite Hc.
  by rewrite (IH Hr).
Qed.

Lemma every_impl (P Q : ascii → bool) (s : string) :
  (∀ c, P c = true → Q c = true) → every P s = true → every Q s = true.
Proof.
  intros HPQ. induction s as [|c r IH]; [done|]. simpl.
  intros [Hc Hr]%andb_true_iff. by rewrite (HPQ c Hc), (IH Hr).
Qed.

Lemma safe_underscore : is_safe "_" = true.
Proof. reflexivity. Qed.

Lemma safe_not_dot (c : ascii) : is_safe c = true → negb (Ascii.eqb c ".") = true.
Proof. destruct (Ascii.eqb_spec c ".") as [->|]; [|done]. by vm_compute. Qed.

Lemma sanitize_safe (s : string) : every is_safe (sanitize s) = true.
Proof.
  induction s as [|c r IH]; [done|]. simpl.
  destruct (is_safe c) eqn:Hc; simpl; [by rewrite Hc|].
  repeat (match goal with |- context [if ?b then _ else _] => destruct b end);
    simpl; rewrite ?safe_underscore; done.
Qed.

Lemma sanitize_id (s : string) : every is_safe s = true → sanitize s = s.
Proof.
  induction s as [|c r IH]; [done|]. simpl.
  intros [Hc Hr]%andb_true_iff. by rewrite Hc, (IH Hr).
Qed.

Lemma sanitize_segment (s : string) : Js.split "." (sanitize s) = [sanitize s].
Proof. apply no_dot_split, (every_impl is_safe), sanitize_safe. apply safe_not_dot. Qed.

(** X22.  What [replace(/[^a-zA-Z0-9_\-]/g, '_')] returns holds only
    letters, digits, [_] and [-], hence no dot: it is one segment of an
    id.  The replacement changes nothing in a string that is already of
    that kind, and only in such a string, and doing it twice is doing it
    once. *)
Theorem sanitize_gives_one_segment (s : string) :
  every is_safe (sanitize s) = true
  ∧ Js.split "." (sanitize s) = [sanitize s]
  ∧ sanitize (sanitize s) = sanitize s
  ∧ (sanitize s = s ↔ every is_safe s = true).
Proof.
  split_and!.
  - apply sanitize_safe.
  - apply sanitize_segment.
  - apply sanitize_id, sanitize_safe.
  - split; [|apply sanitize_id]. intros <-. apply sanitize_safe.
Qed.

(** X23.  The id start-up gives an action's trigger state is accepted by
    the pattern of [onStateChange] exactly when the entity's type is one
    non-empty segment without a dot and neither the sanitized entity id
    nor the sanitized action name is empty; the parts the pattern yields
    are the type and the two sanitized names. *)
Theorem created_action_id_is_accepted (type origId actionName : string) :
  (segment type ∧ sanitize origId ≠ EmptyString ∧ sanitize actionName ≠ EmptyString →
   match_action (action_id type origId actionName)
   = Some (type, sanitize origId, sanitize actionName))
  ∧ (¬ (segment type ∧ sanitize origId ≠ EmptyString ∧ sanitize actionName ≠ EmptyString) →
     match_action (action_id type origId actionName) = None).
Proof.
  split.
  - intros (Ht & Ho & Ha). apply match_action_spec.
    split; [done|]. split_and!; try done; split; auto using sanitize_segment.
  - intros Hn.
    destruct (match_action (action_id type origId actionName)) as [[[t o] a]|] eqn:Hm; [|done].
    apply match_action_spec in Hm as (Heq & Ht & Ho & Ha).
    assert (Js.split "." (action_id type origId actionName)
            = Js.split "." type ++ [sanitize origId; "actions"; sanitize actionName]) as Hsp.
    { unfold action_id.
      change (type +:+ "." +:+ sanitize origId +:+ ".actions." +:+ sanitize actionName)
        with (type +:+ String "." (sanitize origId
                +:+ String "." ("actions" +:+ String "." (sanitize actionName)))).
      by rewrite !split_app, !sanitize_segment. }
    rewrite Heq in Hsp. rewrite split_action_id in Hsp by apply Ht || apply Ho || apply Ha.
    pose proof (join_split type) as Hj.
    destruct (Js.split "." type) as [|t1 [|t2 ts]] eqn:Hty.
    + done.
    + simpl in Hsp, Hj. injection Hsp as -> -> ->. subst t1.
      destruct Hn. split_and!; [done|apply Ho|apply Ha].
    + apply (f_equal length) in Hsp. rewrite length_app in Hsp. simpl in Hsp. lia.
Qed.

Lemma plain_round_trip (s : string) :
  every plain (spaces_for_underscores (sanitize s)) = true.
Proof.
  assert (plain " " = true) as Hsp by reflexivity.
  induction s as [|c r IH]; [done|]. simpl.
  destruct (is_safe c) eqn:Hc; simpl.
  - destruct (Ascii.eqb_spec c "_") as [->|Hne]; simpl; rewrite ?Hsp; [done|].
    unfold plain at 1. rewrite Hc. by rewrite (proj2 (Ascii.eqb_neq c "_") Hne).
  - repeat (match goal with |- context [if ?b then _ else _] => destruct b end);
      simpl; rewrite ?Hsp; done.
Qed.

Lemma plain_kept (s : string) :
  every plain s = true → spaces_for_underscores (sanitize s) = s.
Proof.
  induction s as [|c r IH]; [done|]. simpl.
  intros [Hc Hr]%andb_true_iff. specialize (IH Hr). unfold plain in Hc.
  destruct (is_safe c) eqn:Hs; simpl in *.
  - destruct (Ascii.eqb_spec c "_") as [->|_]; simpl in *; [done|]. by rewrite IH.
  - apply Ascii.eqb_eq in Hc as ->. simpl. by rewrite IH.
Qed.

(** X24.  [onStateChange] recovers an action's name from the state id by
    turning every [_] into a space.  This gives back the name start-up
    sanitized exactly when the name holds nothing but letters, digits,
    hyphens and spaces: a name with an underscore, a dot or any other
    character is called under a different name. *)
Theorem action_name_round_trip (actionName : string) :
  spaces_for_underscores (sanitize actionName) = actionName
  ↔ every plain actionName = true.
Proof.
  split; [|apply plain_kept]. intros <-. apply plain_round_trip.
Qed.

(** X25.  For an entity whose channel carries its original id, an
    unacknowledged write to the trigger state start-up made for one of
    its actions posts once, to
    [<restBase>/api/v1/entities/<original id>/actions/<name>], both
    parts URI-encoded: the entity id is the original one, the action
    name is the sanitized one with every [_] turned into a space. *)
Theorem created_action_posts_to_entity (w : World) (type origId actionName : string)
    (channel : Object) (state : jsval) :
  segment type → sanitize origId ≠ EmptyString → sanitize actionName ≠ EmptyString →
  objects w !! (type +:+ "." +:+ sanitize origId) = Some channel →
  unfolded_original_id channel = Some origId →
  origId ≠ EmptyString →
  Js.truthy state = true →
  Js.truthy (Js.prop state "ack") = false →
  ∃ body,
    posts (onStateChange (action_id type origId actionName) state w).2
    = posts w
      ++ [(default "null" (restBase w) +:+ "/api/v1/entities/" +:+ encodeURIComponent origId
           +:+ "/actions/"
           +:+ encodeURIComponent (spaces_for_underscores (sanitize actionName)), body)].
Proof.
  intros Ht Ho Ha Hch Hid Hne Htr Hack.
  assert (match_action (action_id type origId actionName)
          = Some (type, sanitize origId, sanitize actionName)) as Hm.
  { apply match_action_spec. split; [done|].
    split_and!; try done; split; auto using sanitize_segment. }
  unfold onStateChange. rewrite Htr, Hack, Hm. simpl.
  unfold axios_post, getForeignObjectAsync, setStateAsync, setObjectNotExistsAsync, logger.
  unfold mbind at 1, M_bind at 1, bind at 1, modify at 1.
  unfold try_catch, mbind, M_bind, bind, gets, modify, lift; simpl.
  rewrite Hch. simpl. rewrite Hid. simpl.
  apply eqb_empty in Hne. rewrite Hne.
  match goal with
  | |- context [post_reply w ?u ?b] => exists b; by destruct (post_reply w u b)
  end.
Qed.

(** X26.  A write to an id that does not have exactly four segments,
    such as one that still carries the adapter's namespace, never
    reaches the hub: the handler returns without a POST and without
    writing a state or an object. *)
Theorem other_ids_never_post (w : World) (id : string) (state : jsval) :
  length (Js.split "." id) ≠ 4%nat →
  let r := onStateChange id state w in
  r.1 = Ok tt ∧ posts r.2 = posts w ∧ states r.2 = states w ∧ objects r.2 = objects w.
Proof.
  intros Hlen r. subst r. unfold onStateChange.
  destruct (negb (Js.truthy state) || Js.truthy (Js.prop state "ack")); [done|].
  assert (match_action id = None) as ->; [|done].
  unfold match_action.
  by destruct (Js.split "." id) as [|t' [|o' [|k' [|a' [|? ?]]]]].
Qed.

End Ids.

Lemma match_action_accepts_four_segments_witness :
  UnfoldedAdapter.match_action "activity.uc_main_kitchen.actions.start"
  = Some ("activity", "uc_main_kitchen", "start")
  ∧ Naming.segment "activity".
Proof.
  assert (UnfoldedAdapter.match_action "activity.uc_main_kitchen.actions.start"
          = Some ("activity", "uc_main_kitchen", "start")) as H by reflexivity.
  split; [exact H|].
  exact (proj1 (proj2 (proj1 (match_action_accepts_four_segments _ _ _ _) H))).
Defined.

Lemma created_action_id_is_accepted_witness :
  Naming.action_id "activity" "uc.main.kitchen" "volume up"
  = "activity.uc_main_kitchen.actions.volume_up"
  ∧ UnfoldedAdapter.match_action (Naming.action_id "activity" "uc.main.kitchen" "volume up")
    = Some ("activity", "uc_main_kitchen", "volume_up")
  ∧ UnfoldedAdapter.match_action (Naming.action_id "media.player" "uc.main.kitchen" "volume up")
    = None.
Proof.
  split; [reflexivity|].
  destruct (created_action_id_is_accepted "activity" "uc.main.kitchen" "volume up") as [H _].
  destruct (created_action_id_is_accepted "media.player" "uc.main.kitchen" "volume up")
    as [_ H'].
  split.
  - refine (eq_trans (H _) _); [|reflexivity].
    split; [split; [discriminate|reflexivity]|]. split; discriminate.
  - apply H'. intros [[_ Hs] _]. discriminate Hs.
Defined.

Lemma action_name_round_trip_witness :
  UnfoldedAdapter.spaces_for_underscores (Naming.sanitize "volume up") = "volume up"
  ∧ UnfoldedAdapter.spaces_for_underscores (Naming.sanitize "volume_up") ≠ "volume_up".
Proof.
  split.
  - apply (proj2 (action_name_round_trip "volume up")). reflexivity.
  - intros H. apply (proj1 (action_name_round_trip "volume_up")) in H. discriminate H.
Defined.

Lemma created_action_posts_to_entity_witness :
  let id := Naming.action_id "activity" "uc.main.kitchen" "start" in
  Naming.segment "activity"
  ∧ Naming.sanitize "uc.main.kitchen" ≠ EmptyString
  ∧ Naming.sanitize "start" ≠ EmptyString
  ∧ UnfoldedAdapter.objects Samples3.loaded !! ("activity" +:+ "." +:+ Naming.sanitize "uc.main.kitchen")
    = Some Samples3.kitchen_channel
  ∧ Js.truthy Samples3.go = true
  ∧ Js.truthy (Js.prop Samples3.go "ack") = false
  ∧ ∃ body,
      UnfoldedAdapter.posts
        (UnfoldedAdapter.onStateChange (rt := Node.runtime) id Samples3.go Samples3.loaded).2
      = [("http://192.168.1.50:80/api/v1/entities/uc.main.kitchen/actions/start", body)].
Proof.
  cbv zeta.
  assert (Naming.segment "activity") as H1 by (split; [discriminate|reflexivity]).
  assert (Naming.sanitize "uc.main.kitchen" ≠ EmptyString) as H2 by discriminate.
  assert (Naming.sanitize "start" ≠ EmptyString) as H3 by discriminate.
  assert (UnfoldedAdapter.objects Samples3.loaded
            !! ("activity" +:+ "." +:+ Naming.sanitize "uc.main.kitchen")
          = Some Samples3.kitchen_channel) as H4 by (vm_compute; reflexivity).
  assert ("uc.main.kitchen" ≠ EmptyString) as H5 by discriminate.
  split; [exact H1|]. split; [exact H2|]. split; [exact H3|]. split; [exact H4|].
  split; [reflexivity|]. split; [reflexivity|].
  destruct (created_action_posts_to_entity (rt := Node.runtime) Samples3.loaded "activity"
              "uc.main.kitchen" "start" Samples3.kitchen_channel Samples3.go
              H1 H2 H3 H4 eq_refl H5 eq_refl eq_refl) as [body Hb].
  exists body. refine (eq_trans Hb _). vm_compute. reflexivity.
Defined.

Lemma other_ids_never_post_witness :
  let id := "unfoldedcircle-remote3.0.activity.uc_main_kitchen.actions.start" in
  let r := UnfoldedAdapter.onStateChange (rt := Node.runtime) id Samples3.go Samples3.loaded in
  length (Js.split "." id) ≠ 4%nat
  ∧ r.1 = Ok tt
  ∧ UnfoldedAdapter.posts r.2 = [].
Proof.
  cbv zeta.
  assert (length (Js.split "." "unfoldedcircle-remote3.0.activity.uc_main_kitchen.actions.start")
          ≠ 4%nat) as H by (vm_compute; discriminate).
  split; [exact H|].
  destruct (other_ids_never_post (rt := Node.runtime) Samples3.loaded _ Samples3.go H)
    as (H1 & H2 & _).
  split; [exact H1|exact H2].
Defined.

Lemma sanitize_gives_one_segment_witness :
  Naming.sanitize "Küche.1" = "K_che_1"
  ∧ Js.split "." (Naming.sanitize "Küche.1") = [Naming.sanitize "Küche.1"].
Proof.
  split; [reflexivity|].
  exact (proj1 (proj2 (sanitize_gives_one_segment "Küche.1"))).
Defined.
